(** * Paradigm FSPD automated market taker (fspd/auto-taker.py)

    A shallow embedding of the request signer, the order payload builder,
    the two venue calls and the submission loop of [AutoTaker], and of the
    script part of the file, with the properties of its written description
    stated against it, followed by further properties of the code.

    Conventions.
    - A Python [bytes] value is a [string] (a sequence of 8-bit characters).
      A Python [str] is held as the [string] of its UTF-8 code units, so
      [s.encode('utf-8')] is the identity on the representation.
    - Python integers are [Z].  A Python float is the rational number it
      stands for, and a float operation gives the exact result rounded to
      binary64, to nearest with ties to even ([Float.binary64]); infinities
      and NaN, hence results beyond the largest finite float, are left
      out.  The conversion of an int beyond the largest float raises
      OverflowError ([Float.overflows]).
    - Exceptions are values of [exn]; a call that may raise returns a
      [result].
    - What the standard library and aiohttp do (base64, hmac, sha256,
      [ClientResponse.json], the exception classes) is written out here from
      their documented behaviour, CPython 3.8 to 3.12 for
      [binascii.a2b_base64]. *)

From Stdlib Require Import ZArith QArith Qround Qabs Qpower List String Ascii Bool Lia Lqa.
Import ListNotations.
Local Open Scope string_scope.
Local Open Scope list_scope.
Local Open Scope Z_scope.

(* ------------------------------------------------------------------ *)
(** ** Python values *)

Definition str := string.
Definition bytes := string.

(** [ord] and [chr] on single bytes. *)
Definition ord (c : ascii) : Z := Z.of_N (N_of_ascii c).
Definition chr (z : Z) : ascii := ascii_of_N (Z.to_N z).

Definition list_of_bytes (s : bytes) : list Z := map ord (list_ascii_of_string s).
Definition bytes_of_list (l : list Z) : bytes := string_of_list_ascii (map chr l).

(** [s.encode('utf-8')] under the representation convention above. *)
Definition encode_utf8 (s : str) : bytes := s.
(** [b.decode('utf-8')] for the ASCII byte strings the signer produces. *)
Definition decode_utf8 (b : bytes) : str := b.

(** Exceptions that the modelled code can raise or meet. *)
Inductive exn : Type :=
  | BinasciiError (msg : string)          (* binascii.Error, a ValueError *)
  | TypeError (msg : string)
  | KeyError (key : string)
  | JSONDecodeError                        (* json.JSONDecodeError, a ValueError *)
  | ContentTypeError (ctype : string)     (* aiohttp: unexpected Content-Type *)
  | ClientConnectorError (msg : string)   (* aiohttp: connection could not be opened *)
  | ClientOSError (msg : string)          (* aiohttp: OS error on an open connection, e.g. reset *)
  | ServerDisconnectedError               (* aiohttp *)
  | ClientPayloadError (msg : string)     (* aiohttp: body could not be read *)
  | TimeoutError                           (* asyncio.TimeoutError *)
  | OverflowError (msg : string).         (* an int too large for a float *)

Inductive result (A : Type) : Type :=
  | Ok (a : A)
  | Raise (e : exn).
Arguments Ok {A} a.
Arguments Raise {A} e.

Definition bind {A B} (r : result A) (k : A -> result B) : result B :=
  match r with
  | Ok a => k a
  | Raise e => Raise e
  end.

Notation "x <- r ;; k" := (bind r (fun x => k))
  (at level 61, r at next level, right associativity).

Definition is_ok {A} (r : result A) : bool :=
  match r with Ok _ => true | Raise _ => false end.

(* ------------------------------------------------------------------ *)
(** ** base64 (module [base64] over [binascii]) *)

Module Base64.

Definition BASE64_PAD : ascii := "="%char.

Definition table_b2a_base64 : string :=
  "ABCDEFGHIJKLMNOPQRSTUVWXYZabcdefghijklmnopqrstuvwxyz0123456789+/".

Definition b2a (n : Z) : ascii :=
  match String.get (Z.to_nat n) table_b2a_base64 with
  | Some c => c
  | None => BASE64_PAD
  end.

(** The decoding table of binascii: the 6-bit value of an alphabet
    character, 0 for the pad character, 255 (the C table's -1 read as an
    unsigned char) for everything else. *)
Definition table_a2b_base64 (c : ascii) : Z :=
  let n := ord c in
  if (65 <=? n) && (n <=? 90) then n - 65
  else if (97 <=? n) && (n <=? 122) then n - 71
  else if (48 <=? n) && (n <=? 57) then n + 4
  else if n =? 43 then 62
  else if n =? 47 then 63
  else if n =? 61 then 0
  else 255.

(** [binascii.b2a_base64(data, newline=False)]: three bytes give four
    characters, a final group of one or two bytes is padded with "=". *)
Fixpoint b2a_base64 (s : bytes) : bytes :=
  match s with
  | EmptyString => EmptyString
  | String a EmptyString =>
      String (b2a (Z.shiftr (ord a) 2))
     (String (b2a (Z.shiftl (Z.land (ord a) 3) 4))
     (String BASE64_PAD (String BASE64_PAD EmptyString)))
  | String a (String b EmptyString) =>
      String (b2a (Z.shiftr (ord a) 2))
     (String (b2a (Z.lor (Z.shiftl (Z.land (ord a) 3) 4) (Z.shiftr (ord b) 4)))
     (String (b2a (Z.shiftl (Z.land (ord b) 15) 2))
     (String BASE64_PAD EmptyString)))
  | String a (String b (String c rest)) =>
      String (b2a (Z.shiftr (ord a) 2))
     (String (b2a (Z.lor (Z.shiftl (Z.land (ord a) 3) 4) (Z.shiftr (ord b) 4)))
     (String (b2a (Z.lor (Z.shiftl (Z.land (ord b) 15) 2) (Z.shiftr (ord c) 6)))
     (String (b2a (Z.land (ord c) 63)) (b2a_base64 rest))))
  end.

(** [binascii.a2b_base64(data)] in its default, non-strict mode, as the loop
    of the C implementation: [quad_pos] counts the data characters of the
    current group of four, [leftchar] holds the bits not yet written,
    [pads] counts the pad characters seen since the last data character.
    A pad that completes a group once at least two of its data characters
    were read ends the decoding ([goto done]); other pads, and every
    character outside the alphabet, are skipped.  At the end of the input an
    unfinished group is the error [binascii.Error]. *)
Fixpoint a2b_loop (s : bytes) (quad_pos leftchar pads : Z) (bin_data : bytes)
  : result bytes :=
  match s with
  | EmptyString =>
      if quad_pos =? 0 then Ok bin_data
      else if quad_pos =? 1 then
        Raise (BinasciiError "Invalid base64-encoded string: number of data characters cannot be 1 more than a multiple of 4")
      else Raise (BinasciiError "Incorrect padding")
  | String this_ch rest =>
      if Ascii.eqb this_ch BASE64_PAD then
        if 2 <=? quad_pos then
          if 4 <=? quad_pos + (pads + 1) then Ok bin_data
          else a2b_loop rest quad_pos leftchar (pads + 1) bin_data
        else a2b_loop rest quad_pos leftchar pads bin_data
      else
        let v := table_a2b_base64 this_ch in
        if 64 <=? v then a2b_loop rest quad_pos leftchar pads bin_data
        else if quad_pos =? 0 then
          a2b_loop rest 1 v 0 bin_data
        else if quad_pos =? 1 then
          a2b_loop rest 2 (Z.land v 15) 0
            (String.append bin_data (String (chr (Z.lor (Z.shiftl leftchar 2) (Z.shiftr v 4))) ""))
        else if quad_pos =? 2 then
          a2b_loop rest 3 (Z.land v 3) 0
            (String.append bin_data (String (chr (Z.lor (Z.shiftl leftchar 4) (Z.shiftr v 2))) ""))
        else if quad_pos =? 3 then
          a2b_loop rest 0 0 0
            (String.append bin_data (String (chr (Z.lor (Z.shiftl leftchar 6) v)) ""))
        else a2b_loop rest quad_pos leftchar 0 bin_data
  end.

Definition a2b_base64 (s : bytes) : result bytes := a2b_loop s 0 0 0 "".

(** [base64.b64encode(s)] and [base64.b64decode(s)] with their default
    arguments (no alternative alphabet, [validate=False]). *)
Definition b64encode (s : bytes) : bytes := b2a_base64 s.
Definition b64decode (s : bytes) : result bytes := a2b_base64 s.

End Base64.

(* ------------------------------------------------------------------ *)
(** ** SHA-256 (FIPS 180-4) and HMAC (RFC 2104), as [hmac.digest] uses them *)

Module Sha256.

Definition w32 (x : Z) : Z := Z.land x 0xffffffff.
Definition add32 (x y : Z) : Z := w32 (x + y).
Definition rotr (n x : Z) : Z := Z.lor (Z.shiftr x n) (w32 (Z.shiftl x (32 - n))).
Definition not32 (x : Z) : Z := Z.lxor x 0xffffffff.

Definition Ch (x y z : Z) : Z := Z.lxor (Z.land x y) (Z.land (not32 x) z).
Definition Maj (x y z : Z) : Z :=
  Z.lxor (Z.lxor (Z.land x y) (Z.land x z)) (Z.land y z).
Definition Sigma0 (x : Z) : Z := Z.lxor (Z.lxor (rotr 2 x) (rotr 13 x)) (rotr 22 x).
Definition Sigma1 (x : Z) : Z := Z.lxor (Z.lxor (rotr 6 x) (rotr 11 x)) (rotr 25 x).
Definition sigma0 (x : Z) : Z := Z.lxor (Z.lxor (rotr 7 x) (rotr 18 x)) (Z.shiftr x 3).
Definition sigma1 (x : Z) : Z := Z.lxor (Z.lxor (rotr 17 x) (rotr 19 x)) (Z.shiftr x 10).

(** The constants of FIPS 180-4, section 4.2.2 and 5.3.3: the first 32
    bits of the fractional parts of the cube roots of the first 64 primes,
    and of the square roots of the first 8 primes. *)
Definition is_prime (n : nat) : bool :=
  forallb (fun d => negb (Nat.eqb (Nat.modulo n d) 0)) (seq 2 (n - 2)).

Definition primes : list Z := map Z.of_nat (filter is_prime (seq 2 310)).

(** The integer part of the cube root of [n], found bit by bit below
    [2 ^ bits]. *)
Fixpoint cube_root (bits : nat) (n : Z) (r : Z) : Z :=
  match bits with
  | O => r
  | S b =>
      let c := r + Z.shiftl 1 (Z.of_nat b) in
      cube_root b n (if c * c * c <=? n then c else r)
  end.

Definition K : list Z :=
  Eval vm_compute in
    map (fun p => w32 (cube_root 36 (Z.shiftl p 96) 0)) (firstn 64 primes).

Definition H0 : list Z :=
  Eval vm_compute in
    map (fun p => w32 (Z.sqrt (Z.shiftl p 64))) (firstn 8 primes).

(** Big-endian bytes of a word, most significant first. *)
Fixpoint be_bytes (n : nat) (x : Z) : list Z :=
  match n with
  | O => []
  | S m => Z.land (Z.shiftr x (8 * Z.of_nat m)) 255 :: be_bytes m x
  end.

Fixpoint be_word (l : list Z) (acc : Z) : Z :=
  match l with
  | [] => acc
  | b :: t => be_word t (Z.lor (Z.shiftl acc 8) b)
  end.

(** Padding: the bit 1, zeros up to 56 modulo 64 bytes, the bit length on
    eight bytes. *)
Definition pad (msg : list Z) : list Z :=
  let len := Z.of_nat (List.length msg) in
  let zeros := Z.to_nat ((55 - len) mod 64) in
  msg ++ 128 :: repeat 0 zeros ++ be_bytes 8 (8 * len).

Fixpoint words (n : nat) (l : list Z) : list Z :=
  match n with
  | O => []
  | S m => be_word (firstn 4 l) 0 :: words m (skipn 4 l)
  end.

(** The message schedule, newest word first: [w] holds W(t-1), W(t-2), ... *)
Fixpoint schedule (n : nat) (w : list Z) : list Z :=
  match n with
  | O => w
  | S m =>
      let wt := add32 (add32 (sigma1 (nth 1 w 0)) (nth 6 w 0))
                      (add32 (sigma0 (nth 14 w 0)) (nth 15 w 0)) in
      schedule m (wt :: w)
  end.

Record regs := Regs { ra : Z; rb : Z; rc : Z; rd : Z; re : Z; rf : Z; rg : Z; rh : Z }.

Definition round (r : regs) (kw : Z * Z) : regs :=
  let t1 := add32 (add32 (add32 (rh r) (Sigma1 (re r))) (Ch (re r) (rf r) (rg r)))
                  (add32 (fst kw) (snd kw)) in
  let t2 := add32 (Sigma0 (ra r)) (Maj (ra r) (rb r) (rc r)) in
  Regs (add32 t1 t2) (ra r) (rb r) (rc r) (add32 (rd r) t1) (re r) (rf r) (rg r).

Definition regs_of (h : list Z) : regs :=
  Regs (nth 0 h 0) (nth 1 h 0) (nth 2 h 0) (nth 3 h 0)
       (nth 4 h 0) (nth 5 h 0) (nth 6 h 0) (nth 7 h 0).

Definition compress (h : list Z) (block : list Z) : list Z :=
  let w := rev (schedule 48 (rev (words 16 block))) in
  let r := fold_left round (combine K w) (regs_of h) in
  let i := regs_of h in
  [ add32 (ra i) (ra r); add32 (rb i) (rb r); add32 (rc i) (rc r); add32 (rd i) (rd r);
    add32 (re i) (re r); add32 (rf i) (rf r); add32 (rg i) (rg r); add32 (rh i) (rh r) ].

Fixpoint blocks (n : nat) (l : list Z) (h : list Z) : list Z :=
  match n with
  | O => h
  | S m => blocks m (skipn 64 l) (compress h (firstn 64 l))
  end.

Definition digest_list (msg : list Z) : list Z :=
  let p := pad msg in
  flat_map (be_bytes 4) (blocks (List.length p / 64) p H0).

Definition sha256 (msg : bytes) : bytes := bytes_of_list (digest_list (list_of_bytes msg)).

End Sha256.

Module Hmac.

Definition block_size : nat := 64.

Definition xor_bytes (c : Z) (l : list Z) : list Z := map (fun b => Z.lxor b c) l.

(** [hmac.digest(key, msg, 'sha256')]: a key longer than a block is hashed
    first, then zero-filled to the block size. *)
Definition digest_sha256 (key msg : bytes) : bytes :=
  let k := list_of_bytes key in
  let k := if Nat.ltb block_size (List.length k) then Sha256.digest_list k else k in
  let k := k ++ repeat 0 (block_size - List.length k) in
  let inner := Sha256.digest_list (xor_bytes 0x36 k ++ list_of_bytes msg) in
  bytes_of_list (Sha256.digest_list (xor_bytes 0x5c k ++ inner)).

End Hmac.

(* ------------------------------------------------------------------ *)
(** ** Floats: rounding to binary64 *)

Module Float.

(** The integer part of the base-2 logarithm of a positive rational. *)
Definition ilog2 (x : Q) : Z :=
  if Qle_bool 1 x then Z.log2 (Qfloor x) else - Z.log2_up (Qceiling (/ x)).

(** The nearest integer, the even one of two nearest. *)
Definition round_even (t : Q) : Z :=
  let f := Qfloor t in
  match Qcompare (t - inject_Z f) (1 # 2) with
  | Lt => f
  | Gt => f + 1
  | Eq => if Z.even f then f else f + 1
  end.

(** The exponent of the last place of the binary64 numbers around [x]: 53
    significant bits, and no exponent below that of the subnormals. *)
Definition expo (x : Q) : Z := Z.max (ilog2 (Qabs x) - 52) (-1074).

(** The binary64 number nearest to [x]. *)
Definition binary64 (x : Q) : Q :=
  if Qeq_bool x 0 then 0%Q
  else Qred (inject_Z (round_even (x / 2 ^ expo x)) * 2 ^ expo x).

(** [float(n)] of an integer, and the float operations the source uses. *)
Definition of_int (n : Z) : Q := binary64 (inject_Z n).
Definition mul (x y : Q) : Q := binary64 (x * y).
Definition add (x y : Q) : Q := binary64 (x + y).

(** The number rounds to 2^1024 or beyond in magnitude, past the largest
    binary64 number: the conversion of such an int to a float raises
    OverflowError. *)
Definition overflows (x : Q) : bool := Qle_bool (2 ^ 1024) (Qabs (binary64 x)).

End Float.

(* ------------------------------------------------------------------ *)
(** ** Values received from and sent to the venue *)

#[local] Set Warnings "-register-all".

(** The values JSON carries; a [dict] keeps its insertion order. *)
Inductive pyval : Type :=
  | PNone
  | PBool (b : bool)
  | PInt (z : Z)
  | PFloat (x : Q)
  | PStr (s : str)
  | PList (l : list pyval)
  | PDict (d : list (str * pyval)).

Definition dict := list (str * pyval).

(** Truth value of an object, as [if x:] tests it. *)
Definition truthy (v : pyval) : bool :=
  match v with
  | PNone => false
  | PBool b => b
  | PInt z => negb (z =? 0)
  | PFloat x => negb (Qeq_bool x 0)
  | PStr s => negb (String.eqb s "")
  | PList l => match l with [] => false | _ => true end
  | PDict d => match d with [] => false | _ => true end
  end.

Fixpoint dict_get (d : dict) (k : str) : option pyval :=
  match d with
  | [] => None
  | (k', v) :: t => if String.eqb k' k then Some v else dict_get t k
  end.

(** [d[k] = v]: an existing key keeps its place, a new key goes last. *)
Fixpoint dict_set (d : dict) (k : str) (v : pyval) : dict :=
  match d with
  | [] => [(k, v)]
  | (k', v') :: t =>
      if String.eqb k' k then (k', v) :: t else (k', v') :: dict_set t k v
  end.

(** A dict display [{k1: v1, ...}]. *)
Definition dict_display (kvs : list (str * pyval)) : dict :=
  fold_left (fun d kv => dict_set d (fst kv) (snd kv)) kvs [].

Definition dict_has (d : dict) (k : str) : bool :=
  match dict_get d k with Some _ => true | None => false end.

Definition type_name (v : pyval) : string :=
  match v with
  | PNone => "NoneType"
  | PBool _ => "bool"
  | PInt _ => "int"
  | PFloat _ => "float"
  | PStr _ => "str"
  | PList _ => "list"
  | PDict _ => "dict"
  end.

(** [v[k]] for a string key [k]. *)
Definition subscript (v : pyval) (k : str) : result pyval :=
  match v with
  | PDict d =>
      match dict_get d k with
      | Some x => Ok x
      | None => Raise (KeyError k)
      end
  | PList _ => Raise (TypeError "list indices must be integers or slices, not str")
  | PStr _ => Raise (TypeError "string indices must be integers")
  | _ => Raise (TypeError (String.append "'" (String.append (type_name v) "' object is not subscriptable")))
  end.

(** The elements [for x in v] visits.  A dict gives its keys; a str gives
    strings of its characters (how the code units group into characters is
    of no consequence: every element is a str). *)
Definition iterate (v : pyval) : result (list pyval) :=
  match v with
  | PList l => Ok l
  | PDict d => Ok (map (fun kv => PStr (fst kv)) d)
  | PStr s => Ok (map (fun c => PStr (String c "")) (list_ascii_of_string s))
  | _ => Raise (TypeError (String.append "'" (String.append (type_name v) "' object is not iterable")))
  end.

(** [str(n)] of an integer: decimal digits, a minus sign when negative. *)
Fixpoint digits_le (fuel : nat) (n : Z) : list Z :=
  match fuel with
  | O => []
  | S f => n mod 10 :: (if n <? 10 then [] else digits_le f (n / 10))
  end.

Definition digit_char (d : Z) : ascii := chr (48 + d).

Definition str_of_nonneg (n : Z) : str :=
  string_of_list_ascii (map digit_char (rev (digits_le (S (Z.to_nat (Z.log2 n))) n))).

Definition str_of_int (z : Z) : str :=
  if z <? 0 then String "-" (str_of_nonneg (- z)) else str_of_nonneg z.

(** [int(x)] of a float: truncation toward zero. *)
Definition int_of_Q (x : Q) : Z := Z.quot (Qnum x) (Z.pos (Qden x)).

(** [b.upper()] on bytes: the ASCII letters a to z only. *)
Definition upper_char (c : ascii) : ascii :=
  if (97 <=? ord c) && (ord c <=? 122) then chr (ord c - 32) else c.

Fixpoint bytes_upper (b : bytes) : bytes :=
  match b with
  | EmptyString => EmptyString
  | String c t => String (upper_char c) (bytes_upper t)
  end.

(** [sep.join(parts)]. *)
Fixpoint bytes_join (sep : bytes) (parts : list bytes) : bytes :=
  match parts with
  | [] => ""
  | [x] => x
  | x :: t => String.append x (String.append sep (bytes_join sep t))
  end.

(** ASCII whitespace, as [bytes.strip()] removes it. *)
Definition is_space (c : ascii) : bool :=
  let n := ord c in (n =? 32) || ((9 <=? n) && (n <=? 13)).

Fixpoint all_space (b : bytes) : bool :=
  match b with
  | EmptyString => true
  | String c t => is_space c && all_space t
  end.

(* ------------------------------------------------------------------ *)
(** ** The enumerations and the two data classes *)

Module TradeAction.
Inductive t : Type := BUY | SELL.
Definition name (a : t) : str :=
  match a with BUY => "BUY" | SELL => "SELL" end.
(** [[*TradeAction]]: the members in definition order. *)
Definition members : list t := [BUY; SELL].
End TradeAction.

Module OrderType.
Inductive t : Type := LIMIT | MARKET.
Definition name (a : t) : str :=
  match a with LIMIT => "LIMIT" | MARKET => "MARKET" end.
End OrderType.

Module Strategy.
Record t : Type := Build { id : pyval; min_block_size : pyval }.
End Strategy.

Module Order.
Record t : Type := Build {
  id : pyval;
  side : pyval;
  amount : pyval;
  account_name : pyval;
  type : pyval;
  price : pyval
}.

(** [Order(id=, side=, amount=, account_name=)] with the defaults
    [type=OrderType.MARKET.name] and [price=None]. *)
Definition init (id side amount account_name : pyval) : t :=
  Build id side amount account_name (PStr (OrderType.name OrderType.MARKET)) PNone.

(** The property [order_payload]. *)
Definition order_payload (self : t) : dict :=
  let _order_payload :=
    dict_display [ ("account_name", account_name self);
                   ("strategy_id", id self);
                   ("type", type self);
                   ("amount", amount self);
                   ("side", side self) ] in
  if truthy (price self)
  then dict_set _order_payload "price" (price self)
  else _order_payload.
End Order.

(* ------------------------------------------------------------------ *)
(** ** What the network and the logger see *)

(** An [aiohttp.ClientResponse]: the status line, the headers, and what
    awaiting [read()] gives (the body, or an exception while receiving it). *)
Record ClientResponse : Type := {
  url : str;
  status : Z;
  reason : str;
  headers : list (str * str);
  content_type : str;          (* the Content-Type header, "" when absent *)
  read : result bytes
}.

(** [repr(response)], the text [f'{response}'] interpolates: the url, the
    status, the reason and the headers. *)
Definition response_repr (r : ClientResponse) : str * Z * str * list (str * str) :=
  (url r, status r, reason r, headers r).

(** What entering [async with session.post(...)] or [session.get(...)]
    gives: a response, or the exception the client raises. *)
Inductive http_outcome : Type :=
  | Response (r : ClientResponse)
  | Failure (e : exn).

Inductive level : Type := INFO | ERROR.

(** The pieces of a formatted log message: literal text and the
    interpolated objects. *)
Inductive piece : Type :=
  | Lit (s : str)
  | FInt (z : Z)
  | FVal (v : pyval)
  | FDict (d : dict)
  | FResponse (r : str * Z * str * list (str * str))
  | FExn (e : exn).

Inductive event : Type :=
  | Request (method : str) (to : str) (hdrs : list (str * str)) (json : option dict)
  | Logged (l : level) (msg : list piece).

Definition is_post (e : event) : bool :=
  match e with Request m _ _ _ => String.eqb m "POST" | Logged _ _ => false end.

(** [except aiohttp.ClientConnectorError]: the class and its subclasses. *)
Definition isinstance_ClientConnectorError (e : exn) : bool :=
  match e with ClientConnectorError _ => true | _ => false end.

(** aiohttp's test of a Content-Type against "application/json", the
    pattern [^application/(?:[\w.+-]+?\+)?json] on the lower-cased header
    (ASCII letters, digits and underscore for [\w]). *)
Definition lower_char (c : ascii) : ascii :=
  if (65 <=? ord c) && (ord c <=? 90) then chr (ord c + 32) else c.

Fixpoint str_lower (s : str) : str :=
  match s with
  | EmptyString => EmptyString
  | String c t => String (lower_char c) (str_lower t)
  end.

Definition is_subtype_char (c : ascii) : bool :=
  let n := ord c in
  ((97 <=? n) && (n <=? 122)) || ((65 <=? n) && (n <=? 90)) ||
  ((48 <=? n) && (n <=? 57)) || (n =? 95) || (n =? 46) || (n =? 43) || (n =? 45).

(** After at least one subtype character: some "+json" follows within the
    run of subtype characters. *)
Fixpoint plus_json_follows (s : str) : bool :=
  match s with
  | EmptyString => false
  | String c t =>
      (Ascii.eqb c "+" && String.prefix "json" t) ||
      (is_subtype_char c && plus_json_follows t)
  end.

Definition is_expected_content_type (ctype : str) : bool :=
  let s := str_lower ctype in
  if String.prefix "application/" s then
    let t := String.substring 12 (String.length s - 12) s in
    String.prefix "json" t ||
    match t with
    | EmptyString => false
    | String c u => is_subtype_char c && plus_json_follows u
    end
  else false.

(* ------------------------------------------------------------------ *)
(** ** class AutoTaker *)

Module AutoTaker.

(** The instance.  [availabile_strateies] and [order_payloads] are the two
    attributes [manager] sets (spelt as in the source); the three numeric
    settings are held after their [int(...)] conversion. *)
Record t : Type := Build {
  paradigm_http_url : str;
  paradigm_taker_account_name : str;
  paradigm_taker_access_key : str;
  paradigm_taker_secret_key : str;
  order_number_per_strategy : Z;
  order_submission_lower_boundary : Z;
  order_submission_higher_boundary : Z;
  availabile_strateies : list Strategy.t;
  order_payloads : list Order.t
}.

(** What [__init__] stores before it runs [manager] on the event loop. *)
Definition init (paradigm_http_url paradigm_taker_account_name
                 paradigm_taker_access_key paradigm_taker_secret_key : str)
                (order_number_per_strategy order_submission_lower_boundary
                 order_submission_higher_boundary : Z) : t :=
  Build paradigm_http_url paradigm_taker_account_name paradigm_taker_access_key
        paradigm_taker_secret_key order_number_per_strategy
        order_submission_lower_boundary order_submission_higher_boundary [] [].

Definition set_paradigm_http_url (u : str) (self : t) : t :=
  Build u (paradigm_taker_account_name self) (paradigm_taker_access_key self)
        (paradigm_taker_secret_key self) (order_number_per_strategy self)
        (order_submission_lower_boundary self) (order_submission_higher_boundary self)
        (availabile_strateies self) (order_payloads self).

Definition set_order_number_per_strategy (n : Z) (self : t) : t :=
  Build (paradigm_http_url self) (paradigm_taker_account_name self)
        (paradigm_taker_access_key self) (paradigm_taker_secret_key self) n
        (order_submission_lower_boundary self) (order_submission_higher_boundary self)
        (availabile_strateies self) (order_payloads self).

Definition set_availabile_strateies (l : list Strategy.t) (self : t) : t :=
  Build (paradigm_http_url self) (paradigm_taker_account_name self)
        (paradigm_taker_access_key self) (paradigm_taker_secret_key self)
        (order_number_per_strategy self)
        (order_submission_lower_boundary self) (order_submission_higher_boundary self)
        l (order_payloads self).

Definition set_order_payloads (l : list Order.t) (self : t) : t :=
  Build (paradigm_http_url self) (paradigm_taker_account_name self)
        (paradigm_taker_access_key self) (paradigm_taker_secret_key self)
        (order_number_per_strategy self)
        (order_submission_lower_boundary self) (order_submission_higher_boundary self)
        (availabile_strateies self) l.

(** [sign_request]; [now] is the value [time.time()] returns. *)
Definition sign_request (paradigm_secret_key method path body : str) (now : Q)
  : result (bytes * bytes) :=
  let _secret_key := encode_utf8 paradigm_secret_key in
  let _method := encode_utf8 method in
  let _path := encode_utf8 path in
  let _body := encode_utf8 body in
  signing_key <- Base64.b64decode _secret_key ;;
  let timestamp := encode_utf8 (str_of_int (int_of_Q (Float.mul now (Float.of_int 1000)))) in
  let message := bytes_join (String "010" "") [timestamp; bytes_upper _method; _path; _body] in
  let digest := Hmac.digest_sha256 signing_key message in
  let signature := Base64.b64encode digest in
  Ok (timestamp, signature).

Definition create_rest_headers (self : t) (method path body : str) (now : Q)
  : result (list (str * str)) :=
  ts <- sign_request (paradigm_taker_secret_key self) method path body now ;;
  Ok [ ("Paradigm-API-Timestamp", decode_utf8 (fst ts));
       ("Paradigm-API-Signature", decode_utf8 (snd ts));
       ("Authorization", String.append "Bearer " (paradigm_taker_access_key self)) ].

(** [for strategy in self.availabile_strateies: for side in [*TradeAction]:
    order_payloads.append(Order(...))]. *)
Definition construct_order_payloads (self : t) : list Order.t :=
  fold_left
    (fun order_payloads strategy =>
       fold_left
         (fun order_payloads side =>
            order_payloads ++
            [Order.init (Strategy.id strategy)
                        (PStr (TradeAction.name side))
                        (Strategy.min_block_size strategy)
                        (PStr (paradigm_taker_account_name self))])
         TradeAction.members order_payloads)
    (availabile_strateies self) [].

(** The arithmetic of [random.uniform(a, b)], which is
    [a + (b - a) * random()] with [random()] in [0, 1): the integer [b - a]
    and then [a] are converted to floats for the float product and the
    float sum. *)
Definition uniform (a b : Z) (random : Q) : Q :=
  Float.add (Float.of_int a) (Float.mul (Float.of_int (b - a)) random).

(** [random.uniform(a, b)] as called on the two int boundaries: either
    conversion raises OverflowError for an int beyond the largest float,
    otherwise the value is that of [uniform].  (For boundaries of magnitude
    up to 2^1022 the sum is finite; a sum past the largest float is among
    the infinities the model leaves out.) *)
Definition random_uniform (a b : Z) (random : Q) : result Q :=
  if Float.overflows (inject_Z (b - a)) || Float.overflows (inject_Z a)
  then Raise (OverflowError "int too large to convert to float")
  else Ok (uniform a b random).

Section Venue.

(** [json.dumps] and [json.loads] (on the received body) are taken as
    given. *)
Variable json_dumps : dict -> str.
Variable json_loads : bytes -> result pyval.

(** The module-level global [paradigm_http_url] that [__main__] binds. *)
Variable global_paradigm_http_url : str.

(** [await response.json(content_type=...)]: read the body, check the
    Content-Type unless the check is disabled with [None], give [None] for
    a blank body and the parsed text otherwise. *)
Definition response_json (check_content_type : bool) (r : ClientResponse)
  : result pyval :=
  body <- read r ;;
  if check_content_type && negb (is_expected_content_type (content_type r))
  then Raise (ContentTypeError (content_type r))
  else if all_space body then Ok PNone
  else json_loads body.

(** One call of [post_order]: the events it causes, and whether it returns
    or raises.  [now] is the clock reading of its signature, [outcome] what
    the venue and the network do with the request. *)
Definition post_order (self : t) (order_payload : dict)
                      (now : Q) (outcome : http_outcome)
  : list event * result unit :=
  let method := "POST" in
  let path := "/v1/fs/orders" in
  let _payload := json_dumps order_payload in
  match create_rest_headers self method path _payload now with
  | Raise e => ([], Raise e)
  | Ok hdrs =>
      let sent := Request method (String.append global_paradigm_http_url path)
                          hdrs (Some order_payload) in
      let tried :=
        match outcome with
        | Failure e => ([], Raise e)
        | Response r =>
            let status_code := status r in
            match response_json false r with
            | Raise e => ([], Raise e)
            | Ok response =>
                if status_code =? 201 then
                  ([Logged INFO [Lit "Order Create "; FInt status_code;
                                 Lit " | Response: "; FVal response]], Ok tt)
                else
                  ([Logged INFO [Lit "Unable to [POST] /orders"];
                    Logged INFO [Lit "Status Code: "; FInt status_code];
                    Logged INFO [Lit "Response Text: "; FVal response];
                    Logged INFO [Lit "Order Payload: "; FDict order_payload]], Ok tt)
            end
        end in
      match tried with
      | (evs, Ok u) => (sent :: evs, Ok u)
      | (evs, Raise e) =>
          if isinstance_ClientConnectorError e
          then (sent :: evs ++
                [Logged INFO [Lit "[POST] /orders ClientConnectorError: "; FExn e]], Ok tt)
          else (sent :: evs, Raise e)
      end
  end.

(** What [get_strategies] returns: the parsed body on status 200, the
    response object itself otherwise. *)
Inductive reply : Type :=
  | Parsed (v : pyval)
  | Unparsed (r : ClientResponse).

Definition get_strategies (self : t) (now : Q) (outcome : http_outcome)
  : list event * result reply :=
  let method := "GET" in
  let path := "/v1/fs/strategies?page_size=100" in
  let payload := "" in
  match create_rest_headers self method path payload now with
  | Raise e => ([], Raise e)
  | Ok hdrs =>
      let sent := Request method (String.append global_paradigm_http_url path)
                          hdrs None in
      match outcome with
      | Failure e => ([sent], Raise e)
      | Response r =>
          let status_code := status r in
          if status_code =? 200 then
            match response_json true r with
            | Raise e => ([sent], Raise e)
            | Ok response => ([sent], Ok (Parsed response))
            end
          else
            ([sent;
              Logged ERROR [Lit "Unable to [GET] /strategies"];
              Logged ERROR [Lit "Status Code: "; FInt status_code];
              Logged ERROR [Lit "Response Text: "; FResponse (response_repr r)]],
             Ok (Unparsed r))
      end
  end.

(** [response[k]] on what [get_strategies] returned. *)
Definition reply_subscript (response : reply) (k : str) : result pyval :=
  match response with
  | Parsed v => subscript v k
  | Unparsed _ => Raise (TypeError "'ClientResponse' object is not subscriptable")
  end.

(** The loop body of [ingest_available_strategies], over the elements of
    [response['results']]. *)
Fixpoint ingest_loop (entries : list pyval) (available_strategies : list Strategy.t)
  : result (list Strategy.t) :=
  match entries with
  | [] => Ok available_strategies
  | strategy :: rest =>
      id <- subscript strategy "id" ;;
      min_block_size <- subscript strategy "min_block_size" ;;
      ingest_loop rest (available_strategies ++ [Strategy.Build id min_block_size])
  end.

Definition ingest_available_strategies (self : t) (now : Q) (outcome : http_outcome)
  : list event * result (list Strategy.t) :=
  match get_strategies self now outcome with
  | (evs, Raise e) => (evs, Raise e)
  | (evs, Ok response) =>
      (evs, results <- reply_subscript response "results" ;;
            entries <- iterate results ;;
            ingest_loop entries [])
  end.

(** What the surroundings of one run supply: the clock reading and the
    outcome of the strategy listing, and for the order of index [i] in round
    [k] the clock reading and the outcome of its submission, and the value
    of [random()] drawn at the end of round [k]. *)
Record world : Type := {
  listing_clock : Q;
  listing_outcome : http_outcome;
  order_clock : nat -> nat -> Q;
  order_outcome : nat -> nat -> http_outcome;
  random : nat -> Q
}.

Definition task : Type := list event * result unit.

(** [await asyncio.gather] on the submitted orders: returns when every
    task has returned, raises the exception of a task that raised.  When
    several tasks of a pass raise, [asyncio.gather] raises the exception of
    the one that fails first in time; the model takes the first in list
    order, which is the same whenever at most one task of the pass raises.
    The tasks still pending are then abandoned with the event loop, which
    [Aborted] does not detail. *)
Fixpoint gather (tasks : list task) : result unit :=
  match tasks with
  | [] => Ok tt
  | (_, Ok _) :: rest => gather rest
  | (_, Raise e) :: _ => Raise e
  end.

(** One pass of the [while True] body: the tasks created, then either the
    sleep that follows or the exception that leaves the loop, raised by
    [gather] or by [uniform]. *)
Inductive round : Type :=
  | Slept (tasks : list task) (seconds : Q)
  | Aborted (tasks : list task) (e : exn).

Fixpoint create_tasks (self : t) (w : world) (k : nat) (i : nat)
                      (orders : list Order.t) : list task :=
  match orders with
  | [] => []
  | order :: rest =>
      post_order self (Order.order_payload order) (order_clock w k i) (order_outcome w k i)
      :: create_tasks self w k (S i) rest
  end.

Definition one_round (self : t) (w : world) (k : nat) : round :=
  let submitted_orders := create_tasks self w k 0 (order_payloads self) in
  match gather submitted_orders with
  | Raise e => Aborted submitted_orders e
  | Ok _ =>
      match random_uniform (order_submission_lower_boundary self)
                           (order_submission_higher_boundary self) (random w k) with
      | Ok seconds => Slept submitted_orders seconds
      | Raise e => Aborted submitted_orders e
      end
  end.

(** The first [n] passes of the loop, from pass [k] on; the loop is left
    only by an exception. *)
Fixpoint loop (self : t) (w : world) (k : nat) (n : nat) : list round :=
  match n with
  | O => []
  | S m =>
      match one_round self w k with
      | Slept ts d => Slept ts d :: loop self w (S k) m
      | Aborted ts e => [Aborted ts e]
      end
  end.

(** [manager], observed for [n] passes of its loop: the events of the
    start-up, then the exception that ended the start-up or the passes. *)
Definition manager (self : t) (w : world) (n : nat)
  : list event * result (list round) :=
  match ingest_available_strategies self (listing_clock w) (listing_outcome w) with
  | (evs, Raise e) => (evs, Raise e)
  | (evs, Ok strategies) =>
      let self := set_availabile_strateies strategies self in
      let self := set_order_payloads (construct_order_payloads self) self in
      (evs, Ok (loop self w 0 n))
  end.

End Venue.

End AutoTaker.

(* ------------------------------------------------------------------ *)
(** ** Vocabulary of the description, for stating the properties *)

(** The order intent the description gives for a strategy and a side: the
    strategy's id, the side's name, the strategy's [minBlockSize] as the
    amount, the account name, type MARKET, price unset. *)
Definition intent (self : AutoTaker.t) (a : TradeAction.t) (s : Strategy.t) : Order.t :=
  Order.Build (Strategy.id s) (PStr (TradeAction.name a)) (Strategy.min_block_size s)
              (PStr (AutoTaker.paradigm_taker_account_name self)) (PStr "MARKET") PNone.

(** The order's side is the name of [a]. *)
Definition has_side (a : TradeAction.t) (o : Order.t) : bool :=
  match Order.side o with
  | PStr s => String.eqb s (TradeAction.name a)
  | _ => false
  end.

(** The URLs of the requests among some events, in order. *)
Definition request_urls (evs : list event) : list str :=
  flat_map (fun e => match e with Request _ u _ _ => [u] | Logged _ _ => [] end) evs.

(** A submission outcome that [post_order] deals with itself: a response,
    of any status, whose body [response.json] accepts, or a failure to open
    the connection. *)
Definition settles (json_loads : bytes -> result pyval) (o : http_outcome) : bool :=
  match o with
  | Response r => is_ok (AutoTaker.response_json json_loads false r)
  | Failure e => isinstance_ClientConnectorError e
  end.

(** The pass completed its batch and went on to sleep. *)
Definition is_slept (r : AutoTaker.round) : bool :=
  match r with AutoTaker.Slept _ _ => true | AutoTaker.Aborted _ _ => false end.

(** Sleep boundaries of magnitude at most 2^1022: neither they nor their
    difference are too large for a float, and the sleep drawn between them
    is finite. *)
Definition boundaries_in_float_range (self : AutoTaker.t) : Prop :=
  Z.abs (AutoTaker.order_submission_lower_boundary self) <= 2 ^ 1022 /\
  Z.abs (AutoTaker.order_submission_higher_boundary self) <= 2 ^ 1022.

(** The four log records of a rejected submission and the one of a
    connection that could not be opened. *)
Definition rejection_log (status_code : Z) (response : pyval) (order_payload : dict)
  : list event :=
  [ Logged INFO [Lit "Unable to [POST] /orders"];
    Logged INFO [Lit "Status Code: "; FInt status_code];
    Logged INFO [Lit "Response Text: "; FVal response];
    Logged INFO [Lit "Order Payload: "; FDict order_payload] ].

Definition connector_log (e : exn) : list event :=
  [ Logged INFO [Lit "[POST] /orders ClientConnectorError: "; FExn e] ].

(** The three error records of a strategy listing that is not a 200. *)
Definition listing_error_log (r : ClientResponse) : list event :=
  [ Logged ERROR [Lit "Unable to [GET] /strategies"];
    Logged ERROR [Lit "Status Code: "; FInt (status r)];
    Logged ERROR [Lit "Response Text: "; FResponse (response_repr r)] ].

(** Standard base64 (RFC 4648, section 4): groups of four alphabet
    characters, the last group possibly ending in one or two pad
    characters. *)
Definition is_alphabet (c : ascii) : bool :=
  negb (Ascii.eqb c Base64.BASE64_PAD) && (Base64.table_a2b_base64 c <? 64).

Fixpoint valid_b64 (s : str) : bool :=
  match s with
  | EmptyString => true
  | String a (String b (String c (String d rest))) =>
      is_alphabet a && is_alphabet b &&
      match rest with
      | EmptyString =>
          (is_alphabet c && (is_alphabet d || Ascii.eqb d Base64.BASE64_PAD)) ||
          (Ascii.eqb c Base64.BASE64_PAD && Ascii.eqb d Base64.BASE64_PAD)
      | _ => is_alphabet c && is_alphabet d && valid_b64 rest
      end
  | _ => false
  end.

(** The characters [b64decode] looks at: the alphabet and the pad. *)
Fixpoint keep_b64 (s : str) : str :=
  match s with
  | EmptyString => EmptyString
  | String c t =>
      if is_alphabet c || Ascii.eqb c Base64.BASE64_PAD
      then String c (keep_b64 t) else keep_b64 t
  end.

(** The number a string of decimal digits writes, with an optional leading
    minus sign. *)
Definition is_digit (c : ascii) : bool := (48 <=? ord c) && (ord c <=? 57).

Fixpoint digits_value (s : str) (acc : Z) : Z :=
  match s with
  | EmptyString => acc
  | String c t => digits_value t (10 * acc + (ord c - 48))
  end.

Definition decimal_value (s : str) : Z :=
  match s with
  | String "-" t => - digits_value t 0
  | _ => digits_value s 0
  end.

(** The number a list of digits writes, least significant digit first. *)
Definition value_le (l : list Z) : Z := fold_right (fun d a => 10 * a + d) 0 l.

Fixpoint all_digits (s : str) : bool :=
  match s with
  | EmptyString => true
  | String c t => is_digit c && all_digits t
  end.

(** The four 6-bit values [b2a_base64] writes for the bytes a, b, c, and
    the last value of a final group of one or of two bytes. *)
Definition sextet0 (a : ascii) : Z := Z.shiftr (ord a) 2.
Definition sextet1 (a b : ascii) : Z :=
  Z.lor (Z.shiftl (Z.land (ord a) 3) 4) (Z.shiftr (ord b) 4).
Definition sextet1_last (a : ascii) : Z := Z.shiftl (Z.land (ord a) 3) 4.
Definition sextet2 (b c : ascii) : Z :=
  Z.lor (Z.shiftl (Z.land (ord b) 15) 2) (Z.shiftr (ord c) 6).
Definition sextet2_last (b : ascii) : Z := Z.shiftl (Z.land (ord b) 15) 2.
Definition sextet3 (c : ascii) : Z := Z.land (ord c) 63.

Definition in64 (x : Z) : bool := (0 <=? x) && (x <? 64).

(** Every byte, for checks by enumeration. *)
Definition all_ascii : list ascii := map ascii_of_nat (seq 0 256).

(** [bytes.hex()]. *)
Definition hex_digit (n : Z) : ascii :=
  if n <? 10 then chr (48 + n) else chr (87 + n).

Fixpoint hex (b : bytes) : str :=
  match b with
  | EmptyString => EmptyString
  | String c t =>
      String (hex_digit (Z.shiftr (ord c) 4)) (String (hex_digit (Z.land (ord c) 15)) (hex t))
  end.

(* ------------------------------------------------------------------ *)
(** ** Sample instances *)

Definition dq : string := String "034" "".

(** The body of a strategy listing with no strategies: the JSON object
    whose member results is an empty array. *)
Definition empty_listing_body : bytes :=
  String.concat "" ["{"; dq; "results"; dq; ": []}"].

(** The body of a listing with the one strategy "strat-1" of minimum block
    size 5. *)
Definition one_strategy_body : bytes :=
  String.concat ""
    ["{"; dq; "results"; dq; ": [{"; dq; "id"; dq; ": "; dq; "strat-1"; dq; ", ";
     dq; "min_block_size"; dq; ": 5}]}"].

(** [json.loads] on the bodies the samples use. *)
Definition sample_json_loads (b : bytes) : result pyval :=
  if String.eqb b empty_listing_body then Ok (PDict [("results", PList [])])
  else if String.eqb b one_strategy_body then
    Ok (PDict [("results",
                PList [PDict [("id", PStr "strat-1"); ("min_block_size", PInt 5)]])])
  else if String.eqb b "{}" then Ok (PDict [])
  else if String.eqb b "[]" then Ok (PList [])
  else Raise JSONDecodeError.

(** [json.dumps] on the payloads the samples use: the empty dict. *)
Definition sample_json_dumps (d : dict) : str := "{}".

Definition sample_url : str := "https://api.fs.test.paradigm.co".

Definition sample_taker : AutoTaker.t :=
  AutoTaker.init sample_url "taker-account" "access-key" "c2VjcmV0LWtleS1ieXRlcw==" 1 1 1.

(** [sample_taker] as [manager] has it when its loop starts, after the
    listing of the one strategy "strat-1": with the strategy and its two
    orders. *)
Definition sample_taker_started : AutoTaker.t :=
  AutoTaker.set_order_payloads
    (AutoTaker.construct_order_payloads
       (AutoTaker.set_availabile_strateies
          [Strategy.Build (PStr "strat-1") (PInt 5)] sample_taker))
    (AutoTaker.set_availabile_strateies
       [Strategy.Build (PStr "strat-1") (PInt 5)] sample_taker).

Definition sample_response (status_code : Z) (body : bytes) : ClientResponse :=
  {| url := String.append sample_url "/v1/fs/strategies?page_size=100";
     status := status_code;
     reason := "";
     headers := [("Content-Type", "application/json")];
     content_type := "application/json";
     read := Ok body |}.

Definition sample_world (listing : http_outcome) (submission : nat -> nat -> http_outcome)
  : AutoTaker.world :=
  {| AutoTaker.listing_clock := 13600000001 # 8;
     AutoTaker.listing_outcome := listing;
     AutoTaker.order_clock := fun k i => inject_Z (1700000001 + Z.of_nat k);
     AutoTaker.order_outcome := submission;
     AutoTaker.random := fun _ => 1 # 2 |}.

(* ------------------------------------------------------------------ *)
(** ** The script part of the file ([if __name__ == "__main__":]) *)

Module Script.

(** [os.environ], a mapping from names to values. *)
Definition environ : Type := str -> option str.

(** [os.environ[k] = v]. *)
Definition environ_set (e : environ) (k v : str) : environ :=
  fun k' => if String.eqb k' k then Some v else e k'.

(** [os.environ[k]]. *)
Definition environ_get (e : environ) (k : str) : result str :=
  match e k with
  | Some v => Ok v
  | None => Raise (KeyError k)
  end.

(** [os.getenv(k, default)]. *)
Definition getenv (e : environ) (k default : str) : str :=
  match e k with
  | Some v => v
  | None => default
  end.

(** A step that may raise before a call that causes events. *)
Definition after {A B} (r : result A) (k : A -> list event * result B)
  : list event * result B :=
  match r with
  | Ok a => k a
  | Raise e => ([], Raise e)
  end.

Section Run.

Variable json_dumps : dict -> str.
Variable json_loads : bytes -> result pyval.

(** The built-ins [int(text)] and [text.lower()] are taken as given. *)
Variable int : str -> result Z.
Variable lower : str -> str.

(** [AutoTaker(...)]: [__init__] stores its arguments, the three numeric
    ones through [int], and runs [manager] on the event loop, observed here
    for [passes] passes.  [global_paradigm_http_url] is the module-level
    name the two venue calls read. *)
Definition new_AutoTaker (global_paradigm_http_url : str)
      (paradigm_http_url paradigm_taker_account_name
       paradigm_taker_access_key paradigm_taker_secret_key
       order_number_per_strategy order_submission_lower_boundary
       order_submission_higher_boundary : str)
      (w : AutoTaker.world) (passes : nat)
  : list event * result (list AutoTaker.round) :=
  after (int order_number_per_strategy) (fun number =>
  after (int order_submission_lower_boundary) (fun lower_boundary =>
  after (int order_submission_higher_boundary) (fun higher_boundary =>
    AutoTaker.manager json_dumps json_loads global_paradigm_http_url
      (AutoTaker.init paradigm_http_url paradigm_taker_account_name
         paradigm_taker_access_key paradigm_taker_secret_key
         number lower_boundary higher_boundary)
      w passes))).

(** The script, started in the environment [e].  [logging.basicConfig] is
    given the level INFO, under which every record the model lists is
    written. *)
Definition main (e : environ) (w : AutoTaker.world) (passes : nat)
  : list event * result (list AutoTaker.round) :=
  let e := environ_set e "LOGGING_LEVEL" "INFO" in
  let e := environ_set e "PARADIGM_TAKER_ACCOUNT_NAME" "<venue-api-key-name-on-paradigm>" in
  let e := environ_set e "PARADIGM_TAKER_ACCESS_KEY" "<access-key>" in
  let e := environ_set e "PARADIGM_TAKER_SECRET_KEY" "<secret-key>" in
  let e := environ_set e "ORDER_NUMBER_PER_STRATEGY" "1" in
  let e := environ_set e "ORDER_SUBMISSION_LOWER_BOUNDARY" "1" in
  let e := environ_set e "ORDER_SUBMISSION_HIGHER_BOUNDARY" "1" in
  let paradigm_environment := getenv e "PARADIGM_ENVIRONMENT" "TEST" in
  let paradigm_http_url :=
    String.append "https://api.fs."
      (String.append (lower paradigm_environment) ".paradigm.co") in
  after (environ_get e "LOGGING_LEVEL") (fun _ =>
  after (environ_get e "PARADIGM_TAKER_ACCOUNT_NAME") (fun account_name =>
  after (environ_get e "PARADIGM_TAKER_ACCESS_KEY") (fun access_key =>
  after (environ_get e "PARADIGM_TAKER_SECRET_KEY") (fun secret_key =>
  after (environ_get e "ORDER_NUMBER_PER_STRATEGY") (fun number =>
  after (environ_get e "ORDER_SUBMISSION_LOWER_BOUNDARY") (fun lower_boundary =>
  after (environ_get e "ORDER_SUBMISSION_HIGHER_BOUNDARY") (fun higher_boundary =>
    new_AutoTaker paradigm_http_url
      paradigm_http_url account_name access_key secret_key
      number lower_boundary higher_boundary w passes))))))).

End Run.

End Script.

(* ------------------------------------------------------------------ *)
(** ** Vocabulary for the runs of [manager] and for the listing *)

(** The tasks a pass created. *)
Definition round_tasks (r : AutoTaker.round) : list AutoTaker.task :=
  match r with AutoTaker.Slept ts _ => ts | AutoTaker.Aborted ts _ => ts end.

(** The events of a run of [manager]: those of the start-up, then those of
    the tasks, pass by pass and task by task in the order of creation. *)
Definition trace (run : list event * result (list AutoTaker.round)) : list event :=
  fst run ++
  match snd run with
  | Ok rounds => flat_map (fun r => flat_map fst (round_tasks r)) rounds
  | Raise _ => []
  end.

Definition is_get (e : event) : bool :=
  match e with Request m _ _ _ => String.eqb m "GET" | Logged _ _ => false end.

Definition is_logged (e : event) : bool :=
  match e with Request _ _ _ _ => false | Logged _ _ => true end.

(** The JSON bodies of the requests among some events, in order. *)
Definition request_bodies (evs : list event) : list (option dict) :=
  flat_map (fun e => match e with Request _ _ _ j => [j] | Logged _ _ => [] end) evs.

(** The exception with which a submission outcome leaves [post_order]: one
    raised by the client or by [response.json] that is not a
    [ClientConnectorError]. *)
Definition unhandled (json_loads : bytes -> result pyval) (o : http_outcome) : option exn :=
  match o with
  | Failure e => if isinstance_ClientConnectorError e then None else Some e
  | Response r =>
      match AutoTaker.response_json json_loads false r with
      | Ok _ => None
      | Raise e => if isinstance_ClientConnectorError e then None else Some e
      end
  end.

(** An element of the listing's results from which the strategy [s] is
    read: its members id and min_block_size are those of [s]. *)
Definition entry_gives (entry : pyval) (s : Strategy.t) : Prop :=
  subscript entry "id" = Ok (Strategy.id s) /\
  subscript entry "min_block_size" = Ok (Strategy.min_block_size s).

(** The five members of a market order's payload, in their order. *)
Definition market_payload (account_name : str) (a : TradeAction.t) (s : Strategy.t) : dict :=
  [ ("account_name", PStr account_name);
    ("strategy_id", Strategy.id s);
    ("type", PStr "MARKET");
    ("amount", Strategy.min_block_size s);
    ("side", PStr (TradeAction.name a)) ].

(** The timestamp of a request signed at the clock reading [now]. *)
Definition timestamp_at (now : Q) : str :=
  str_of_int (int_of_Q (Float.mul now (Float.of_int 1000))).

(** The three headers of a request signed at [now] with the decoded key
    [sk], for the given method (in upper case), path and body. *)
Definition signed_headers (access_key : str) (sk : bytes) (method path body : str)
                          (now : Q) : list (str * str) :=
  let newline := String "010" "" in
  [ ("Paradigm-API-Timestamp", timestamp_at now);
    ("Paradigm-API-Signature",
     Base64.b64encode
       (Hmac.digest_sha256 sk
          (String.append (timestamp_at now) (String.append newline
            (String.append method (String.append newline
              (String.append path (String.append newline body))))))));
    ("Authorization", String.append "Bearer " access_key) ].

(** No character of the text is in the base64 alphabet. *)
Fixpoint no_alphabet (s : str) : bool :=
  match s with
  | EmptyString => true
  | String c t => negb (is_alphabet c) && no_alphabet t
  end.

(* ------------------------------------------------------------------ *)
(** ** Known values *)

(** The first and the last round constant and initial hash value, as
    FIPS 180-4 prints them. *)
Example sha256_constants :
  List.length Sha256.K = 64%nat /\
  nth 0 Sha256.K 0 = 0x428a2f98 /\ nth 63 Sha256.K 0 = 0xc67178f2 /\
  List.length Sha256.H0 = 8%nat /\
  nth 0 Sha256.H0 0 = 0x6a09e667 /\ nth 7 Sha256.H0 0 = 0x5be0cd19.
Proof. vm_compute. repeat split. Qed.

(** FIPS 180-4, the one-block message "abc". *)
Example sha256_abc :
  hex (Sha256.sha256 "abc")
  = "ba7816bf8f01cfea414140de5dae2223b00361a396177a9cb410ff61f20015ad".
Proof. vm_compute. reflexivity. Qed.

(** RFC 4231, test case 2. *)
Example hmac_sha256_rfc4231_2 :
  hex (Hmac.digest_sha256 "Jefe" "what do ya want for nothing?")
  = "5bdcc146bf60754e6a042426089575c75a003f089d2739839dec58b964ec3843".
Proof. vm_compute. reflexivity. Qed.

(** RFC 4648, section 10. *)
Example b64encode_foobar :
  map Base64.b64encode ["f"; "fo"; "foo"; "foob"; "fooba"; "foobar"]
  = ["Zg=="; "Zm8="; "Zm9v"; "Zm9vYg=="; "Zm9vYmE="; "Zm9vYmFy"].
Proof. vm_compute. reflexivity. Qed.

(** The decoder skips what is not in the alphabet, stops at a completing
    pad, and rejects an unfinished group. *)
Example b64decode_cases :
  map (fun s => match Base64.b64decode s with Ok b => Some b | Raise _ => None end)
      ["Zm9v"; "Zm8="; "Zg=="; "Zm 9v"; "Zg==Zm9v"; "Zg="; "Zg"; "Z"; "<secret-key>"]
  = [Some "foo"; Some "fo"; Some "f"; Some "foo"; Some "f"; None; None; None; None].
Proof. vm_compute. reflexivity. Qed.

(** 0.1, 1/3 and 2^53 + 1 as floats. *)
Example binary64_cases :
  map Float.binary64 [(1 # 10)%Q; (1 # 3)%Q; 9007199254740993%Q; (- 7 # 2)%Q; 0%Q]
  = [(3602879701896397 # 36028797018963968)%Q; (6004799503160661 # 18014398509481984)%Q;
     9007199254740992%Q; (- 7 # 2)%Q; 0%Q].
Proof. vm_compute. reflexivity. Qed.

(** The float 1700000000.123 times 1000 is, rounded, 1700000000123.0, though
    the exact product is a little below. *)
Example clock_milliseconds :
  let now := (7130316800515899 # 4194304)%Q in
  int_of_Q (Float.mul now (Float.of_int 1000)) = 1700000000123 /\
  int_of_Q (now * 1000)%Q = 1700000000122.
Proof. vm_compute. split; reflexivity. Qed.

Example str_of_int_cases :
  map str_of_int [0; 7; 10; 1700000000123; -42] = ["0"; "7"; "10"; "1700000000123"; "-42"].
Proof. vm_compute. reflexivity. Qed.

Example int_of_Q_cases :
  map int_of_Q [(17000000001239 # 10)%Q; (-7 # 2)%Q; (3 # 1)%Q] = [1700000000123; -3; 3].
Proof. vm_compute. reflexivity. Qed.

Example order_payload_market :
  Order.order_payload
    (Order.init (PStr "strat-1") (PStr "BUY") (PInt 5) (PStr "taker-account"))
  = [ ("account_name", PStr "taker-account"); ("strategy_id", PStr "strat-1");
      ("type", PStr "MARKET"); ("amount", PInt 5); ("side", PStr "BUY") ].
Proof. reflexivity. Qed.

Example order_payload_limit :
  Order.order_payload
    (Order.Build (PStr "strat-1") (PStr "SELL") (PInt 5) (PStr "taker-account")
                 (PStr "LIMIT") (PStr "0.5"))
  = [ ("account_name", PStr "taker-account"); ("strategy_id", PStr "strat-1");
      ("type", PStr "LIMIT"); ("amount", PInt 5); ("side", PStr "SELL");
      ("price", PStr "0.5") ].
Proof. reflexivity. Qed.

Example content_type_cases :
  map is_expected_content_type
      ["application/json"; "Application/JSON; charset=utf-8"; "application/vnd.api+json";
       "application/+json"; "text/html"]
  = [true; true; true; false; false].
Proof. vm_compute. reflexivity. Qed.

(** A listing of one strategy: the start-up sends one GET, builds the BUY
    and the SELL order, and the first pass posts both and sleeps. *)
Example manager_one_strategy :
  let run := AutoTaker.manager sample_json_dumps sample_json_loads sample_url sample_taker
               (sample_world (Response (sample_response 200 one_strategy_body))
                             (fun _ _ => Response (sample_response 201 "{}"))) 1 in
  request_urls (fst run) = ["https://api.fs.test.paradigm.co/v1/fs/strategies?page_size=100"] /\
  match snd run with
  | Ok [AutoTaker.Slept [(evs1, Ok _); (evs2, Ok _)] d] =>
      request_urls evs1 = ["https://api.fs.test.paradigm.co/v1/fs/orders"] /\
      request_urls evs2 = ["https://api.fs.test.paradigm.co/v1/fs/orders"] /\
      (d == 1)%Q
  | _ => False
  end.
Proof. vm_compute. repeat split. Qed.

(* ------------------------------------------------------------------ *)
(** ** Floats: what rounding keeps *)

Section FloatFacts.

Local Open Scope Q_scope.

Lemma two_pow_pos (e : Z) : 0 < 2 ^ e.
Proof. apply Qpower_0_lt. reflexivity. Qed.

Lemma two_pow_add (a b : Z) : 2 ^ (a + b) == 2 ^ a * 2 ^ b.
Proof. apply Qpower_plus. discriminate. Qed.

Lemma two_pow_le (a b : Z) : (a <= b)%Z -> 2 ^ a <= 2 ^ b.
Proof. intro H. apply Qpower_le_compat_l; [exact H|discriminate]. Qed.

Lemma two_pow_lt_inv (a b : Z) : 2 ^ a < 2 ^ b -> (a < b)%Z.
Proof. intro H. apply (Qpower_lt_compat_l_inv 2); [exact H|reflexivity]. Qed.

Lemma two_pow_Z (n : Z) : (0 <= n)%Z -> inject_Z (2 ^ n) == 2 ^ n.
Proof. intro H. apply (Zpower_Qpower 2 n H). Qed.

Lemma two_pow_opp (e : Z) : 2 ^ (- e) == / 2 ^ e.
Proof. apply Qpower_opp. Qed.

Lemma Z_lt_Q (a b : Z) : (a < b)%Z -> inject_Z a < inject_Z b.
Proof. unfold Qlt, inject_Z; simpl. lia. Qed.

Lemma Q_lt_Z (a b : Z) : inject_Z a < inject_Z b -> (a < b)%Z.
Proof. unfold Qlt, inject_Z; simpl. lia. Qed.

Lemma Q_le_Z (a b : Z) : inject_Z a <= inject_Z b -> (a <= b)%Z.
Proof. unfold Qle, inject_Z; simpl. lia. Qed.

Lemma Z_le_Q (a b : Z) : (a <= b)%Z -> inject_Z a <= inject_Z b.
Proof. unfold Qle, inject_Z; simpl. lia. Qed.

(** The floor of log2. *)
Lemma ilog2_spec (x : Q) : 0 < x -> 2 ^ Float.ilog2 x <= x /\ x < 2 ^ (Float.ilog2 x + 1).
Proof.
  intro Hx. unfold Float.ilog2.
  destruct (Qle_bool 1 x) eqn:E.
  - apply Qle_bool_iff in E.
    pose proof (Qfloor_le x) as F1. pose proof (Qlt_floor x) as F2.
    assert (Hn : (1 <= Qfloor x)%Z).
    { change 1%Z with (Qfloor 1). now apply Qfloor_resp_le. }
    destruct (Z.log2_spec (Qfloor x) ltac:(lia)) as [L1 L2].
    pose proof (Z.log2_nonneg (Qfloor x)) as L0.
    split.
    + rewrite <- two_pow_Z by lia. apply Qle_trans with (inject_Z (Qfloor x)); [|exact F1].
      apply Z_le_Q. exact L1.
    + rewrite <- two_pow_Z by lia. apply Qlt_le_trans with (inject_Z (Qfloor x + 1)); [exact F2|].
      apply Z_le_Q. rewrite <- Z.add_1_r in L2. lia.
  - assert (Hlt : x < 1).
    { apply Qnot_le_lt. intro H. apply Qle_bool_iff in H. congruence. }
    set (y := / x).
    assert (Hy : 1 < y).
    { unfold y. apply Qlt_shift_inv_l; [exact Hx|]. lra. }
    assert (Hxy : x * y == 1) by (unfold y; field; lra).
    pose proof (Qle_ceiling y) as C1. pose proof (Qceiling_lt y) as C2.
    assert (Hc : (1 < Qceiling y)%Z).
    { apply Q_lt_Z. apply Qlt_le_trans with y; [exact Hy|exact C1]. }
    destruct (Z.log2_up_spec (Qceiling y) Hc) as [L1 L2].
    pose proof (Z.log2_up_nonneg (Qceiling y)) as L0.
    set (m := Z.log2_up (Qceiling y)) in *.
    assert (Hm : (0 < m)%Z).
    { destruct (Z.eq_dec m 0) as [Z0|Z0]; [|lia]. rewrite Z0 in L2. simpl in L2. lia. }
    (* 2^(m-1) < y <= 2^m *)
    assert (U : y <= 2 ^ m).
    { rewrite <- two_pow_Z by lia. apply Qle_trans with (inject_Z (Qceiling y)); [exact C1|].
      now apply Z_le_Q. }
    assert (L : 2 ^ (m - 1) < y).
    { rewrite <- two_pow_Z by lia.
      apply Qle_lt_trans with (inject_Z (Qceiling y - 1)); [|exact C2].
      apply Z_le_Q. rewrite <- Z.sub_1_r in L1. lia. }
    pose proof (two_pow_pos m) as Pm. pose proof (two_pow_pos (m - 1)) as Pm1.
    split.
    + rewrite two_pow_opp.
      apply Qle_shift_inv_r; [exact Pm|].
      (* 1 <= x * 2^m *)
      rewrite <- Hxy. apply Qmult_le_l; [exact Hx|exact U].
    + replace (- m + 1)%Z with (- (m - 1))%Z by lia. rewrite two_pow_opp.
      apply Qlt_shift_inv_l; [exact Pm1|].
      rewrite <- Hxy. apply Qmult_lt_l; [exact Hx|exact L].
Qed.

Lemma ilog2_mono (x y : Q) : 0 < x -> x <= y -> (Float.ilog2 x <= Float.ilog2 y)%Z.
Proof.
  intros Hx Hxy.
  destruct (ilog2_spec x Hx) as [A _].
  destruct (ilog2_spec y ltac:(lra)) as [_ B].
  assert (H : 2 ^ Float.ilog2 x < 2 ^ (Float.ilog2 y + 1)) by lra.
  apply two_pow_lt_inv in H. lia.
Qed.

(** Rounding to the nearest integer. *)
Lemma floor_unique (t : Q) (n : Z) :
  inject_Z n <= t -> t < inject_Z (n + 1) -> Qfloor t = n.
Proof.
  intros H1 H2.
  pose proof (Qfloor_le t) as F1. pose proof (Qlt_floor t) as F2.
  assert (A : (n < Qfloor t + 1)%Z) by (apply Q_lt_Z; lra).
  assert (B : (Qfloor t < n + 1)%Z) by (apply Q_lt_Z; lra).
  lia.
Qed.

Lemma round_even_cases (t : Q) :
  let f := Qfloor t in
  (t - inject_Z f < 1 # 2 /\ Float.round_even t = f) \/
  (t - inject_Z f == 1 # 2 /\ Float.round_even t = (if Z.even f then f else f + 1)%Z) \/
  (1 # 2 < t - inject_Z f /\ Float.round_even t = (f + 1)%Z).
Proof.
  cbv zeta. unfold Float.round_even.
  destruct (Qcompare_spec (t - inject_Z (Qfloor t)) (1 # 2)) as [H|H|H]; auto.
Qed.

Lemma round_even_floor (t : Q) :
  (Qfloor t <= Float.round_even t <= Qfloor t + 1)%Z.
Proof.
  destruct (round_even_cases t) as [[_ E]|[[_ E]|[_ E]]]; rewrite E;
    try destruct (Z.even (Qfloor t)); lia.
Qed.

Lemma inject_Z_succ (n : Z) : inject_Z (n + 1) == inject_Z n + 1.
Proof. rewrite inject_Z_plus. reflexivity. Qed.

Lemma inject_Z_pred (n : Z) : inject_Z (n - 1) == inject_Z n - 1.
Proof. unfold Qeq, Qminus, Qplus, Qopp, inject_Z; simpl. lia. Qed.

Lemma round_even_near (t : Q) :
  t - (1 # 2) <= inject_Z (Float.round_even t) /\ inject_Z (Float.round_even t) <= t + (1 # 2).
Proof.
  pose proof (Qfloor_le t) as F1. pose proof (Qlt_floor t) as F2.
  rewrite inject_Z_succ in F2.
  destruct (round_even_cases t) as [[H E]|[[H E]|[H E]]]; rewrite E.
  - lra.
  - destruct (Z.even (Qfloor t)); rewrite ?inject_Z_succ; lra.
  - rewrite inject_Z_succ. lra.
Qed.

Lemma round_even_Z (n : Z) : Float.round_even (inject_Z n) = n.
Proof.
  unfold Float.round_even. rewrite Qfloor_Z.
  destruct (Qcompare_spec (inject_Z n - inject_Z n) (1 # 2)) as [H|H|H]; try lra.
  reflexivity.
Qed.

Lemma round_even_comp (s t : Q) : s == t -> Float.round_even s = Float.round_even t.
Proof.
  intro H. unfold Float.round_even.
  rewrite (Qfloor_comp s t H).
  assert (C : (s - inject_Z (Qfloor t) ?= 1 # 2) = (t - inject_Z (Qfloor t) ?= 1 # 2)).
  { apply Qcompare_comp; [|reflexivity]. rewrite H. reflexivity. }
  now rewrite C.
Qed.

Lemma round_even_mono (s t : Q) : s <= t -> (Float.round_even s <= Float.round_even t)%Z.
Proof.
  intro H.
  pose proof (Qfloor_resp_le s t H) as F.
  pose proof (round_even_floor s) as Bs. pose proof (round_even_floor t) as Bt.
  destruct (Z.eq_dec (Qfloor s) (Qfloor t)) as [E|E]; [|lia].
  clear Bs Bt F.
  destruct (round_even_cases s) as [[Hs Es]|[[Hs Es]|[Hs Es]]];
    destruct (round_even_cases t) as [[Ht Et]|[[Ht Et]|[Ht Et]]];
    rewrite Es, Et; rewrite <- E in Ht |- *;
    first [ lia | exfalso; lra | destruct (Z.even (Qfloor s)); lia ].
Qed.

Lemma round_even_opp (t : Q) : Float.round_even (- t) = (- Float.round_even t)%Z.
Proof.
  pose proof (Qfloor_le t) as F1. pose proof (Qlt_floor t) as F2.
  rewrite inject_Z_succ in F2.
  set (f := Qfloor t) in *.
  destruct (Qeq_dec t (inject_Z f)) as [Hi|Hn].
  - (* t is an integer *)
    rewrite (round_even_comp t (inject_Z f) Hi).
    rewrite (round_even_comp (- t) (inject_Z (- f))).
    + now rewrite !round_even_Z.
    + rewrite Hi, inject_Z_opp. reflexivity.
  - assert (Hf : Qfloor (- t) = (- f - 1)%Z).
    { apply floor_unique.
      - rewrite inject_Z_pred, inject_Z_opp. lra.
      - replace (- f - 1 + 1)%Z with (- f)%Z by lia. rewrite inject_Z_opp.
        assert (inject_Z f < t).
        { destruct (Qlt_le_dec (inject_Z f) t) as [K|K]; [exact K|].
          exfalso. apply Hn. apply Qle_antisym; assumption. }
        lra. }
    assert (Hd : - t - inject_Z (- f - 1) == 1 - (t - inject_Z f)).
    { rewrite inject_Z_pred, inject_Z_opp. ring. }
    destruct (round_even_cases t) as [[H E]|[[H E]|[H E]]];
      destruct (round_even_cases (- t)) as [[H' E']|[[H' E']|[H' E']]];
      fold f in H, E; rewrite Hf in H', E'; rewrite Hd in H'; rewrite E, E'; try lra; try lia.
    replace (- f - 1)%Z with (- (f + 1))%Z by lia.
    rewrite Z.even_opp, Z.even_add. simpl (Z.even 1).
    destruct (Z.even f); simpl; lia.
Qed.

(** Rounding to Float.binary64. *)
Lemma ilog2_comp (x y : Q) : x == y -> Float.ilog2 x = Float.ilog2 y.
Proof.
  intro H. unfold Float.ilog2.
  rewrite (Qfloor_comp x y H).
  rewrite (Qceiling_comp (/ x) (/ y)) by (now rewrite H).
  assert (E : Qle_bool 1 x = Qle_bool 1 y) by (now rewrite H).
  now rewrite E.
Qed.

Lemma expo_comp (x y : Q) : x == y -> Float.expo x = Float.expo y.
Proof. intro H. unfold Float.expo. rewrite (ilog2_comp (Qabs x) (Qabs y)); [reflexivity|]. now rewrite H. Qed.

Lemma binary64_zero (x : Q) : x == 0 -> Float.binary64 x == 0.
Proof.
  intro H. unfold Float.binary64. apply Qeq_bool_iff in H. now rewrite H.
Qed.

Lemma binary64_nonzero (x : Q) :
  ~ x == 0 -> Float.binary64 x == inject_Z (Float.round_even (x / 2 ^ Float.expo x)) * 2 ^ Float.expo x.
Proof.
  intro H. unfold Float.binary64.
  destruct (Qeq_bool x 0) eqn:E.
  - apply Qeq_bool_iff in E. contradiction.
  - apply Qred_correct.
Qed.

Lemma binary64_comp (x y : Q) : x == y -> Float.binary64 x == Float.binary64 y.
Proof.
  intro H.
  destruct (Qeq_dec x 0) as [Z0|Z0].
  - rewrite (binary64_zero x Z0). rewrite binary64_zero; [reflexivity|]. now rewrite <- H.
  - assert (Z1 : ~ y == 0) by (now rewrite <- H).
    rewrite (binary64_nonzero x Z0), (binary64_nonzero y Z1).
    rewrite (expo_comp x y H).
    rewrite (round_even_comp (x / 2 ^ Float.expo y) (y / 2 ^ Float.expo y)); [reflexivity|].
    now rewrite H.
Qed.

Lemma binary64_opp (x : Q) : Float.binary64 (- x) == - Float.binary64 x.
Proof.
  destruct (Qeq_dec x 0) as [Z0|Z0].
  - rewrite (binary64_zero x Z0). rewrite binary64_zero; [reflexivity|]. rewrite Z0. reflexivity.
  - assert (Z1 : ~ - x == 0) by (intro K; apply Z0; lra).
    rewrite (binary64_nonzero x Z0), (binary64_nonzero (- x) Z1).
    assert (E : Float.expo (- x) = Float.expo x).
    { unfold Float.expo. rewrite (ilog2_comp (Qabs (- x)) (Qabs x)); [reflexivity|]. apply Qabs_opp. }
    rewrite E.
    rewrite (round_even_comp (- x / 2 ^ Float.expo x) (- (x / 2 ^ Float.expo x))).
    + rewrite round_even_opp, inject_Z_opp. ring.
    + pose proof (two_pow_pos (Float.expo x)). field. lra.
Qed.

Lemma scaled_bounds (x : Q) :
  0 < x ->
  0 < x / 2 ^ Float.expo x /\ x / 2 ^ Float.expo x < 2 ^ 53 /\
  ((-1074 < Float.expo x)%Z -> 2 ^ 52 <= x / 2 ^ Float.expo x).
Proof.
  intro Hx.
  pose proof (two_pow_pos (Float.expo x)) as P.
  assert (A : Qabs x == x) by (apply Qabs_pos; lra).
  destruct (ilog2_spec x Hx) as [L U].
  assert (E : Float.expo x = Z.max (Float.ilog2 x - 52) (-1074)).
  { unfold Float.expo. now rewrite (ilog2_comp _ _ A). }
  split; [|split].
  - apply Qlt_shift_div_l; [exact P|]. lra.
  - apply Qlt_shift_div_r; [exact P|].
    rewrite <- two_pow_add.
    apply Qlt_le_trans with (2 ^ (Float.ilog2 x + 1)); [exact U|].
    apply two_pow_le. lia.
  - intro Hn. apply Qle_shift_div_l; [exact P|].
    rewrite <- two_pow_add.
    apply Qle_trans with (2 ^ Float.ilog2 x); [|exact L].
    apply two_pow_le. lia.
Qed.

Lemma round_even_upper (t : Q) (n : Z) : t < inject_Z n -> (Float.round_even t <= n)%Z.
Proof.
  intro H. pose proof (round_even_floor t) as B. pose proof (Qfloor_le t) as F.
  assert ((Qfloor t < n)%Z) by (apply Q_lt_Z; lra). lia.
Qed.

Lemma round_even_lower (t : Q) (n : Z) : inject_Z n <= t -> (n <= Float.round_even t)%Z.
Proof.
  intro H. pose proof (round_even_floor t) as B.
  pose proof (Qfloor_resp_le _ _ H) as F. rewrite Qfloor_Z in F. lia.
Qed.

Lemma binary64_pos_bounds (x : Q) :
  0 < x ->
  0 <= Float.binary64 x /\ Float.binary64 x <= 2 ^ (Float.expo x + 53) /\
  ((-1074 < Float.expo x)%Z -> 2 ^ (Float.expo x + 52) <= Float.binary64 x).
Proof.
  intro Hx.
  rewrite (binary64_nonzero x) by lra.
  destruct (scaled_bounds x Hx) as (S0 & S1 & S2).
  pose proof (two_pow_pos (Float.expo x)) as P.
  set (t := x / 2 ^ Float.expo x) in *.
  assert (R0 : (0 <= Float.round_even t)%Z) by (apply round_even_lower; apply Qlt_le_weak; exact S0).
  assert (R1 : (Float.round_even t <= 2 ^ 53)%Z).
  { apply round_even_upper. rewrite two_pow_Z by lia. exact S1. }
  split; [|split].
  - apply Qmult_le_0_compat; [|lra]. now apply (Z_le_Q 0).
  - rewrite two_pow_add, (Qmult_comm (2 ^ Float.expo x)).
    apply Qmult_le_compat_r; [|lra].
    rewrite <- two_pow_Z by lia. now apply Z_le_Q.
  - intro Hn. specialize (S2 Hn).
    rewrite two_pow_add, (Qmult_comm (2 ^ Float.expo x)).
    apply Qmult_le_compat_r; [|lra].
    rewrite <- two_pow_Z by lia. apply Z_le_Q.
    apply round_even_lower. rewrite two_pow_Z by lia. exact S2.
Qed.

Lemma expo_mono (x y : Q) : 0 < x -> x <= y -> (Float.expo x <= Float.expo y)%Z.
Proof.
  intros Hx Hxy. unfold Float.expo.
  rewrite (ilog2_comp (Qabs x) x) by (apply Qabs_pos; lra).
  rewrite (ilog2_comp (Qabs y) y) by (apply Qabs_pos; lra).
  pose proof (ilog2_mono x y Hx Hxy). lia.
Qed.

Lemma binary64_mono_pos (x y : Q) : 0 < x -> x <= y -> Float.binary64 x <= Float.binary64 y.
Proof.
  intros Hx Hxy.
  pose proof (expo_mono x y Hx Hxy) as He.
  destruct (Z.eq_dec (Float.expo x) (Float.expo y)) as [E|E].
  - rewrite (binary64_nonzero x), (binary64_nonzero y) by lra.
    rewrite E. pose proof (two_pow_pos (Float.expo y)) as P.
    apply Qmult_le_compat_r; [|lra].
    apply Z_le_Q. apply round_even_mono.
    apply Qmult_le_compat_r; [exact Hxy|].
    apply Qinv_le_0_compat. lra.
  - destruct (binary64_pos_bounds x Hx) as (_ & U & _).
    destruct (binary64_pos_bounds y ltac:(lra)) as (_ & _ & L).
    assert (Hn : (-1074 < Float.expo y)%Z) by (unfold Float.expo in *; lia).
    specialize (L Hn).
    apply Qle_trans with (2 ^ (Float.expo x + 53)); [exact U|].
    apply Qle_trans with (2 ^ (Float.expo y + 52)); [|exact L].
    apply two_pow_le. lia.
Qed.

Lemma binary64_nonneg (x : Q) : 0 <= x -> 0 <= Float.binary64 x.
Proof.
  intro H. destruct (Qeq_dec x 0) as [Z0|Z0].
  - rewrite (binary64_zero x Z0). lra.
  - apply binary64_pos_bounds.
    destruct (Qlt_le_dec 0 x) as [K|K]; [exact K|].
    exfalso. apply Z0. apply Qle_antisym; assumption.
Qed.

Lemma binary64_mono (x y : Q) : x <= y -> Float.binary64 x <= Float.binary64 y.
Proof.
  intro H.
  destruct (Qlt_le_dec 0 x) as [Px|Nx].
  - now apply binary64_mono_pos.
  - destruct (Qlt_le_dec y 0) as [Ny|Py].
    + (* both negative *)
      assert (K : Float.binary64 (- y) <= Float.binary64 (- x)) by (apply binary64_mono_pos; lra).
      rewrite !binary64_opp in K. lra.
    + pose proof (binary64_nonneg y Py).
      assert (K : 0 <= Float.binary64 (- x)) by (apply binary64_nonneg; lra).
      rewrite binary64_opp in K. lra.
Qed.

Lemma two_pow_le_inv (a b : Z) : 2 ^ a <= 2 ^ b -> (a <= b)%Z.
Proof. intro H. apply (Qpower_le_compat_l_inv 2); [exact H|reflexivity]. Qed.

Lemma binary64_exact_scaled (x : Q) (n : Z) :
  ~ x == 0 -> x / 2 ^ Float.expo x == inject_Z n -> Float.binary64 x == x.
Proof.
  intros Hx Hn.
  rewrite (binary64_nonzero x Hx).
  rewrite (round_even_comp _ _ Hn), round_even_Z.
  rewrite <- Hn. pose proof (two_pow_pos (Float.expo x)). field. lra.
Qed.

Lemma binary64_Z_pos (z : Z) :
  (0 < z <= 2 ^ 53)%Z -> Float.binary64 (inject_Z z) == inject_Z z.
Proof.
  intros [Hz Hb].
  set (x := inject_Z z).
  assert (Hx : 0 < x) by (apply (Z_lt_Q 0); exact Hz).
  assert (H1 : 1 <= x) by (apply (Z_le_Q 1); lia).
  assert (Hu : x <= 2 ^ 53) by (rewrite <- two_pow_Z by lia; apply Z_le_Q; exact Hb).
  destruct (ilog2_spec x Hx) as [L U].
  assert (K0 : (0 <= Float.ilog2 x)%Z).
  { assert (T : 2 ^ 0 < 2 ^ (Float.ilog2 x + 1)) by (simpl (2 ^ 0); lra).
    apply two_pow_lt_inv in T. lia. }
  assert (K1 : (Float.ilog2 x <= 53)%Z).
  { apply two_pow_le_inv. lra. }
  assert (E : Float.expo x = (Float.ilog2 x - 52)%Z).
  { unfold Float.expo. rewrite (ilog2_comp (Qabs x) x) by (apply Qabs_pos; lra). lia. }
  destruct (Z.eq_dec (Float.ilog2 x) 53) as [T|T].
  - (* x = 2^53 *)
    assert (Ez : z = (2 ^ 53)%Z).
    { assert (I : (2 ^ 53 <= z)%Z).
      { apply Q_le_Z. rewrite two_pow_Z by lia. rewrite <- T. exact L. }
      lia. }
    apply (binary64_exact_scaled x (2 ^ 52)); [lra|].
    rewrite E, T. unfold x. rewrite Ez. reflexivity.
  - apply (binary64_exact_scaled x (z * 2 ^ (52 - Float.ilog2 x))); [lra|].
    rewrite E. rewrite inject_Z_mult. rewrite two_pow_Z by lia.
    replace (52 - Float.ilog2 x)%Z with (- (Float.ilog2 x - 52))%Z by lia.
    rewrite two_pow_opp. reflexivity.
Qed.

Lemma binary64_Z (z : Z) :
  (Z.abs z <= 2 ^ 53)%Z -> Float.binary64 (inject_Z z) == inject_Z z.
Proof.
  intro H. destruct (Z.lt_trichotomy z 0) as [N|[Z0|P]].
  - assert (K : Float.binary64 (inject_Z (- z)) == inject_Z (- z)) by (apply binary64_Z_pos; lia).
    rewrite inject_Z_opp, binary64_opp in K. lra.
  - subst. reflexivity.
  - apply binary64_Z_pos. lia.
Qed.

End FloatFacts.

#[global] Instance binary64_Proper : Proper (Qeq ==> Qeq) Float.binary64.
Proof. intros x y H. now apply binary64_comp. Qed.

(** Within the range of the boundaries [random.uniform] does not raise. *)
Lemma overflows_in_range (n : Z) :
  Z.abs n <= 2 ^ 1023 -> Float.overflows (inject_Z n) = false.
Proof.
  intro H.
  assert (U : (Float.binary64 (inject_Z n) <= inject_Z (2 ^ 1023))%Q).
  { assert (E : (Float.binary64 (inject_Z (2 ^ 1023)) == inject_Z (2 ^ 1023))%Q)
      by (vm_compute; reflexivity).
    rewrite <- E. apply binary64_mono, Z_le_Q. lia. }
  assert (L : (inject_Z (- 2 ^ 1023) <= Float.binary64 (inject_Z n))%Q).
  { assert (E : (Float.binary64 (inject_Z (- 2 ^ 1023)) == inject_Z (- 2 ^ 1023))%Q)
      by (vm_compute; reflexivity).
    rewrite <- E. apply binary64_mono, Z_le_Q. lia. }
  unfold Float.overflows.
  destruct (Qle_bool (2 ^ 1024) (Qabs (Float.binary64 (inject_Z n)))) eqn:B; [|reflexivity].
  exfalso. apply Qle_bool_iff in B.
  assert (A : (Qabs (Float.binary64 (inject_Z n)) <= inject_Z (2 ^ 1023))%Q).
  { apply Qabs_Qle_condition. split; [|exact U].
    rewrite <- inject_Z_opp. exact L. }
  assert (T : (inject_Z (2 ^ 1023) < 2 ^ 1024)%Q).
  { rewrite two_pow_Z by lia.
    replace 1024 with (1023 + 1) by reflexivity. rewrite two_pow_add.
    pose proof (two_pow_pos 1023) as P. change (2 ^ 1)%Q with 2%Q. lra. }
  lra.
Qed.

Lemma random_uniform_in_range (self : AutoTaker.t) (r : Q) :
  boundaries_in_float_range self ->
  AutoTaker.random_uniform (AutoTaker.order_submission_lower_boundary self)
                           (AutoTaker.order_submission_higher_boundary self) r
  = Ok (AutoTaker.uniform (AutoTaker.order_submission_lower_boundary self)
                          (AutoTaker.order_submission_higher_boundary self) r).
Proof.
  intros [Hl Hu]. unfold AutoTaker.random_uniform.
  assert (E : 2 ^ 1023 = 2 * 2 ^ 1022) by reflexivity.
  rewrite !overflows_in_range by lia.
  reflexivity.
Qed.

(* ------------------------------------------------------------------ *)
(** ** The payload builder *)

Lemma construct_loop_app (self : AutoTaker.t) (ss : list Strategy.t) (acc : list Order.t) :
  fold_left
    (fun order_payloads strategy =>
       fold_left
         (fun order_payloads side =>
            order_payloads ++
            [Order.init (Strategy.id strategy) (PStr (TradeAction.name side))
                        (Strategy.min_block_size strategy)
                        (PStr (AutoTaker.paradigm_taker_account_name self))])
         TradeAction.members order_payloads)
    ss acc
  = acc ++ flat_map (fun s => [intent self TradeAction.BUY s; intent self TradeAction.SELL s]) ss.
Proof.
  revert acc.
  induction ss as [|s ss IH]; intro acc.
  - simpl. now rewrite app_nil_r.
  - cbn [fold_left flat_map TradeAction.members].
    rewrite IH.
    rewrite <- !app_assoc.
    reflexivity.
Qed.

Lemma construct_order_payloads_flat (self : AutoTaker.t) :
  AutoTaker.construct_order_payloads self
  = flat_map (fun s => [intent self TradeAction.BUY s; intent self TradeAction.SELL s])
             (AutoTaker.availabile_strateies self).
Proof.
  unfold AutoTaker.construct_order_payloads.
  now rewrite construct_loop_app.
Qed.

Lemma pairs_length {A B} (f g : A -> B) (l : list A) :
  List.length (flat_map (fun s => [f s; g s]) l) = (2 * List.length l)%nat.
Proof.
  induction l as [|x l IH]; simpl; [reflexivity|].
  rewrite IH. lia.
Qed.

Lemma pairs_nth_error {A B} (f g : A -> B) (l : list A) (i : nat) :
  nth_error (flat_map (fun s => [f s; g s]) l) (2 * i) = option_map f (nth_error l i) /\
  nth_error (flat_map (fun s => [f s; g s]) l) (2 * i + 1) = option_map g (nth_error l i).
Proof.
  revert i.
  induction l as [|x l IH]; intro i.
  - simpl. rewrite !nth_error_nil. destruct i; simpl; auto.
  - destruct i as [|i].
    + simpl. auto.
    + replace (2 * S i)%nat with (S (S (2 * i))) by lia.
      replace (S (S (2 * i)) + 1)%nat with (S (S (2 * i + 1))) by lia.
      simpl flat_map. cbn [nth_error app].
      apply IH.
Qed.

Lemma filter_none {A} (l : list A) : filter (fun _ => false) l = [].
Proof. induction l; simpl; auto. Qed.

Lemma pairs_filter_length {A B} (f g : A -> B) (Q : B -> bool) (l : list A) :
  List.length (filter Q (flat_map (fun s => [f s; g s]) l))
  = (List.length (filter (fun s => Q (f s)) l) + List.length (filter (fun s => Q (g s)) l))%nat.
Proof.
  induction l as [|x l IH]; simpl; [reflexivity|].
  destruct (Q (f x)), (Q (g x)); simpl; rewrite IH; lia.
Qed.

Lemma pairs_nth_error_inv {A B} (f g : A -> B) (l : list A) (j : nat) (o : B) :
  nth_error (flat_map (fun s => [f s; g s]) l) j = Some o ->
  exists i s, nth_error l i = Some s /\
              ((j = (2 * i)%nat /\ o = f s) \/ (j = (2 * i + 1)%nat /\ o = g s)).
Proof.
  intro H.
  pose proof (Nat.div_mod_eq j 2) as E.
  pose proof (Nat.mod_upper_bound j 2 ltac:(lia)) as M.
  destruct (pairs_nth_error f g l (j / 2)) as [H0 H1].
  exists (j / 2)%nat.
  destruct (Nat.eq_dec (j mod 2) 0) as [Z0|Z0].
  - replace (2 * (j / 2))%nat with j in H0 by lia.
    rewrite H in H0.
    destruct (nth_error l (j / 2)) as [s|]; [|discriminate].
    exists s. split; [reflexivity|]. left. split; [lia|]. now inversion H0.
  - replace (2 * (j / 2) + 1)%nat with j in H1 by lia.
    rewrite H in H1.
    destruct (nth_error l (j / 2)) as [s|]; [|discriminate].
    exists s. split; [reflexivity|]. right. split; [lia|]. now inversion H1.
Qed.

Lemma unique_id_position (l : list Strategy.t) (i i' : nat) (s s' : Strategy.t) :
  NoDup (map Strategy.id l) ->
  nth_error l i = Some s -> nth_error l i' = Some s' ->
  Strategy.id s = Strategy.id s' -> i = i'.
Proof.
  intros Hn Hi Hi' E.
  rewrite NoDup_nth_error in Hn.
  apply Hn.
  - rewrite length_map. apply nth_error_Some. now rewrite Hi.
  - rewrite !nth_error_map, Hi, Hi'. cbn. now rewrite E.
Qed.

(** C2.  For every instance, whatever its list of strategies (so for every
    list of N >= 1 strategies and every account name), the payload builder
    returns exactly 2N intents; the strategy at position i of the list gives
    the intents at positions 2i and 2i+1, first the BUY intent and then the
    SELL intent, each with the strategy's id, the strategy's min_block_size
    as amount and the account name; and for every test on ids, the intents
    whose id passes it are twice the strategies whose id passes it, once on
    each side.  When the ids of the strategies are distinct, as the venue
    assigns them, the intents with the id of the strategy at position i are
    those at positions 2i and 2i+1 and no other: each id appears exactly
    twice, once with BUY and once with SELL. *)
Theorem construct_order_payloads_two_per_strategy (self : AutoTaker.t) :
  let strategies := AutoTaker.availabile_strateies self in
  let intents := AutoTaker.construct_order_payloads self in
  List.length intents = (2 * List.length strategies)%nat /\
  (forall i : nat,
      nth_error intents (2 * i)
        = option_map (intent self TradeAction.BUY) (nth_error strategies i) /\
      nth_error intents (2 * i + 1)
        = option_map (intent self TradeAction.SELL) (nth_error strategies i)) /\
  (forall P : pyval -> bool,
      let carried := List.length (filter (fun s => P (Strategy.id s)) strategies) in
      List.length (filter (fun o => P (Order.id o)) intents) = (2 * carried)%nat /\
      List.length (filter (fun o => P (Order.id o) && has_side TradeAction.BUY o) intents)
        = carried /\
      List.length (filter (fun o => P (Order.id o) && has_side TradeAction.SELL o) intents)
        = carried) /\
  (NoDup (map Strategy.id strategies) ->
   forall (i : nat) (s : Strategy.t) (j : nat) (o : Order.t),
     nth_error strategies i = Some s ->
     nth_error intents j = Some o ->
     Order.id o = Strategy.id s ->
     j = (2 * i)%nat \/ j = (2 * i + 1)%nat).
Proof.
  cbv zeta.
  rewrite construct_order_payloads_flat.
  split; [apply pairs_length|].
  split; [intro i; apply pairs_nth_error|].
  split; [|intros Hn i s j o Hi Hj Ho;
           destruct (pairs_nth_error_inv _ _ _ _ _ Hj) as (i' & s' & Hi' & [[-> ->]|[-> ->]]);
           cbn [intent Order.id] in Ho;
           rewrite (unique_id_position _ _ _ _ _ Hn Hi Hi' (eq_sym Ho)); auto].
  intro P.
  rewrite !pairs_filter_length.
  unfold has_side, intent; cbn [Order.id Order.side TradeAction.name String.eqb Ascii.eqb Bool.eqb].
  repeat split.
  - lia.
  - rewrite (filter_ext _ (fun s => P (Strategy.id s))) by (intro; apply andb_true_r).
    rewrite (filter_ext (fun s => P (Strategy.id s) && false) (fun _ => false))
      by (intro; apply andb_false_r).
    rewrite filter_none. simpl. lia.
  - rewrite (filter_ext (fun s => P (Strategy.id s) && false) (fun _ => false))
      by (intro; apply andb_false_r).
    rewrite filter_none.
    rewrite (filter_ext _ (fun s => P (Strategy.id s))) by (intro; apply andb_true_r).
    simpl. lia.
Qed.

(** Two strategies and the account "taker-account": four intents. *)
Lemma construct_order_payloads_two_per_strategy_witness :
  let strategies := [Strategy.Build (PStr "strat-1") (PInt 5);
                     Strategy.Build (PStr "strat-2") (PInt 10)] in
  let self := AutoTaker.set_availabile_strateies strategies sample_taker in
  NoDup (map Strategy.id strategies) /\
  List.length (AutoTaker.construct_order_payloads self) = 4%nat /\
  map (fun o => (Order.id o, Order.side o, Order.amount o))
      (AutoTaker.construct_order_payloads self)
  = [ (PStr "strat-1", PStr "BUY", PInt 5); (PStr "strat-1", PStr "SELL", PInt 5);
      (PStr "strat-2", PStr "BUY", PInt 10); (PStr "strat-2", PStr "SELL", PInt 10) ].
Proof.
  cbv zeta.
  split.
  - repeat constructor; cbn; intuition discriminate.
  - split; [|reflexivity].
    apply (construct_order_payloads_two_per_strategy
             (AutoTaker.set_availabile_strateies
                [Strategy.Build (PStr "strat-1") (PInt 5);
                 Strategy.Build (PStr "strat-2") (PInt 10)] sample_taker)).
Defined.

(** C7.  The payload builder does not read [order_number_per_strategy]: two
    instances that differ in that setting only build the same list of
    intents, and the list always holds exactly one BUY and one SELL intent
    per strategy. *)
Theorem order_number_per_strategy_is_ignored (self : AutoTaker.t) (n1 n2 : Z) :
  AutoTaker.construct_order_payloads (AutoTaker.set_order_number_per_strategy n1 self)
  = AutoTaker.construct_order_payloads (AutoTaker.set_order_number_per_strategy n2 self) /\
  AutoTaker.construct_order_payloads (AutoTaker.set_order_number_per_strategy n1 self)
  = flat_map (fun s => [intent self TradeAction.BUY s; intent self TradeAction.SELL s])
             (AutoTaker.availabile_strateies self).
Proof.
  rewrite !construct_order_payloads_flat.
  split; reflexivity.
Qed.

(* ------------------------------------------------------------------ *)
(** ** The serialized order *)

Lemma order_payload_cases (o : Order.t) :
  Order.order_payload o =
    [ ("account_name", Order.account_name o); ("strategy_id", Order.id o);
      ("type", Order.type o); ("amount", Order.amount o); ("side", Order.side o) ]
    ++ (if truthy (Order.price o) then [("price", Order.price o)] else []).
Proof.
  unfold Order.order_payload.
  destruct (truthy (Order.price o)); reflexivity.
Qed.

(** C10.  For every order, the payload [order_payload] builds has the key
    'price' exactly when the order's price is truthy, and then with the
    price as its value: a price of None or of the empty string leaves the
    key out, every non-empty price string is included.  The keys
    account_name, strategy_id, type, amount and side are always present,
    with the order's fields as values. *)
Theorem order_payload_price_iff_truthy (o : Order.t) :
  dict_has (Order.order_payload o) "price" = truthy (Order.price o) /\
  dict_get (Order.order_payload o) "price"
    = (if truthy (Order.price o) then Some (Order.price o) else None) /\
  (forall i sd a n t,
      dict_get (Order.order_payload (Order.Build i sd a n t PNone)) "price" = None) /\
  (forall i sd a n t,
      dict_get (Order.order_payload (Order.Build i sd a n t (PStr ""))) "price" = None) /\
  (forall i sd a n t c s,
      dict_get (Order.order_payload (Order.Build i sd a n t (PStr (String c s)))) "price"
      = Some (PStr (String c s))) /\
  dict_get (Order.order_payload o) "account_name" = Some (Order.account_name o) /\
  dict_get (Order.order_payload o) "strategy_id" = Some (Order.id o) /\
  dict_get (Order.order_payload o) "type" = Some (Order.type o) /\
  dict_get (Order.order_payload o) "amount" = Some (Order.amount o) /\
  dict_get (Order.order_payload o) "side" = Some (Order.side o).
Proof.
  unfold dict_has.
  rewrite order_payload_cases.
  destruct (truthy (Order.price o)) eqn:E.
  - repeat split; try reflexivity; intros; rewrite order_payload_cases; reflexivity.
  - repeat split; try reflexivity; intros; rewrite order_payload_cases; reflexivity.
Qed.

(* ------------------------------------------------------------------ *)
(** ** The request URL *)

Lemma create_rest_headers_ignores_url (self : AutoTaker.t) (u : str) (m p b : str) (now : Q) :
  AutoTaker.create_rest_headers (AutoTaker.set_paradigm_http_url u self) m p b now
  = AutoTaker.create_rest_headers self m p b now.
Proof. reflexivity. Qed.

Lemma post_order_requests
      (json_dumps : dict -> str) (json_loads : bytes -> result pyval) (g : str)
      (self : AutoTaker.t) (payload : dict) (now : Q) (outcome : http_outcome) :
  request_urls (fst (AutoTaker.post_order json_dumps json_loads g self payload now outcome))
  = if is_ok (AutoTaker.create_rest_headers self "POST" "/v1/fs/orders" (json_dumps payload) now)
    then [String.append g "/v1/fs/orders"] else [].
Proof.
  unfold AutoTaker.post_order.
  destruct (AutoTaker.create_rest_headers self "POST" "/v1/fs/orders" (json_dumps payload) now)
    as [hdrs|e]; [|reflexivity].
  cbn [is_ok].
  destruct outcome as [r|e].
  - destruct (AutoTaker.response_json json_loads false r) as [v|e].
    + destruct (status r =? 201); reflexivity.
    + destruct (isinstance_ClientConnectorError e); reflexivity.
  - destruct (isinstance_ClientConnectorError e); reflexivity.
Qed.

Lemma get_strategies_requests
      (json_loads : bytes -> result pyval) (g : str)
      (self : AutoTaker.t) (now : Q) (outcome : http_outcome) :
  request_urls (fst (AutoTaker.get_strategies json_loads g self now outcome))
  = if is_ok (AutoTaker.create_rest_headers self "GET" "/v1/fs/strategies?page_size=100" "" now)
    then [String.append g "/v1/fs/strategies?page_size=100"] else [].
Proof.
  unfold AutoTaker.get_strategies.
  destruct (AutoTaker.create_rest_headers self "GET" "/v1/fs/strategies?page_size=100" "" now)
    as [hdrs|e]; [|reflexivity].
  cbn [is_ok].
  destruct outcome as [r|e]; [|reflexivity].
  destruct (status r =? 200); [|reflexivity].
  destruct (AutoTaker.response_json json_loads true r); reflexivity.
Qed.

(** C9.  The URL of the requests [post_order] and [get_strategies] send does
    not depend on the [paradigm_http_url] given to the constructor: two
    instances that differ in that field only behave identically in both
    methods, and every request goes to the module-level global
    [paradigm_http_url] followed by the path. *)
Theorem request_url_ignores_constructor_url
      (json_dumps : dict -> str) (json_loads : bytes -> result pyval) (g : str)
      (self : AutoTaker.t) (u1 u2 : str)
      (payload : dict) (now : Q) (outcome : http_outcome) :
  AutoTaker.post_order json_dumps json_loads g
    (AutoTaker.set_paradigm_http_url u1 self) payload now outcome
  = AutoTaker.post_order json_dumps json_loads g
    (AutoTaker.set_paradigm_http_url u2 self) payload now outcome /\
  AutoTaker.get_strategies json_loads g (AutoTaker.set_paradigm_http_url u1 self) now outcome
  = AutoTaker.get_strategies json_loads g (AutoTaker.set_paradigm_http_url u2 self) now outcome /\
  Forall (fun u => u = String.append g "/v1/fs/orders")
    (request_urls (fst (AutoTaker.post_order json_dumps json_loads g
                          (AutoTaker.set_paradigm_http_url u1 self) payload now outcome))) /\
  Forall (fun u => u = String.append g "/v1/fs/strategies?page_size=100")
    (request_urls (fst (AutoTaker.get_strategies json_loads g
                          (AutoTaker.set_paradigm_http_url u1 self) now outcome))).
Proof.
  split; [|split; [|split]].
  - unfold AutoTaker.post_order.
    now rewrite !create_rest_headers_ignores_url.
  - unfold AutoTaker.get_strategies.
    now rewrite !create_rest_headers_ignores_url.
  - rewrite post_order_requests.
    destruct (is_ok _); repeat constructor.
  - rewrite get_strategies_requests.
    destruct (is_ok _); repeat constructor.
Qed.

(* ------------------------------------------------------------------ *)
(** ** Signing: the two outcomes of [sign_request] *)

Lemma sign_request_decoded (key method path body : str) (now : Q) (sk : bytes) :
  Base64.b64decode (encode_utf8 key) = Ok sk ->
  AutoTaker.sign_request key method path body now
  = Ok (str_of_int (int_of_Q (Float.mul now (Float.of_int 1000))),
        Base64.b64encode
          (Hmac.digest_sha256 sk
             (bytes_join (String "010" "")
                [str_of_int (int_of_Q (Float.mul now (Float.of_int 1000)));
                 bytes_upper method; path; body]))).
Proof.
  intro H. unfold AutoTaker.sign_request. rewrite H. reflexivity.
Qed.

Lemma sign_request_rejected (key method path body : str) (now : Q) (e : exn) :
  Base64.b64decode (encode_utf8 key) = Raise e ->
  AutoTaker.sign_request key method path body now = Raise e.
Proof.
  intro H. unfold AutoTaker.sign_request. rewrite H. reflexivity.
Qed.

Lemma create_rest_headers_decoded (self : AutoTaker.t) (method path body : str)
      (now : Q) (sk : bytes) :
  Base64.b64decode (encode_utf8 (AutoTaker.paradigm_taker_secret_key self)) = Ok sk ->
  exists hdrs, AutoTaker.create_rest_headers self method path body now = Ok hdrs.
Proof.
  intro H. unfold AutoTaker.create_rest_headers.
  rewrite (sign_request_decoded _ _ _ _ _ _ H).
  eexists. reflexivity.
Qed.

(* ------------------------------------------------------------------ *)
(** ** One submission *)

Section Submission.

Variable json_dumps : dict -> str.
Variable json_loads : bytes -> result pyval.
Variable g : str.

Lemma post_order_response (self : AutoTaker.t) (payload : dict) (now : Q)
      (r : ClientResponse) (hdrs : list (str * str)) (v : pyval) :
  AutoTaker.create_rest_headers self "POST" "/v1/fs/orders" (json_dumps payload) now = Ok hdrs ->
  AutoTaker.response_json json_loads false r = Ok v ->
  AutoTaker.post_order json_dumps json_loads g self payload now (Response r)
  = (Request "POST" (String.append g "/v1/fs/orders") hdrs (Some payload)
       :: (if status r =? 201
           then [Logged INFO [Lit "Order Create "; FInt (status r);
                              Lit " | Response: "; FVal v]]
           else rejection_log (status r) v payload),
     Ok tt).
Proof.
  intros Hh Hj. unfold AutoTaker.post_order. rewrite Hh, Hj.
  destruct (status r =? 201); reflexivity.
Qed.

Lemma post_order_failure (self : AutoTaker.t) (payload : dict) (now : Q)
      (e : exn) (hdrs : list (str * str)) :
  AutoTaker.create_rest_headers self "POST" "/v1/fs/orders" (json_dumps payload) now = Ok hdrs ->
  AutoTaker.post_order json_dumps json_loads g self payload now (Failure e)
  = if isinstance_ClientConnectorError e
    then (Request "POST" (String.append g "/v1/fs/orders") hdrs (Some payload)
            :: connector_log e, Ok tt)
    else ([Request "POST" (String.append g "/v1/fs/orders") hdrs (Some payload)], Raise e).
Proof.
  intros Hh. unfold AutoTaker.post_order. rewrite Hh.
  destruct (isinstance_ClientConnectorError e); reflexivity.
Qed.

Lemma post_order_settles (self : AutoTaker.t) (payload : dict) (now : Q)
      (o : http_outcome) (sk : bytes) :
  Base64.b64decode (encode_utf8 (AutoTaker.paradigm_taker_secret_key self)) = Ok sk ->
  settles json_loads o = true ->
  snd (AutoTaker.post_order json_dumps json_loads g self payload now o) = Ok tt.
Proof.
  intros Hk Hs.
  destruct (create_rest_headers_decoded self "POST" "/v1/fs/orders" (json_dumps payload) now sk Hk)
    as [hdrs Hh].
  destruct o as [r|e]; cbn [settles] in Hs.
  - destruct (AutoTaker.response_json json_loads false r) as [v|e] eqn:Hj; [|discriminate].
    now rewrite (post_order_response self payload now r hdrs v Hh Hj).
  - rewrite (post_order_failure self payload now e hdrs Hh), Hs. reflexivity.
Qed.

Lemma gather_all_returned (ts : list AutoTaker.task) :
  Forall (fun t => snd t = Ok tt) ts -> AutoTaker.gather ts = Ok tt.
Proof.
  induction 1 as [|[evs res] ts Ht _ IH]; [reflexivity|].
  cbn [snd] in Ht. subst res. exact IH.
Qed.

Lemma create_tasks_settle (self : AutoTaker.t) (w : AutoTaker.world) (k : nat) (sk : bytes)
      (orders : list Order.t) (i : nat) :
  Base64.b64decode (encode_utf8 (AutoTaker.paradigm_taker_secret_key self)) = Ok sk ->
  (forall j, settles json_loads (AutoTaker.order_outcome w k j) = true) ->
  Forall (fun t => snd t = Ok tt)
         (AutoTaker.create_tasks json_dumps json_loads g self w k i orders).
Proof.
  intros Hk Hs. revert i.
  induction orders as [|o orders IH]; intro i; cbn [AutoTaker.create_tasks]; constructor.
  - apply (post_order_settles _ _ _ _ sk Hk (Hs i)).
  - apply IH.
Qed.

Lemma create_tasks_length (self : AutoTaker.t) (w : AutoTaker.world) (k i : nat)
      (orders : list Order.t) :
  List.length (AutoTaker.create_tasks json_dumps json_loads g self w k i orders)
  = List.length orders.
Proof.
  revert i. induction orders as [|o orders IH]; intro i; simpl; [reflexivity|].
  now rewrite IH.
Qed.

Lemma one_round_settles (self : AutoTaker.t) (w : AutoTaker.world) (k : nat) (sk : bytes) :
  Base64.b64decode (encode_utf8 (AutoTaker.paradigm_taker_secret_key self)) = Ok sk ->
  boundaries_in_float_range self ->
  (forall j, settles json_loads (AutoTaker.order_outcome w k j) = true) ->
  AutoTaker.one_round json_dumps json_loads g self w k
  = AutoTaker.Slept
      (AutoTaker.create_tasks json_dumps json_loads g self w k 0 (AutoTaker.order_payloads self))
      (AutoTaker.uniform (AutoTaker.order_submission_lower_boundary self)
                         (AutoTaker.order_submission_higher_boundary self)
                         (AutoTaker.random w k)).
Proof.
  intros Hk Hb Hs. unfold AutoTaker.one_round.
  rewrite (gather_all_returned _ (create_tasks_settle self w k sk _ 0 Hk Hs)).
  now rewrite (random_uniform_in_range self _ Hb).
Qed.

Lemma loop_settles (self : AutoTaker.t) (w : AutoTaker.world) (sk : bytes) (n k : nat) :
  Base64.b64decode (encode_utf8 (AutoTaker.paradigm_taker_secret_key self)) = Ok sk ->
  boundaries_in_float_range self ->
  (forall k j, settles json_loads (AutoTaker.order_outcome w k j) = true) ->
  List.length (AutoTaker.loop json_dumps json_loads g self w k n) = n /\
  forallb is_slept (AutoTaker.loop json_dumps json_loads g self w k n) = true.
Proof.
  intros Hk Hb Hs. revert k.
  induction n as [|n IH]; intro k; [split; reflexivity|].
  cbn [AutoTaker.loop].
  rewrite (one_round_settles self w k sk Hk Hb (Hs k)).
  destruct (IH (S k)) as [Hl Hf].
  cbn [List.length forallb is_slept]. rewrite Hl, Hf. split; reflexivity.
Qed.

Lemma loop_no_orders (self : AutoTaker.t) (w : AutoTaker.world) (n k : nat) :
  boundaries_in_float_range self ->
  AutoTaker.order_payloads self = [] ->
  AutoTaker.loop json_dumps json_loads g self w k n
  = map (fun j => AutoTaker.Slept []
                    (AutoTaker.uniform (AutoTaker.order_submission_lower_boundary self)
                                       (AutoTaker.order_submission_higher_boundary self)
                                       (AutoTaker.random w j)))
        (seq k n).
Proof.
  intros Hb He. revert k.
  induction n as [|n IH]; intro k; [reflexivity|].
  cbn [AutoTaker.loop seq map]. unfold AutoTaker.one_round at 1.
  rewrite He. cbn [AutoTaker.create_tasks AutoTaker.gather].
  rewrite (random_uniform_in_range self _ Hb).
  now rewrite IH.
Qed.

End Submission.

(* ------------------------------------------------------------------ *)
(** ** Failed submissions *)

(** C3, as the code has it.  With a secret key that decodes: a response of
    any status other than 201 whose body [response.json] accepts is reported
    by four log records and [post_order] returns; a connection that could
    not be opened ([ClientConnectorError]) is reported by one log record and
    [post_order] returns; with sleep boundaries in the range of the floats
    (of magnitude at most 2^1022; beyond it [random.uniform] raises
    OverflowError), a pass of the loop in which every submission ends in one
    of these ways (or is accepted) completes and goes on to its sleep, and
    so does every later pass. *)
Theorem post_order_logs_handled_failures
      (json_dumps : dict -> str) (json_loads : bytes -> result pyval) (g : str)
      (self : AutoTaker.t) (w : AutoTaker.world) (sk : bytes) :
  Base64.b64decode (encode_utf8 (AutoTaker.paradigm_taker_secret_key self)) = Ok sk ->
  (forall payload now r v,
      AutoTaker.response_json json_loads false r = Ok v ->
      status r <> 201 ->
      exists hdrs,
        AutoTaker.post_order json_dumps json_loads g self payload now (Response r)
        = (Request "POST" (String.append g "/v1/fs/orders") hdrs (Some payload)
             :: rejection_log (status r) v payload, Ok tt)) /\
  (forall payload now msg,
      exists hdrs,
        AutoTaker.post_order json_dumps json_loads g self payload now
          (Failure (ClientConnectorError msg))
        = (Request "POST" (String.append g "/v1/fs/orders") hdrs (Some payload)
             :: connector_log (ClientConnectorError msg), Ok tt)) /\
  (forall k,
      boundaries_in_float_range self ->
      (forall j, settles json_loads (AutoTaker.order_outcome w k j) = true) ->
      AutoTaker.one_round json_dumps json_loads g self w k
      = AutoTaker.Slept
          (AutoTaker.create_tasks json_dumps json_loads g self w k 0
             (AutoTaker.order_payloads self))
          (AutoTaker.uniform (AutoTaker.order_submission_lower_boundary self)
                             (AutoTaker.order_submission_higher_boundary self)
                             (AutoTaker.random w k))) /\
  (forall n,
      boundaries_in_float_range self ->
      (forall k j, settles json_loads (AutoTaker.order_outcome w k j) = true) ->
      List.length (AutoTaker.loop json_dumps json_loads g self w 0 n) = n /\
      forallb is_slept (AutoTaker.loop json_dumps json_loads g self w 0 n) = true).
Proof.
  intro Hk.
  split; [|split; [|split]].
  - intros payload now r v Hj Hs.
    destruct (create_rest_headers_decoded self "POST" "/v1/fs/orders"
                (json_dumps payload) now sk Hk) as [hdrs Hh].
    exists hdrs.
    rewrite (post_order_response json_dumps json_loads g self payload now r hdrs v Hh Hj).
    apply Z.eqb_neq in Hs. now rewrite Hs.
  - intros payload now msg.
    destruct (create_rest_headers_decoded self "POST" "/v1/fs/orders"
                (json_dumps payload) now sk Hk) as [hdrs Hh].
    exists hdrs.
    now rewrite (post_order_failure json_dumps json_loads g self payload now _ hdrs Hh).
  - intros k Hb Hs. apply (one_round_settles json_dumps json_loads g self w k sk Hk Hb Hs).
  - intros n Hb Hs. apply (loop_settles json_dumps json_loads g self w sk n 0 Hk Hb Hs).
Qed.

(** A taker holding the BUY and the SELL intent of one strategy. *)
Lemma sample_taker_orders :
  AutoTaker.construct_order_payloads
    (AutoTaker.set_availabile_strateies
       [Strategy.Build (PStr "strat-1") (PInt 5)] sample_taker)
  = [ Order.Build (PStr "strat-1") (PStr "BUY") (PInt 5) (PStr "taker-account")
                  (PStr "MARKET") PNone;
      Order.Build (PStr "strat-1") (PStr "SELL") (PInt 5) (PStr "taker-account")
                  (PStr "MARKET") PNone ].
Proof. reflexivity. Qed.

(** The taker with the two orders of one strategy, and a venue that rejects
    every order with status 400 and the body "{}": the BUY order's call
    sends its request, writes the four log records and returns, and each of
    three passes creates its two tasks, completes and sleeps. *)
Lemma post_order_logs_handled_failures_witness :
  List.length (AutoTaker.order_payloads sample_taker_started) = 2%nat /\
  (exists hdrs,
      AutoTaker.post_order sample_json_dumps sample_json_loads sample_url
        sample_taker_started
        (market_payload "taker-account" TradeAction.BUY
           (Strategy.Build (PStr "strat-1") (PInt 5)))
        (1700000001 # 1) (Response (sample_response 400 "{}"))
      = (Request "POST" "https://api.fs.test.paradigm.co/v1/fs/orders" hdrs
           (Some (market_payload "taker-account" TradeAction.BUY
                    (Strategy.Build (PStr "strat-1") (PInt 5))))
           :: rejection_log 400 (PDict [])
                (market_payload "taker-account" TradeAction.BUY
                   (Strategy.Build (PStr "strat-1") (PInt 5))),
         Ok tt)) /\
  map (fun r => List.length (round_tasks r))
      (AutoTaker.loop sample_json_dumps sample_json_loads sample_url sample_taker_started
         (sample_world (Response (sample_response 200 one_strategy_body))
                       (fun _ _ => Response (sample_response 400 "{}"))) 0 3)
  = [2; 2; 2]%nat /\
  forallb is_slept
    (AutoTaker.loop sample_json_dumps sample_json_loads sample_url sample_taker_started
       (sample_world (Response (sample_response 200 one_strategy_body))
                     (fun _ _ => Response (sample_response 400 "{}"))) 0 3) = true.
Proof.
  destruct (post_order_logs_handled_failures sample_json_dumps sample_json_loads sample_url
              sample_taker_started
              (sample_world (Response (sample_response 200 one_strategy_body))
                            (fun _ _ => Response (sample_response 400 "{}")))
              "secret-key-bytes") as (H1 & _ & H3 & H4);
    [vm_compute; reflexivity|].
  assert (Hb : boundaries_in_float_range sample_taker_started)
    by (split; vm_compute; discriminate).
  assert (Hs : forall k j : nat,
             settles sample_json_loads
               (AutoTaker.order_outcome
                  (sample_world (Response (sample_response 200 one_strategy_body))
                                (fun _ _ => Response (sample_response 400 "{}"))) k j)
             = true)
    by (intros; vm_compute; reflexivity).
  split; [reflexivity|split; [|split]].
  - apply (H1 _ (1700000001 # 1) (sample_response 400 "{}") (PDict []));
      [vm_compute; reflexivity|vm_compute; discriminate].
  - cbn [AutoTaker.loop]. rewrite !(H3 _ Hb (Hs _)).
    cbn [map round_tasks]. rewrite !create_tasks_length. reflexivity.
  - apply (H4 3%nat Hb Hs).
Defined.

(** C3 as stated fails.  The listing gives one strategy; in the first pass
    the connection of the BUY order is reset (aiohttp raises
    [ClientOSError], which is not a [ClientConnectorError]) while the SELL
    order would be accepted with 201: [post_order] raises, and the loop is
    left in its first pass.  A status 502 with a body that is not JSON makes
    [post_order] raise too, from [response.json]. *)
Lemma post_order_unhandled_failure_raises :
  snd (AutoTaker.post_order sample_json_dumps sample_json_loads sample_url sample_taker
         [] (1700000001 # 1) (Failure (ClientOSError "Connection reset by peer")))
  = Raise (ClientOSError "Connection reset by peer") /\
  snd (AutoTaker.post_order sample_json_dumps sample_json_loads sample_url sample_taker
         [] (1700000001 # 1) (Response (sample_response 502 "<html>Bad Gateway</html>")))
  = Raise JSONDecodeError /\
  (exists evs ts,
      AutoTaker.manager sample_json_dumps sample_json_loads sample_url sample_taker
        (sample_world (Response (sample_response 200 one_strategy_body))
           (fun k j => match k, j with
                       | O, O => Failure (ClientOSError "Connection reset by peer")
                       | _, _ => Response (sample_response 201 "{}")
                       end)) 3
      = (evs, Ok [AutoTaker.Aborted ts (ClientOSError "Connection reset by peer")])).
Proof.
  split; [vm_compute; reflexivity|].
  split; [vm_compute; reflexivity|].
  eexists. eexists. vm_compute. reflexivity.
Qed.

(* ------------------------------------------------------------------ *)
(** ** The start-up *)

Section Startup.

Variable json_dumps : dict -> str.
Variable json_loads : bytes -> result pyval.
Variable g : str.

Lemma get_strategies_sends_no_order (self : AutoTaker.t) (now : Q) (o : http_outcome) :
  existsb is_post (fst (AutoTaker.get_strategies json_loads g self now o)) = false.
Proof.
  unfold AutoTaker.get_strategies.
  destruct (AutoTaker.create_rest_headers self "GET" "/v1/fs/strategies?page_size=100" "" now)
    as [hdrs|e]; [|reflexivity].
  destruct o as [r|e]; [|reflexivity].
  destruct (status r =? 200); [|reflexivity].
  destruct (AutoTaker.response_json json_loads true r); reflexivity.
Qed.

Lemma ingest_events (self : AutoTaker.t) (now : Q) (o : http_outcome) :
  fst (AutoTaker.ingest_available_strategies json_loads g self now o)
  = fst (AutoTaker.get_strategies json_loads g self now o).
Proof.
  unfold AutoTaker.ingest_available_strategies.
  destruct (AutoTaker.get_strategies json_loads g self now o) as [evs [rp|e]]; reflexivity.
Qed.

End Startup.

(** C4.  The defect, at a listing answered with status 503.  The else
    branch of [get_strategies] logs [f'Response Text: {response}'] while
    [response] is still the [aiohttp.ClientResponse]: the record holds the
    repr of that object (url, status, reason, headers) and not the body,
    where [post_order] logs the parsed body under the same label.  It then
    returns the object, and [ingest_available_strategies] subscripts it:
    what ends the start-up is [TypeError: 'ClientResponse' object is not
    subscriptable], which carries neither the status code nor the body.
    Two 503 responses with different bodies give the same run, so nothing
    [manager] does or raises recovers the body. *)
Lemma listing_error_carries_no_body :
  (exists hdrs,
      AutoTaker.manager sample_json_dumps sample_json_loads sample_url sample_taker
        (sample_world (Response (sample_response 503 "Service Unavailable"))
                      (fun _ _ => Response (sample_response 201 "{}"))) 1
      = ([ Request "GET" "https://api.fs.test.paradigm.co/v1/fs/strategies?page_size=100"
             hdrs None;
           Logged ERROR [Lit "Unable to [GET] /strategies"];
           Logged ERROR [Lit "Status Code: "; FInt 503];
           Logged ERROR
             [Lit "Response Text: ";
              FResponse ("https://api.fs.test.paradigm.co/v1/fs/strategies?page_size=100",
                         503, "", [("Content-Type", "application/json")])] ],
         Raise (TypeError "'ClientResponse' object is not subscriptable"))) /\
  AutoTaker.manager sample_json_dumps sample_json_loads sample_url sample_taker
    (sample_world (Response (sample_response 503 "Service Unavailable"))
                  (fun _ _ => Response (sample_response 201 "{}"))) 1
  = AutoTaker.manager sample_json_dumps sample_json_loads sample_url sample_taker
      (sample_world (Response (sample_response 503 "maintenance"))
                    (fun _ _ => Response (sample_response 201 "{}"))) 1 /\
  (exists hdrs,
      AutoTaker.post_order sample_json_dumps sample_json_loads sample_url sample_taker
        [] (1700000001 # 1) (Response (sample_response 503 "{}"))
      = ([ Request "POST" "https://api.fs.test.paradigm.co/v1/fs/orders" hdrs (Some []);
           Logged INFO [Lit "Unable to [POST] /orders"];
           Logged INFO [Lit "Status Code: "; FInt 503];
           Logged INFO [Lit "Response Text: "; FVal (PDict [])];
           Logged INFO [Lit "Order Payload: "; FDict []] ],
         Ok tt)) /\
  ~ (exists body_of : list event * result (list AutoTaker.round) -> result bytes,
       forall r : ClientResponse,
         status r <> 200 ->
         body_of (AutoTaker.manager sample_json_dumps sample_json_loads sample_url sample_taker
                    (sample_world (Response r)
                                  (fun _ _ => Response (sample_response 201 "{}"))) 1)
         = read r).
Proof.
  assert (E : AutoTaker.manager sample_json_dumps sample_json_loads sample_url sample_taker
                (sample_world (Response (sample_response 503 "Service Unavailable"))
                              (fun _ _ => Response (sample_response 201 "{}"))) 1
              = AutoTaker.manager sample_json_dumps sample_json_loads sample_url sample_taker
                (sample_world (Response (sample_response 503 "maintenance"))
                              (fun _ _ => Response (sample_response 201 "{}"))) 1)
    by (vm_compute; reflexivity).
  split; [eexists; vm_compute; reflexivity|].
  split; [exact E|].
  split; [eexists; vm_compute; reflexivity|].
  intros [body_of H].
  assert (H1 := H (sample_response 503 "Service Unavailable")).
  assert (H2 := H (sample_response 503 "maintenance")).
  rewrite E in H1. rewrite H2 in H1 by (vm_compute; discriminate).
  specialize (H1 ltac:(vm_compute; discriminate)).
  vm_compute in H1. discriminate H1.
Qed.

(* ------------------------------------------------------------------ *)
(** ** No strategies *)

(** C8, as the code has it.  When the strategy listing yields the empty
    list, the builder returns the empty list; and with sleep boundaries in
    the range of the floats (of magnitude at most 2^1022), [manager],
    observed for any number n of passes, has made all n of them: each
    created no task, hence sent no order, and slept its drawn duration; the
    loop neither ends nor raises. *)
Theorem no_strategies_loop_only_sleeps
      (json_dumps : dict -> str) (json_loads : bytes -> result pyval) (g : str)
      (self : AutoTaker.t) (w : AutoTaker.world) (evs : list event) :
  boundaries_in_float_range self ->
  AutoTaker.ingest_available_strategies json_loads g self
    (AutoTaker.listing_clock w) (AutoTaker.listing_outcome w) = (evs, Ok []) ->
  AutoTaker.construct_order_payloads (AutoTaker.set_availabile_strateies [] self) = [] /\
  forall n : nat,
    AutoTaker.manager json_dumps json_loads g self w n
    = (evs,
       Ok (map (fun k => AutoTaker.Slept []
                           (AutoTaker.uniform
                              (AutoTaker.order_submission_lower_boundary self)
                              (AutoTaker.order_submission_higher_boundary self)
                              (AutoTaker.random w k)))
               (seq 0 n))).
Proof.
  intros Hb Hi.
  split; [reflexivity|].
  intro n. unfold AutoTaker.manager. rewrite Hi.
  rewrite loop_no_orders; [reflexivity|exact Hb|reflexivity].
Qed.

(** The venue answers the listing with 200 and an empty results array;
    both boundaries are 1. *)
Lemma no_strategies_loop_only_sleeps_witness :
  boundaries_in_float_range sample_taker /\
  (exists evs,
      AutoTaker.ingest_available_strategies sample_json_loads sample_url sample_taker
        (13600000001 # 8) (Response (sample_response 200 empty_listing_body))
      = (evs, Ok [])) /\
  snd (AutoTaker.manager sample_json_dumps sample_json_loads sample_url sample_taker
         (sample_world (Response (sample_response 200 empty_listing_body))
                       (fun _ _ => Response (sample_response 201 "{}"))) 3)
  = Ok [AutoTaker.Slept [] (AutoTaker.uniform 1 1 (1 # 2));
        AutoTaker.Slept [] (AutoTaker.uniform 1 1 (1 # 2));
        AutoTaker.Slept [] (AutoTaker.uniform 1 1 (1 # 2))].
Proof.
  assert (Hb : boundaries_in_float_range sample_taker)
    by (split; vm_compute; discriminate).
  split; [exact Hb|].
  split; [eexists; vm_compute; reflexivity|].
  assert (Hi : exists evs,
             AutoTaker.ingest_available_strategies sample_json_loads sample_url sample_taker
               (13600000001 # 8) (Response (sample_response 200 empty_listing_body))
             = (evs, Ok [])) by (eexists; vm_compute; reflexivity).
  destruct Hi as [evs Hi].
  destruct (no_strategies_loop_only_sleeps sample_json_dumps sample_json_loads sample_url
              sample_taker
              (sample_world (Response (sample_response 200 empty_listing_body))
                            (fun _ _ => Response (sample_response 201 "{}")))
              evs Hb Hi) as [_ Hm].
  rewrite (Hm 3%nat). reflexivity.
Defined.

(** C8 as stated fails.  The listing is empty and the boundaries are 0 and
    10^309, an int that no float holds: in the first pass
    [uniform(0, 10**309)] raises OverflowError where the loop should sleep,
    and [manager] leaves the loop with it. *)
Lemma no_strategies_overflow_leaves_the_loop :
  snd (AutoTaker.ingest_available_strategies sample_json_loads sample_url
         (AutoTaker.init sample_url "taker-account" "access-key"
            "c2VjcmV0LWtleS1ieXRlcw==" 1 0 (10 ^ 309))
         (13600000001 # 8) (Response (sample_response 200 empty_listing_body)))
  = Ok [] /\
  snd (AutoTaker.manager sample_json_dumps sample_json_loads sample_url
         (AutoTaker.init sample_url "taker-account" "access-key"
            "c2VjcmV0LWtleS1ieXRlcw==" 1 0 (10 ^ 309))
         (sample_world (Response (sample_response 200 empty_listing_body))
                       (fun _ _ => Response (sample_response 201 "{}"))) 3)
  = Ok [AutoTaker.Aborted [] (OverflowError "int too large to convert to float")].
Proof.
  split; vm_compute; reflexivity.
Qed.

(* ------------------------------------------------------------------ *)
(** ** The sleep between two passes *)

Section Sleep.

Local Open Scope Q_scope.

Variables a b : Z.
Variable r : Q.
Hypothesis a_exact : (Z.abs a <= 2 ^ 53)%Z.
Hypothesis b_exact : (Z.abs b <= 2 ^ 53)%Z.
Hypothesis d_exact : (Z.abs (b - a) <= 2 ^ 53)%Z.
Hypothesis r_unit : 0 <= r /\ r < 1.

Lemma uniform_unfold :
  AutoTaker.uniform a b r
  == Float.binary64 (inject_Z a + Float.binary64 (inject_Z (b - a) * r)).
Proof.
  unfold AutoTaker.uniform, Float.add, Float.mul, Float.of_int.
  apply binary64_comp.
  rewrite (binary64_Z a a_exact).
  apply Qplus_comp; [reflexivity|].
  apply binary64_comp.
  now rewrite (binary64_Z (b - a) d_exact).
Qed.

Lemma uniform_between :
  (a <= b)%Z -> inject_Z a <= AutoTaker.uniform a b r <= inject_Z b.
Proof.
  intro Hab. destruct r_unit as [R0 R1].
  rewrite uniform_unfold.
  assert (D : 0 <= inject_Z (b - a)) by (apply (Z_le_Q 0); lia).
  assert (Db : inject_Z a + inject_Z (b - a) == inject_Z b).
  { rewrite <- inject_Z_plus. now replace (a + (b - a))%Z with b by lia. }
  set (d := inject_Z (b - a)) in *.
  assert (P0 : 0 <= Float.binary64 (d * r)).
  { apply binary64_nonneg. now apply Qmult_le_0_compat. }
  assert (P1 : Float.binary64 (d * r) <= d).
  { apply Qle_trans with (Float.binary64 d).
    - apply binary64_mono.
      assert (K : r * d <= 1 * d) by (apply Qmult_le_compat_r; lra).
      lra.
    - unfold d. rewrite (binary64_Z (b - a) d_exact). apply Qle_refl. }
  split.
  - apply Qle_trans with (Float.binary64 (inject_Z a)).
    + rewrite (binary64_Z a a_exact). apply Qle_refl.
    + apply binary64_mono. lra.
  - apply Qle_trans with (Float.binary64 (inject_Z b)).
    + apply binary64_mono. lra.
    + rewrite (binary64_Z b b_exact). apply Qle_refl.
Qed.

Lemma uniform_between_swapped :
  (b <= a)%Z -> inject_Z b <= AutoTaker.uniform a b r <= inject_Z a.
Proof.
  intro Hab. destruct r_unit as [R0 R1].
  rewrite uniform_unfold.
  assert (D : inject_Z (b - a) <= 0) by (apply (Z_le_Q _ 0); lia).
  assert (Db : inject_Z a + inject_Z (b - a) == inject_Z b).
  { rewrite <- inject_Z_plus. now replace (a + (b - a))%Z with b by lia. }
  set (d := inject_Z (b - a)) in *.
  assert (P0 : Float.binary64 (d * r) <= 0).
  { assert (K : 0 <= Float.binary64 (- (d * r))).
    { apply binary64_nonneg.
      setoid_replace (- (d * r)) with ((- d) * r) by ring.
      apply Qmult_le_0_compat; lra. }
    rewrite binary64_opp in K. lra. }
  assert (P1 : d <= Float.binary64 (d * r)).
  { apply Qle_trans with (Float.binary64 d).
    - unfold d. rewrite (binary64_Z (b - a) d_exact). apply Qle_refl.
    - apply binary64_mono.
      assert (K : r * (- d) <= 1 * (- d)) by (apply Qmult_le_compat_r; lra).
      lra. }
  split.
  - apply Qle_trans with (Float.binary64 (inject_Z b)).
    + rewrite (binary64_Z b b_exact). apply Qle_refl.
    + apply binary64_mono. lra.
  - apply Qle_trans with (Float.binary64 (inject_Z a)).
    + apply binary64_mono. lra.
    + rewrite (binary64_Z a a_exact). apply Qle_refl.
Qed.

End Sleep.

Lemma uniform_constant (a : Z) (r : Q) :
  (Z.abs a <= 2 ^ 53)%Z -> (AutoTaker.uniform a a r == inject_Z a)%Q.
Proof.
  intro Ha.
  unfold AutoTaker.uniform, Float.add, Float.mul, Float.of_int.
  rewrite Z.sub_diag.
  rewrite (binary64_Z 0) by (simpl; lia).
  setoid_replace (inject_Z 0 * r)%Q with 0%Q by (simpl (inject_Z 0); ring).
  rewrite (binary64_zero 0) by reflexivity.
  rewrite (binary64_Z a Ha).
  setoid_replace (inject_Z a + 0)%Q with (inject_Z a) by ring.
  now apply binary64_Z.
Qed.

Lemma one_round_slept (json_dumps : dict -> str) (json_loads : bytes -> result pyval)
      (g : str) (self : AutoTaker.t) (w : AutoTaker.world) (k : nat)
      (ts : list AutoTaker.task) (d : Q) :
  AutoTaker.one_round json_dumps json_loads g self w k = AutoTaker.Slept ts d ->
  d = AutoTaker.uniform (AutoTaker.order_submission_lower_boundary self)
                        (AutoTaker.order_submission_higher_boundary self)
                        (AutoTaker.random w k).
Proof.
  unfold AutoTaker.one_round, AutoTaker.random_uniform.
  destruct (AutoTaker.gather _); intro H; [|discriminate].
  destruct (_ || _); [discriminate|].
  now inversion H.
Qed.

(** C6, as the code has it.  For boundaries that are exact as floats (of
    magnitude at most 2^52, so that their difference is exact too) and every
    draw of [random()] in [0, 1), the sleep of a pass lies between the two
    boundaries: within [lower, upper] when lower <= upper, within
    [upper, lower] when upper <= lower; when lower = upper it is that
    constant. *)
Theorem sleep_between_boundaries
      (json_dumps : dict -> str) (json_loads : bytes -> result pyval) (g : str)
      (self : AutoTaker.t) (w : AutoTaker.world) (k : nat)
      (ts : list AutoTaker.task) (d : Q) :
  let lower := AutoTaker.order_submission_lower_boundary self in
  let upper := AutoTaker.order_submission_higher_boundary self in
  Z.abs lower <= 2 ^ 52 ->
  Z.abs upper <= 2 ^ 52 ->
  (0 <= AutoTaker.random w k)%Q ->
  (AutoTaker.random w k < 1)%Q ->
  AutoTaker.one_round json_dumps json_loads g self w k = AutoTaker.Slept ts d ->
  (inject_Z (Z.min lower upper) <= d)%Q /\ (d <= inject_Z (Z.max lower upper))%Q /\
  (lower <= upper -> (inject_Z lower <= d)%Q /\ (d <= inject_Z upper)%Q) /\
  (upper <= lower -> (inject_Z upper <= d)%Q /\ (d <= inject_Z lower)%Q) /\
  (lower = upper -> (d == inject_Z lower)%Q).
Proof.
  intros lower upper Hl Hu H0 H1 Hr.
  rewrite (one_round_slept _ _ _ _ _ _ _ _ Hr). fold lower upper.
  assert (El : Z.abs lower <= 2 ^ 53) by (change (2 ^ 53) with (2 * 2 ^ 52); lia).
  assert (Eu : Z.abs upper <= 2 ^ 53) by (change (2 ^ 53) with (2 * 2 ^ 52); lia).
  assert (Ed : Z.abs (upper - lower) <= 2 ^ 53) by (change (2 ^ 53) with (2 * 2 ^ 52); lia).
  assert (Hle : lower <= upper ->
                (inject_Z lower <= AutoTaker.uniform lower upper (AutoTaker.random w k))%Q /\
                (AutoTaker.uniform lower upper (AutoTaker.random w k) <= inject_Z upper)%Q)
    by (intro; now apply uniform_between).
  assert (Hge : upper <= lower ->
                (inject_Z upper <= AutoTaker.uniform lower upper (AutoTaker.random w k))%Q /\
                (AutoTaker.uniform lower upper (AutoTaker.random w k) <= inject_Z lower)%Q)
    by (intro; now apply uniform_between_swapped).
  split; [|split; [|split; [exact Hle|split; [exact Hge|]]]].
  - destruct (Z.le_ge_cases lower upper) as [H|H].
    + rewrite Z.min_l by exact H. apply (Hle H).
    + rewrite Z.min_r by exact H. apply (Hge H).
  - destruct (Z.le_ge_cases lower upper) as [H|H].
    + rewrite Z.max_r by exact H. apply (Hle H).
    + rewrite Z.max_l by exact H. apply (Hge H).
  - intro E. rewrite <- E. now apply uniform_constant.
Qed.

(** Boundaries 2 and 6 with the draw 1/2: the sleep is 4 seconds. *)
Lemma sleep_between_boundaries_witness :
  Z.abs 2 <= 2 ^ 52 /\ Z.abs 6 <= 2 ^ 52 /\ (0 <= 1 # 2)%Q /\ (1 # 2 < 1)%Q /\
  (inject_Z 2 <= AutoTaker.uniform 2 6 (1 # 2))%Q /\
  (AutoTaker.uniform 2 6 (1 # 2) <= inject_Z 6)%Q.
Proof.
  split; [vm_compute; discriminate|]. split; [vm_compute; discriminate|].
  split; [discriminate|]. split; [reflexivity|].
  pose (self := AutoTaker.init sample_url "taker-account" "access-key"
                  "c2VjcmV0LWtleS1ieXRlcw==" 1 2 6).
  pose (w := sample_world (Response (sample_response 200 empty_listing_body))
                          (fun _ _ => Response (sample_response 201 "{}"))).
  destruct (sleep_between_boundaries sample_json_dumps sample_json_loads sample_url
              self w 0 [] (AutoTaker.uniform 2 6 (1 # 2)))
    as (_ & _ & H & _).
  - vm_compute; discriminate.
  - vm_compute; discriminate.
  - discriminate.
  - reflexivity.
  - reflexivity.
  - apply H. discriminate.
Defined.

(** C6 as stated fails in two ways.  With the boundaries configured in the
    other order, lower 5 and upper 1, the draw 1/2 gives a sleep of
    5 + (1 - 5) * 0.5 = 3 seconds, which is not within [5, 1].  With lower
    and upper both 2^53 + 1, which no float is, the sleep is 2^53 seconds
    and not that constant. *)
Lemma sleep_outside_boundaries :
  (exists d,
      AutoTaker.one_round sample_json_dumps sample_json_loads sample_url
        (AutoTaker.init sample_url "taker-account" "access-key"
           "c2VjcmV0LWtleS1ieXRlcw==" 1 5 1)
        (sample_world (Response (sample_response 200 empty_listing_body))
                      (fun _ _ => Response (sample_response 201 "{}"))) 0
      = AutoTaker.Slept [] d /\
      (d == 3)%Q /\
      ~ ((inject_Z 5 <= d)%Q /\ (d <= inject_Z 1)%Q)) /\
  (exists d,
      AutoTaker.one_round sample_json_dumps sample_json_loads sample_url
        (AutoTaker.init sample_url "taker-account" "access-key"
           "c2VjcmV0LWtleS1ieXRlcw==" 1 9007199254740993 9007199254740993)
        (sample_world (Response (sample_response 200 empty_listing_body))
                      (fun _ _ => Response (sample_response 201 "{}"))) 0
      = AutoTaker.Slept [] d /\
      (d == 9007199254740992)%Q /\
      ~ (d == inject_Z 9007199254740993)%Q).
Proof.
  split.
  - eexists. split; [vm_compute; reflexivity|].
    split; [reflexivity|].
    intros [H _]. vm_compute in H. apply H. reflexivity.
  - eexists. split; [vm_compute; reflexivity|].
    split; [reflexivity|].
    intro H. vm_compute in H. discriminate H.
Qed.

(* ------------------------------------------------------------------ *)
(** ** The timestamp: [str(int(time.time() * 1000))] *)

Lemma ord_chr (z : Z) : 0 <= z < 256 -> ord (chr z) = z.
Proof.
  intro H. unfold ord, chr.
  rewrite N_ascii_embedding by lia.
  apply Z2N.id. lia.
Qed.

Lemma int_of_Q_truncates (x : Q) :
  (x - 1 < inject_Z (int_of_Q x))%Q /\ (inject_Z (int_of_Q x) < x + 1)%Q /\
  ((0 <= x)%Q -> (inject_Z (int_of_Q x) <= x)%Q) /\
  ((x <= 0)%Q -> (x <= inject_Z (int_of_Q x))%Q).
Proof.
  destruct x as [p q]. unfold int_of_Q. simpl Qnum. simpl Qden.
  pose proof (Z.quot_rem' p (Z.pos q)) as E.
  pose proof (Z.rem_bound_abs p (Z.pos q) ltac:(lia)) as B.
  set (m := Z.quot p (Z.pos q)) in *. set (r := Z.rem p (Z.pos q)) in *.
  assert (Hr : - Z.pos q < r < Z.pos q) by lia.
  clear B.
  unfold Qle, Qlt, Qplus, Qminus, Qopp, Qmult, inject_Z; simpl.
  rewrite ?Z.mul_1_r, ?Pos.mul_1_r.
  repeat split; intros; try lia.
  - pose proof (Z.rem_nonneg p (Z.pos q) ltac:(lia) ltac:(lia)) as S. fold r in S. lia.
  - pose proof (Z.rem_nonpos p (Z.pos q) ltac:(lia) ltac:(lia)) as S. fold r in S. lia.
Qed.

Lemma digits_le_value (fuel : nat) (n : Z) :
  0 <= n < 2 ^ Z.of_nat fuel ->
  value_le (digits_le fuel n) = n /\ Forall (fun d => 0 <= d <= 9) (digits_le fuel n).
Proof.
  revert n. induction fuel as [|f IH]; intros n Hn.
  - simpl in Hn. assert (n = 0) by lia. subst. split; [reflexivity|constructor].
  - cbn [digits_le].
    pose proof (Z.mod_pos_bound n 10 ltac:(lia)) as Hm.
    destruct (n <? 10) eqn:E.
    + apply Z.ltb_lt in E. rewrite Z.mod_small by lia.
      split; [simpl; lia|]. constructor; [lia|constructor].
    + apply Z.ltb_ge in E.
      assert (Hd : 0 <= n / 10 < 2 ^ Z.of_nat f).
      { split; [apply Z.div_pos; lia|].
        apply Z.div_lt_upper_bound; [lia|].
        rewrite Nat2Z.inj_succ, Z.pow_succ_r in Hn by lia. lia. }
      destruct (IH _ Hd) as [Hv Hf].
      split.
      * cbn [value_le fold_right]. fold (value_le (digits_le f (n / 10))).
        rewrite Hv. pose proof (Z.div_mod n 10 ltac:(lia)). lia.
      * constructor; [lia|exact Hf].
Qed.

Lemma ord_digit_char (d : Z) : 0 <= d <= 9 -> ord (digit_char d) = 48 + d.
Proof. intro H. unfold digit_char. apply ord_chr. lia. Qed.

Lemma digits_value_chars (l : list Z) (acc : Z) :
  Forall (fun d => 0 <= d <= 9) l ->
  digits_value (string_of_list_ascii (map digit_char l)) acc
  = fold_left (fun a d => 10 * a + d) l acc /\
  all_digits (string_of_list_ascii (map digit_char l)) = true.
Proof.
  intro H. revert acc. induction H as [|d l Hd _ IH]; intro acc.
  - split; reflexivity.
  - cbn [map string_of_list_ascii digits_value all_digits fold_left].
    unfold is_digit. rewrite !(ord_digit_char d Hd).
    destruct (IH (10 * acc + d)) as [Hv Ha].
    replace (48 + d - 48) with d by lia.
    rewrite Hv, Ha.
    split; [reflexivity|].
    replace (48 <=? 48 + d) with true by (symmetry; apply Z.leb_le; lia).
    replace (48 + d <=? 57) with true by (symmetry; apply Z.leb_le; lia).
    reflexivity.
Qed.

Lemma str_of_nonneg_value (n : Z) :
  0 <= n ->
  digits_value (str_of_nonneg n) 0 = n /\ all_digits (str_of_nonneg n) = true.
Proof.
  intro Hn. unfold str_of_nonneg.
  assert (Hb : 0 <= n < 2 ^ Z.of_nat (S (Z.to_nat (Z.log2 n)))).
  { split; [exact Hn|].
    rewrite Nat2Z.inj_succ, Z2Nat.id by apply Z.log2_nonneg.
    destruct (Z.eq_dec n 0) as [->|Hz]; [reflexivity|].
    apply Z.log2_spec. lia. }
  destruct (digits_le_value _ _ Hb) as [Hv Hf].
  assert (Hr : Forall (fun d => 0 <= d <= 9)
                      (rev (digits_le (S (Z.to_nat (Z.log2 n))) n)))
    by (apply Forall_rev; exact Hf).
  destruct (digits_value_chars _ 0 Hr) as [Hd Ha].
  split; [|exact Ha].
  rewrite Hd.
  rewrite <- (rev_involutive (digits_le _ n)) in Hv.
  unfold value_le in Hv. rewrite fold_left_rev_right in Hv.
  exact Hv.
Qed.

Lemma decimal_value_digits (s : str) :
  all_digits s = true -> decimal_value s = digits_value s 0.
Proof.
  destruct s as [|c t]; [reflexivity|].
  destruct c as [[] [] [] [] [] [] [] []]; try reflexivity.
  intro H. discriminate H.
Qed.

Lemma decimal_value_str_of_int (z : Z) : decimal_value (str_of_int z) = z.
Proof.
  unfold str_of_int. destruct (z <? 0) eqn:E.
  - apply Z.ltb_lt in E. cbn [decimal_value].
    destruct (str_of_nonneg_value (- z) ltac:(lia)) as [Hv _].
    change (- digits_value (str_of_nonneg (- z)) 0 = z).
    rewrite Hv. lia.
  - apply Z.ltb_ge in E.
    destruct (str_of_nonneg_value z E) as [Hv Ha].
    rewrite (decimal_value_digits _ Ha). exact Hv.
Qed.

Lemma bytes_join_four (sep a b c d : bytes) :
  bytes_join sep [a; b; c; d]
  = String.append a (String.append sep (String.append b (String.append sep
      (String.append c (String.append sep d))))).
Proof. reflexivity. Qed.

(** C1.  For every secret key that decodes, every method, path and body and
    every clock reading, [sign_request] returns as timestamp the decimal
    rendering of the reading in whole milliseconds (the digits of
    [int(time.time() * 1000)], the float product truncated), and as
    signature the base64 encoding of the
    HMAC-SHA256 digest, keyed with the decoded secret key, of the four
    byte strings timestamp, upper-cased method, path and body joined by
    single newline characters, in that order. *)
Theorem sign_request_signs_joined_fields
      (key method path body : str) (now : Q) (sk : bytes) :
  Base64.b64decode (encode_utf8 key) = Ok sk ->
  let product := Float.mul now (Float.of_int 1000) in
  let millis := int_of_Q product in
  let timestamp := str_of_int millis in
  let newline := String "010" "" in
  AutoTaker.sign_request key method path body now
  = Ok (timestamp,
        Base64.b64encode
          (Hmac.digest_sha256 sk
             (String.append timestamp (String.append newline
               (String.append (bytes_upper method) (String.append newline
                 (String.append path (String.append newline body)))))))) /\
  decimal_value timestamp = millis /\
  (product - 1 < inject_Z millis)%Q /\ (inject_Z millis < product + 1)%Q.
Proof.
  intros Hk product millis timestamp newline.
  split; [|split].
  - rewrite (sign_request_decoded key method path body now sk Hk).
    rewrite bytes_join_four. reflexivity.
  - apply decimal_value_str_of_int.
  - destruct (int_of_Q_truncates product) as (H1 & H2 & _).
    split; assumption.
Qed.

(** A known vector: the key "secret-key-bytes", POST /v1/fs/orders with
    the body "{}" at 1700000000.125 seconds. *)
Lemma sign_request_signs_joined_fields_witness :
  Base64.b64decode (encode_utf8 "c2VjcmV0LWtleS1ieXRlcw==") = Ok "secret-key-bytes" /\
  AutoTaker.sign_request "c2VjcmV0LWtleS1ieXRlcw==" "post" "/v1/fs/orders" "{}"
    (13600000001 # 8)
  = Ok ("1700000000125", "Z/SIO/84NGBLOMPRotE490WQCleSbFl0QGIGe6dTA1M=").
Proof.
  split; [vm_compute; reflexivity|].
  destruct (sign_request_signs_joined_fields "c2VjcmV0LWtleS1ieXRlcw==" "post"
              "/v1/fs/orders" "{}" (13600000001 # 8) "secret-key-bytes")
    as [H _].
  - vm_compute; reflexivity.
  - rewrite H. vm_compute. reflexivity.
Defined.

(* ------------------------------------------------------------------ *)
(** ** base64: what [b64decode] accepts *)

Lemma in_all_ascii (a : ascii) : In a all_ascii.
Proof.
  unfold all_ascii. rewrite <- (ascii_nat_embedding a).
  apply in_map. apply in_seq. pose proof (nat_ascii_bounded a). lia.
Qed.

Lemma forall_ascii (P : ascii -> bool) :
  forallb P all_ascii = true -> forall a, P a = true.
Proof.
  intros H a. rewrite forallb_forall in H. apply H, in_all_ascii.
Qed.

Lemma forall_ascii2 (P : ascii -> ascii -> bool) :
  forallb (fun a => forallb (P a) all_ascii) all_ascii = true -> forall a b, P a b = true.
Proof.
  intros H a b.
  apply (forall_ascii (P a)).
  apply (forall_ascii (fun a => forallb (P a) all_ascii) H a).
Qed.

Lemma forall_below (n : nat) (P : Z -> bool) :
  forallb P (map Z.of_nat (seq 0 n)) = true -> forall x, 0 <= x < Z.of_nat n -> P x = true.
Proof.
  intros H x Hx. rewrite forallb_forall in H. apply H.
  rewrite <- (Z2Nat.id x) by lia.
  apply in_map, in_seq. lia.
Qed.

Lemma b2a_facts (x : Z) :
  0 <= x < 64 ->
  Ascii.eqb (Base64.b2a x) Base64.BASE64_PAD = false /\
  (64 <=? Base64.table_a2b_base64 (Base64.b2a x)) = false /\
  Base64.table_a2b_base64 (Base64.b2a x) = x.
Proof.
  intro Hx.
  assert (H : (negb (Ascii.eqb (Base64.b2a x) Base64.BASE64_PAD)
               && negb (64 <=? Base64.table_a2b_base64 (Base64.b2a x))
               && (Base64.table_a2b_base64 (Base64.b2a x) =? x)) = true).
  { revert x Hx. apply (forall_below 64). vm_compute. reflexivity. }
  apply andb_true_iff in H. destruct H as [H H3].
  apply andb_true_iff in H. destruct H as [H1 H2].
  apply negb_true_iff in H1, H2. apply Z.eqb_eq in H3. auto.
Qed.

Lemma in64_range x : in64 x = true -> 0 <= x < 64.
Proof. unfold in64. intro H. apply andb_true_iff in H. destruct H as [A B].
  apply Z.leb_le in A. apply Z.ltb_lt in B. lia. Qed.

Lemma sextets_in_range (a b : ascii) :
  (in64 (sextet0 a) && in64 (sextet1 a b) && in64 (sextet1_last a) && in64 (sextet2 a b) && in64 (sextet2_last a) && in64 (sextet3 a)) = true.
Proof.
  revert a b.
  apply (forall_ascii2 (fun a b => in64 (sextet0 a) && in64 (sextet1 a b) && in64 (sextet1_last a) && in64 (sextet2 a b) && in64 (sextet2_last a) && in64 (sextet3 a))).
  vm_compute. reflexivity.
Qed.

Lemma first_byte (a b : ascii) :
  (Ascii.eqb (chr (Z.lor (Z.shiftl (sextet0 a) 2) (Z.shiftr (sextet1 a b) 4))) a
   && Ascii.eqb (chr (Z.lor (Z.shiftl (sextet0 a) 2) (Z.shiftr (sextet1_last a) 4))) a
   && (Z.land (sextet1 a b) 15 =? Z.shiftr (ord b) 4)) = true.
Proof.
  revert a b.
  apply (forall_ascii2 (fun a b =>
     Ascii.eqb (chr (Z.lor (Z.shiftl (sextet0 a) 2) (Z.shiftr (sextet1 a b) 4))) a
   && Ascii.eqb (chr (Z.lor (Z.shiftl (sextet0 a) 2) (Z.shiftr (sextet1_last a) 4))) a
   && (Z.land (sextet1 a b) 15 =? Z.shiftr (ord b) 4))).
  vm_compute. reflexivity.
Qed.

Lemma later_bytes (b c : ascii) :
  (Ascii.eqb (chr (Z.lor (Z.shiftl (Z.shiftr (ord b) 4) 4) (Z.shiftr (sextet2 b c) 2))) b
   && Ascii.eqb (chr (Z.lor (Z.shiftl (Z.shiftr (ord b) 4) 4) (Z.shiftr (sextet2_last b) 2))) b
   && Ascii.eqb (chr (Z.lor (Z.shiftl (Z.land (sextet2 b c) 3) 6) (sextet3 c))) c) = true.
Proof.
  revert b c.
  apply (forall_ascii2 (fun b c =>
     Ascii.eqb (chr (Z.lor (Z.shiftl (Z.shiftr (ord b) 4) 4) (Z.shiftr (sextet2 b c) 2))) b
   && Ascii.eqb (chr (Z.lor (Z.shiftl (Z.shiftr (ord b) 4) 4) (Z.shiftr (sextet2_last b) 2))) b
   && Ascii.eqb (chr (Z.lor (Z.shiftl (Z.land (sextet2 b c) 3) 6) (sextet3 c))) c)).
  vm_compute. reflexivity.
Qed.

Lemma a2b_data (c : ascii) (rest : bytes) (q l p : Z) (out : bytes) :
  Ascii.eqb c Base64.BASE64_PAD = false ->
  (64 <=? Base64.table_a2b_base64 c) = false ->
  Base64.a2b_loop (String c rest) q l p out
  = let v := Base64.table_a2b_base64 c in
    if q =? 0 then Base64.a2b_loop rest 1 v 0 out
    else if q =? 1 then
      Base64.a2b_loop rest 2 (Z.land v 15) 0
        (String.append out (String (chr (Z.lor (Z.shiftl l 2) (Z.shiftr v 4))) ""))
    else if q =? 2 then
      Base64.a2b_loop rest 3 (Z.land v 3) 0
        (String.append out (String (chr (Z.lor (Z.shiftl l 4) (Z.shiftr v 2))) ""))
    else if q =? 3 then
      Base64.a2b_loop rest 0 0 0 (String.append out (String (chr (Z.lor (Z.shiftl l 6) v)) ""))
    else Base64.a2b_loop rest q l 0 out.
Proof.
  intros H1 H2. cbn [Base64.a2b_loop]. rewrite H1. cbv zeta. rewrite H2. reflexivity.
Qed.

Lemma a2b_skip (c : ascii) (rest : bytes) (q l p : Z) (out : bytes) :
  Ascii.eqb c Base64.BASE64_PAD = false ->
  (64 <=? Base64.table_a2b_base64 c) = true ->
  Base64.a2b_loop (String c rest) q l p out = Base64.a2b_loop rest q l p out.
Proof.
  intros H1 H2. cbn [Base64.a2b_loop]. rewrite H1. cbv zeta. rewrite H2. reflexivity.
Qed.

Lemma a2b_pad (rest : bytes) (q l p : Z) (out : bytes) :
  Base64.a2b_loop (String Base64.BASE64_PAD rest) q l p out
  = if 2 <=? q then
      if 4 <=? q + (p + 1) then Ok out else Base64.a2b_loop rest q l (p + 1) out
    else Base64.a2b_loop rest q l p out.
Proof. reflexivity. Qed.

Lemma is_alphabet_data (c : ascii) :
  is_alphabet c = true ->
  Ascii.eqb c Base64.BASE64_PAD = false /\ (64 <=? Base64.table_a2b_base64 c) = false.
Proof.
  unfold is_alphabet. intro H. apply andb_true_iff in H. destruct H as [A B].
  apply negb_true_iff in A. apply Z.ltb_lt in B.
  split; [exact A|]. apply Z.leb_gt. exact B.
Qed.

Lemma not_kept_skipped (c : ascii) :
  is_alphabet c || Ascii.eqb c Base64.BASE64_PAD = false ->
  Ascii.eqb c Base64.BASE64_PAD = false /\ (64 <=? Base64.table_a2b_base64 c) = true.
Proof.
  unfold is_alphabet. intro H. apply orb_false_iff in H. destruct H as [A B].
  rewrite B in A. cbn [negb andb] in A.
  split; [exact B|]. apply Z.leb_le. apply Z.ltb_ge in A. exact A.
Qed.

Lemma a2b_loop_keep (s : bytes) : forall q l p out,
  Base64.a2b_loop s q l p out = Base64.a2b_loop (keep_b64 s) q l p out.
Proof.
  induction s as [|c s IH]; intros q l p out; [reflexivity|].
  cbn [keep_b64].
  destruct (is_alphabet c || Ascii.eqb c Base64.BASE64_PAD) eqn:K.
  - destruct (Ascii.eqb c Base64.BASE64_PAD) eqn:E.
    + apply Ascii.eqb_eq in E. subst c. rewrite !a2b_pad.
      destruct (2 <=? q); [destruct (4 <=? q + (p + 1))|]; auto.
    + rewrite orb_false_r in K. destruct (is_alphabet_data c K) as [A B].
      rewrite !(a2b_data c _ _ _ _ _ A B). cbv zeta.
      repeat match goal with |- context [if ?b then _ else _] => destruct b end; auto.
  - destruct (not_kept_skipped c K) as [A B].
    rewrite (a2b_skip c _ _ _ _ _ A B). apply IH.
Qed.

Lemma a2b_group (a b c d : ascii) (rest : bytes) (l p : Z) (out : bytes) :
  is_alphabet a = true -> is_alphabet b = true ->
  is_alphabet c = true -> is_alphabet d = true ->
  exists out', Base64.a2b_loop (String a (String b (String c (String d rest)))) 0 l p out
               = Base64.a2b_loop rest 0 0 0 out'.
Proof.
  intros Ha Hb Hc Hd.
  destruct (is_alphabet_data a Ha) as [A1 A2].
  destruct (is_alphabet_data b Hb) as [B1 B2].
  destruct (is_alphabet_data c Hc) as [C1 C2].
  destruct (is_alphabet_data d Hd) as [D1 D2].
  rewrite (a2b_data a _ _ _ _ _ A1 A2). cbv zeta. cbn [Z.eqb].
  rewrite (a2b_data b _ _ _ _ _ B1 B2). cbv zeta. cbn [Z.eqb Pos.eqb].
  rewrite (a2b_data c _ _ _ _ _ C1 C2). cbv zeta. cbn [Z.eqb Pos.eqb].
  rewrite (a2b_data d _ _ _ _ _ D1 D2). cbv zeta. cbn [Z.eqb Pos.eqb].
  eexists. reflexivity.
Qed.

Lemma valid_b64_decodes_aux (n : nat) : forall (s : bytes) (out : bytes),
  (String.length s <= n)%nat -> valid_b64 s = true ->
  exists sk, Base64.a2b_loop s 0 0 0 out = Ok sk.
Proof.
  induction n as [|n IH]; intros s out Hn Hv.
  - destruct s; [eexists; reflexivity | simpl in Hn; lia].
  - destruct s as [|a [|b [|c [|d rest]]]]; try discriminate Hv.
    + eexists; reflexivity.
    + cbn [valid_b64] in Hv.
      apply andb_true_iff in Hv. destruct Hv as [Hab Hv].
      apply andb_true_iff in Hab. destruct Hab as [Ha Hb].
      destruct (is_alphabet_data a Ha) as [A1 A2].
      destruct (is_alphabet_data b Hb) as [B1 B2].
      destruct rest as [|e rest].
      * rewrite (a2b_data a _ _ _ _ _ A1 A2). cbv zeta. cbn [Z.eqb].
        rewrite (a2b_data b _ _ _ _ _ B1 B2). cbv zeta. cbn [Z.eqb Pos.eqb].
        apply orb_true_iff in Hv. destruct Hv as [Hv|Hv].
        -- apply andb_true_iff in Hv. destruct Hv as [Hc Hd].
           destruct (is_alphabet_data c Hc) as [C1 C2].
           rewrite (a2b_data c _ _ _ _ _ C1 C2). cbv zeta. cbn [Z.eqb Pos.eqb].
           apply orb_true_iff in Hd. destruct Hd as [Hd|Hd].
           ++ destruct (is_alphabet_data d Hd) as [D1 D2].
              rewrite (a2b_data d _ _ _ _ _ D1 D2). cbv zeta. cbn [Z.eqb Pos.eqb].
              eexists; reflexivity.
           ++ apply Ascii.eqb_eq in Hd. subst d. rewrite a2b_pad.
              eexists; reflexivity.
        -- apply andb_true_iff in Hv. destruct Hv as [Hc Hd].
           apply Ascii.eqb_eq in Hc, Hd. subst c d.
           rewrite a2b_pad. cbn [Z.leb Z.compare Pos.compare Pos.compare_cont Z.add Pos.add].
           rewrite a2b_pad. eexists; reflexivity.
      * apply andb_true_iff in Hv. destruct Hv as [Hcd Hv].
        apply andb_true_iff in Hcd. destruct Hcd as [Hc Hd].
        destruct (a2b_group a b c d (String e rest) 0 0 out Ha Hb Hc Hd) as [out' E].
        rewrite E. apply IH; [|exact Hv].
        simpl in Hn. simpl. lia.
Qed.

Lemma valid_b64_decodes (s : bytes) :
  valid_b64 s = true -> exists sk, Base64.b64decode s = Ok sk.
Proof.
  intro H. apply (valid_b64_decodes_aux (String.length s) s "" (le_n _) H).
Qed.

Lemma sextet_step (x : Z) (rest : bytes) (q l p : Z) (out : bytes) :
  in64 x = true ->
  Base64.a2b_loop (String (Base64.b2a x) rest) q l p out
  = if q =? 0 then Base64.a2b_loop rest 1 x 0 out
    else if q =? 1 then
      Base64.a2b_loop rest 2 (Z.land x 15) 0
        (String.append out (String (chr (Z.lor (Z.shiftl l 2) (Z.shiftr x 4))) ""))
    else if q =? 2 then
      Base64.a2b_loop rest 3 (Z.land x 3) 0
        (String.append out (String (chr (Z.lor (Z.shiftl l 4) (Z.shiftr x 2))) ""))
    else if q =? 3 then
      Base64.a2b_loop rest 0 0 0 (String.append out (String (chr (Z.lor (Z.shiftl l 6) x)) ""))
    else Base64.a2b_loop rest q l 0 out.
Proof.
  intro H. destruct (b2a_facts x (in64_range x H)) as (A & B & C).
  rewrite (a2b_data _ _ _ _ _ _ A B). cbv zeta. rewrite C. reflexivity.
Qed.

Lemma sextet_alphabet (x : Z) : in64 x = true -> is_alphabet (Base64.b2a x) = true.
Proof.
  intro H. destruct (b2a_facts x (in64_range x H)) as (A & B & C).
  unfold is_alphabet. rewrite A, C. apply in64_range in H.
  cbn [negb andb]. apply Z.ltb_lt. lia.
Qed.

Lemma append_assoc (a b c : string) :
  String.append (String.append a b) c = String.append a (String.append b c).
Proof. induction a; simpl; congruence. Qed.

Lemma append_nil_r (a : string) : String.append a "" = a.
Proof. induction a; simpl; congruence. Qed.

Lemma sextets_ok (a b : ascii) :
  in64 (sextet0 a) = true /\ in64 (sextet1 a b) = true /\ in64 (sextet1_last a) = true /\
  in64 (sextet2 a b) = true /\ in64 (sextet2_last a) = true /\ in64 (sextet3 a) = true.
Proof.
  pose proof (sextets_in_range a b) as H.
  apply andb_true_iff in H. destruct H as [H H6].
  apply andb_true_iff in H. destruct H as [H H5].
  apply andb_true_iff in H. destruct H as [H H4].
  apply andb_true_iff in H. destruct H as [H H3].
  apply andb_true_iff in H. destruct H as [H1 H2].
  auto 10.
Qed.

Ltac sextets a b :=
  let H := fresh in
  pose proof (sextets_ok a b) as H; decompose [and] H; clear H.

Lemma by_threes (P : bytes -> Prop) :
  P "" -> (forall a, P (String a "")) -> (forall a b, P (String a (String b ""))) ->
  (forall a b c rest, P rest -> P (String a (String b (String c rest)))) ->
  forall s, P s.
Proof.
  intros H0 H1 H2 H3 s.
  assert (H : P s /\ (forall a, P (String a s)) /\ (forall a b, P (String a (String b s)))).
  { induction s as [|c s (IH0 & IH1 & IH2)].
    - auto.
    - split; [apply IH1|]. split; [intro a; apply IH2|].
      intros a b. apply H3. exact IH0. }
  apply H.
Qed.

Lemma a2b_b2a (raw : bytes) : forall out,
  Base64.a2b_loop (Base64.b2a_base64 raw) 0 0 0 out = Ok (String.append out raw).
Proof.
  induction raw as [|a|a b|a b c rest IH] using by_threes; intro out.
  - cbn. now rewrite append_nil_r.
  - cbn [Base64.b2a_base64].
    fold (sextet0 a). fold (sextet1_last a).
    sextets a a.
    rewrite (sextet_step (sextet0 a)) by assumption. cbn [Z.eqb].
    rewrite (sextet_step (sextet1_last a)) by assumption. cbn [Z.eqb Pos.eqb].
    rewrite a2b_pad. cbn [Z.leb Z.compare Pos.compare Pos.compare_cont Z.add Pos.add].
    rewrite a2b_pad. cbn [Z.leb Z.compare Pos.compare Pos.compare_cont Z.add Pos.add].
    pose proof (first_byte a a) as F.
    apply andb_true_iff in F. destruct F as [F _].
    apply andb_true_iff in F. destruct F as [_ F].
    apply Ascii.eqb_eq in F. rewrite F. reflexivity.
  - cbn [Base64.b2a_base64].
    fold (sextet0 a). fold (sextet1 a b). fold (sextet2_last b).
    sextets a b. sextets b b.
    rewrite (sextet_step (sextet0 a)) by assumption. cbn [Z.eqb].
    rewrite (sextet_step (sextet1 a b)) by assumption. cbn [Z.eqb Pos.eqb].
    rewrite (sextet_step (sextet2_last b)) by assumption. cbn [Z.eqb Pos.eqb].
    rewrite a2b_pad. cbn [Z.leb Z.compare Pos.compare Pos.compare_cont Z.add Pos.add].
    pose proof (first_byte a b) as F.
    apply andb_true_iff in F. destruct F as [F F3].
    apply andb_true_iff in F. destruct F as [F1 _].
    apply Ascii.eqb_eq in F1. apply Z.eqb_eq in F3. rewrite F1, F3.
    pose proof (later_bytes b b) as L.
    apply andb_true_iff in L. destruct L as [L _].
    apply andb_true_iff in L. destruct L as [_ L2].
    apply Ascii.eqb_eq in L2. rewrite L2.
    rewrite append_assoc. reflexivity.
  - cbn [Base64.b2a_base64].
    fold (sextet0 a). fold (sextet1 a b). fold (sextet2 b c). fold (sextet3 c).
    sextets a b. sextets b c. sextets c c.
    rewrite (sextet_step (sextet0 a)) by assumption. cbn [Z.eqb].
    rewrite (sextet_step (sextet1 a b)) by assumption. cbn [Z.eqb Pos.eqb].
    rewrite (sextet_step (sextet2 b c)) by assumption. cbn [Z.eqb Pos.eqb].
    rewrite (sextet_step (sextet3 c)) by assumption. cbn [Z.eqb Pos.eqb].
    pose proof (first_byte a b) as F.
    apply andb_true_iff in F. destruct F as [F F3].
    apply andb_true_iff in F. destruct F as [F1 _].
    apply Ascii.eqb_eq in F1. apply Z.eqb_eq in F3. rewrite F1, F3.
    pose proof (later_bytes b c) as L.
    apply andb_true_iff in L. destruct L as [L L3].
    apply andb_true_iff in L. destruct L as [L1 _].
    apply Ascii.eqb_eq in L1, L3. rewrite L1, L3.
    rewrite IH. rewrite !append_assoc. reflexivity.
Qed.

Lemma b64decode_b64encode (raw : bytes) : Base64.b64decode (Base64.b64encode raw) = Ok raw.
Proof. unfold Base64.b64decode, Base64.b64encode, Base64.a2b_base64. now rewrite a2b_b2a. Qed.

Lemma b64encode_valid (raw : bytes) : valid_b64 (Base64.b64encode raw) = true.
Proof.
  unfold Base64.b64encode.
  induction raw as [|a|a b|a b c rest IH] using by_threes.
  - reflexivity.
  - cbn [Base64.b2a_base64]. fold (sextet0 a). fold (sextet1_last a). sextets a a.
    cbn [valid_b64].
    rewrite !sextet_alphabet by assumption. 
    reflexivity.
  - cbn [Base64.b2a_base64]. fold (sextet0 a). fold (sextet1 a b). fold (sextet2_last b). sextets a b. sextets b b.
    cbn [valid_b64].
    rewrite !sextet_alphabet by assumption.
    reflexivity.
  - cbn [Base64.b2a_base64]. fold (sextet0 a). fold (sextet1 a b). fold (sextet2 b c). fold (sextet3 c).
    sextets a b. sextets b c. sextets c c.
    cbn [valid_b64].
    rewrite !sextet_alphabet by assumption.
    rewrite IH. cbn [andb orb].
    destruct (Base64.b2a_base64 rest); reflexivity.
Qed.

Lemma a2b_loop_raises (s : bytes) : forall q l p out e,
  Base64.a2b_loop s q l p out = Raise e -> exists msg, e = BinasciiError msg.
Proof.
  induction s as [|c s IH]; intros q l p out e.
  - cbn [Base64.a2b_loop].
    destruct (q =? 0); [discriminate|].
    destruct (q =? 1); intro H; inversion H; eexists; reflexivity.
  - cbn [Base64.a2b_loop]. cbv zeta.
    repeat match goal with
           | |- context [if ?b then _ else _] => destruct b
           end;
      try discriminate; apply IH.
Qed.

(** C5, as the code has it.  [sign_request] fails exactly when
    [base64.b64decode], in its default mode, rejects the secret key, and
    then with the decoder's [binascii.Error].  That mode looks only at the
    alphabet and pad characters of the key and skips every other character.
    Every key that is valid standard base64 decodes, so [sign_request]
    returns; and the standard encoding of any bytes is valid and decodes to
    exactly those bytes. *)
Theorem secret_key_decoding (key method path body : str) (now : Q) :
  (valid_b64 key = true ->
   exists sk ts sig,
     Base64.b64decode (encode_utf8 key) = Ok sk /\
     AutoTaker.sign_request key method path body now = Ok (ts, sig)) /\
  (forall e,
      Base64.b64decode (encode_utf8 key) = Raise e ->
      AutoTaker.sign_request key method path body now = Raise e /\
      exists msg, e = BinasciiError msg) /\
  ((exists e, AutoTaker.sign_request key method path body now = Raise e) <->
   (exists e, Base64.b64decode (encode_utf8 key) = Raise e)) /\
  Base64.b64decode (encode_utf8 key) = Base64.b64decode (keep_b64 key) /\
  (forall raw : bytes,
      valid_b64 (Base64.b64encode raw) = true /\
      Base64.b64decode (Base64.b64encode raw) = Ok raw).
Proof.
  split; [|split; [|split; [|split]]].
  - intro Hv. destruct (valid_b64_decodes key Hv) as [sk Hk].
    exists sk. do 2 eexists. split; [exact Hk|].
    apply (sign_request_decoded key method path body now sk Hk).
  - intros e He. split.
    + apply (sign_request_rejected key method path body now e He).
    + apply (a2b_loop_raises _ _ _ _ _ _ He).
  - split; intros [e He].
    + destruct (Base64.b64decode (encode_utf8 key)) as [sk|e'] eqn:Hk.
      * rewrite (sign_request_decoded key method path body now sk Hk) in He. discriminate.
      * exists e'. reflexivity.
    + exists e. apply (sign_request_rejected key method path body now e He).
  - apply a2b_loop_keep.
  - intro raw. split; [apply b64encode_valid|apply b64decode_b64encode].
Qed.

(** The key "c2VjcmV0LWtleS1ieXRlcw==" is valid standard base64. *)
Lemma secret_key_decoding_witness :
  valid_b64 "c2VjcmV0LWtleS1ieXRlcw==" = true /\
  exists sk ts sig,
    Base64.b64decode (encode_utf8 "c2VjcmV0LWtleS1ieXRlcw==") = Ok sk /\
    AutoTaker.sign_request "c2VjcmV0LWtleS1ieXRlcw==" "GET"
      "/v1/fs/strategies?page_size=100" "" (13600000001 # 8) = Ok (ts, sig).
Proof.
  split; [vm_compute; reflexivity|].
  destruct (secret_key_decoding "c2VjcmV0LWtleS1ieXRlcw==" "GET"
              "/v1/fs/strategies?page_size=100" "" (13600000001 # 8)) as [H _].
  apply H. vm_compute. reflexivity.
Defined.

(** C5 as stated fails: the key "YWJj!" is not valid standard base64 (five
    characters, one of them outside the alphabet), yet [b64decode] skips the
    "!" and decodes the rest to "abc", and [sign_request] returns a
    signature. *)
Lemma invalid_base64_key_is_accepted :
  valid_b64 "YWJj!" = false /\
  Base64.b64decode (encode_utf8 "YWJj!") = Ok "abc" /\
  AutoTaker.sign_request "YWJj!" "GET" "/v1/fs/strategies?page_size=100" ""
    (13600000001 # 8)
  = Ok ("1700000000125", "9nQjUmZz0WKW2doV6RMwlv/FT19Dvq9gKxbVRnPWX70=").
Proof.
  split; [reflexivity|].
  split; vm_compute; reflexivity.
Qed.

(* ------------------------------------------------------------------ *)
(** ** Further properties: the signature and the timestamp *)

Lemma be_bytes_length (n : nat) (x : Z) : List.length (Sha256.be_bytes n x) = n.
Proof. induction n as [|n IH]; simpl; [reflexivity|now rewrite IH]. Qed.

Lemma blocks_length (n : nat) : forall l h,
  List.length h = 8%nat -> List.length (Sha256.blocks n l h) = 8%nat.
Proof.
  induction n as [|n IH]; intros l h Hh; [exact Hh|].
  cbn [Sha256.blocks]. apply IH. reflexivity.
Qed.

Lemma flat_map_be_bytes_length (l : list Z) :
  List.length (flat_map (Sha256.be_bytes 4) l) = (4 * List.length l)%nat.
Proof.
  induction l as [|x l IH]; [reflexivity|].
  cbn [flat_map]. rewrite length_app, be_bytes_length, IH. cbn [List.length]. lia.
Qed.

Lemma digest_list_length (msg : list Z) : List.length (Sha256.digest_list msg) = 32%nat.
Proof.
  unfold Sha256.digest_list. cbv zeta.
  rewrite flat_map_be_bytes_length, blocks_length; reflexivity.
Qed.

Lemma bytes_of_list_length (l : list Z) : String.length (bytes_of_list l) = List.length l.
Proof.
  unfold bytes_of_list.
  induction l as [|x l IH]; [reflexivity|].
  cbn [map string_of_list_ascii String.length List.length]. now rewrite IH.
Qed.

Lemma hmac_digest_length (key msg : bytes) :
  String.length (Hmac.digest_sha256 key msg) = 32%nat.
Proof.
  unfold Hmac.digest_sha256. cbv zeta.
  now rewrite bytes_of_list_length, digest_list_length.
Qed.

Lemma b2a_base64_length (raw : bytes) :
  String.length (Base64.b2a_base64 raw) = (4 * ((String.length raw + 2) / 3))%nat.
Proof.
  pattern raw. apply by_threes; clear raw.
  - reflexivity.
  - intro a. reflexivity.
  - intros a b. reflexivity.
  - intros a b c rest IH.
    change (Base64.b2a_base64 (String a (String b (String c rest))))
      with (String (Base64.b2a (Z.shiftr (ord a) 2))
           (String (Base64.b2a (Z.lor (Z.shiftl (Z.land (ord a) 3) 4) (Z.shiftr (ord b) 4)))
           (String (Base64.b2a (Z.lor (Z.shiftl (Z.land (ord b) 15) 2) (Z.shiftr (ord c) 6)))
           (String (Base64.b2a (Z.land (ord c) 63)) (Base64.b2a_base64 rest))))).
    cbn [String.length]. rewrite IH.
    replace (S (S (S (String.length rest))) + 2)%nat
      with (String.length rest + 2 + 1 * 3)%nat by lia.
    rewrite Nat.div_add by discriminate. lia.
Qed.

Lemma sign_request_cases (key method path body : str) (now : Q) :
  match Base64.b64decode (encode_utf8 key) with
  | Ok sk =>
      AutoTaker.sign_request key method path body now
      = Ok (timestamp_at now,
            Base64.b64encode
              (Hmac.digest_sha256 sk
                 (bytes_join (String "010" "")
                    [timestamp_at now; bytes_upper method; path; body])))
  | Raise e => AutoTaker.sign_request key method path body now = Raise e
  end.
Proof.
  unfold AutoTaker.sign_request, timestamp_at.
  destruct (Base64.b64decode (encode_utf8 key)); reflexivity.
Qed.

(** X1.  Every signature [sign_request] returns is the base64 text of a 32-byte
    digest: 44 characters of the standard alphabet, the last one a pad,
    which decode to 32 bytes. *)
Theorem signature_is_44_characters (key method path body : str) (now : Q)
      (ts sig : bytes) :
  AutoTaker.sign_request key method path body now = Ok (ts, sig) ->
  String.length sig = 44%nat /\
  valid_b64 sig = true /\
  String.get 43 sig = Some Base64.BASE64_PAD /\
  exists digest,
    Base64.b64decode sig = Ok digest /\ String.length digest = 32%nat.
Proof.
  intro H.
  pose proof (sign_request_cases key method path body now) as Hc.
  destruct (Base64.b64decode (encode_utf8 key)) as [sk|e]; [|congruence].
  rewrite Hc in H. injection H as _ <-.
  set (d := Hmac.digest_sha256 sk _).
  assert (Hd : String.length d = 32%nat) by apply hmac_digest_length.
  split; [|split; [apply b64encode_valid|split]].
  - unfold Base64.b64encode. rewrite b2a_base64_length, Hd. reflexivity.
  - clearbody d.
    do 32 (destruct d as [|? d]; [discriminate|]).
    destruct d; [reflexivity|discriminate].
  - exists d. split; [apply b64decode_b64encode|exact Hd].
Qed.

(** The vector of the signer: key "secret-key-bytes", POST /v1/fs/orders
    with the body "{}" at 1700000000.125 seconds. *)
Lemma signature_is_44_characters_witness :
  String.length "Z/SIO/84NGBLOMPRotE490WQCleSbFl0QGIGe6dTA1M=" = 44%nat /\
  valid_b64 "Z/SIO/84NGBLOMPRotE490WQCleSbFl0QGIGe6dTA1M=" = true.
Proof.
  destruct (signature_is_44_characters "c2VjcmV0LWtleS1ieXRlcw==" "post" "/v1/fs/orders"
              "{}" (13600000001 # 8) "1700000000125"
              "Z/SIO/84NGBLOMPRotE490WQCleSbFl0QGIGe6dTA1M=") as (H1 & H2 & _).
  - vm_compute; reflexivity.
  - split; assumption.
Defined.

Lemma int_of_Q_mono (x y : Q) : (x <= y)%Q -> int_of_Q x <= int_of_Q y.
Proof.
  intro H.
  destruct (int_of_Q_truncates x) as (X1 & X2 & X3 & X4).
  destruct (int_of_Q_truncates y) as (Y1 & Y2 & Y3 & Y4).
  destruct (Qlt_le_dec x 0) as [Hx|Hx]; destruct (Qlt_le_dec y 0) as [Hy|Hy].
  - specialize (Y4 (Qlt_le_weak _ _ Hy)).
    assert (G : (inject_Z (int_of_Q x) < inject_Z (int_of_Q y + 1))%Q)
      by (rewrite inject_Z_succ; lra).
    apply Q_lt_Z in G. lia.
  - assert (G1 : (inject_Z (int_of_Q x) < inject_Z 1)%Q)
      by (change (inject_Z 1) with 1%Q; lra).
    assert (G2 : (inject_Z (-1) < inject_Z (int_of_Q y))%Q)
      by (change (inject_Z (-1)) with (-1 # 1)%Q; lra).
    apply Q_lt_Z in G1, G2. lia.
  - exfalso. lra.
  - specialize (X3 Hx).
    assert (G : (inject_Z (int_of_Q x) < inject_Z (int_of_Q y + 1))%Q)
      by (rewrite inject_Z_succ; lra).
    apply Q_lt_Z in G. lia.
Qed.

Lemma float_mul_1000_mono (x y : Q) :
  (x <= y)%Q -> (Float.mul x (Float.of_int 1000) <= Float.mul y (Float.of_int 1000))%Q.
Proof.
  intro H. unfold Float.mul, Float.of_int.
  apply binary64_mono.
  assert (E : (Float.binary64 (inject_Z 1000) == inject_Z 1000)%Q)
    by (apply binary64_Z; vm_compute; discriminate).
  rewrite E.
  apply Qmult_le_compat_r; [exact H|vm_compute; discriminate].
Qed.

Lemma float_mul_1000_nonneg (x : Q) :
  (0 <= x)%Q -> (0 <= Float.mul x (Float.of_int 1000))%Q.
Proof.
  intro H. unfold Float.mul, Float.of_int.
  apply binary64_nonneg.
  assert (E : (Float.binary64 (inject_Z 1000) == inject_Z 1000)%Q)
    by (apply binary64_Z; vm_compute; discriminate).
  rewrite E.
  apply Qmult_le_0_compat; [exact H|vm_compute; discriminate].
Qed.

Lemma timestamp_at_digits (now : Q) : (0 <= now)%Q -> all_digits (timestamp_at now) = true.
Proof.
  intro H. unfold timestamp_at, str_of_int.
  assert (G : 0 <= int_of_Q (Float.mul now (Float.of_int 1000))).
  { destruct (int_of_Q_truncates (Float.mul now (Float.of_int 1000))) as (X1 & _).
    pose proof (float_mul_1000_nonneg now H) as P.
    assert (L : (inject_Z (-1) < inject_Z (int_of_Q (Float.mul now (Float.of_int 1000))))%Q)
      by (change (inject_Z (-1)) with (-1 # 1)%Q; lra).
    apply Q_lt_Z in L. lia. }
  destruct (Z.ltb_spec (int_of_Q (Float.mul now (Float.of_int 1000))) 0) as [L|_]; [lia|].
  apply str_of_nonneg_value. exact G.
Qed.

(** X2.  The timestamp follows the clock: of two signatures, the one made at the
    later clock reading has a timestamp that is at least the other's, and
    from the epoch on a timestamp is written with decimal digits only. *)
Theorem timestamp_never_runs_backwards
      (key1 method1 path1 body1 key2 method2 path2 body2 : str) (now1 now2 : Q)
      (ts1 sig1 ts2 sig2 : bytes) :
  (now1 <= now2)%Q ->
  AutoTaker.sign_request key1 method1 path1 body1 now1 = Ok (ts1, sig1) ->
  AutoTaker.sign_request key2 method2 path2 body2 now2 = Ok (ts2, sig2) ->
  decimal_value ts1 <= decimal_value ts2 /\
  ((0 <= now1)%Q -> all_digits ts1 = true /\ all_digits ts2 = true).
Proof.
  intros Hle H1 H2.
  pose proof (sign_request_cases key1 method1 path1 body1 now1) as C1.
  pose proof (sign_request_cases key2 method2 path2 body2 now2) as C2.
  destruct (Base64.b64decode (encode_utf8 key1)) as [sk1|e1]; [|congruence].
  destruct (Base64.b64decode (encode_utf8 key2)) as [sk2|e2]; [|congruence].
  rewrite C1 in H1. rewrite C2 in H2.
  injection H1 as <- _. injection H2 as <- _.
  split.
  - unfold timestamp_at. rewrite !decimal_value_str_of_int.
    apply int_of_Q_mono, float_mul_1000_mono, Hle.
  - intro H0. split; apply timestamp_at_digits; [exact H0|].
    apply (Qle_trans _ _ _ H0 Hle).
Qed.

(** Two requests signed an eighth of a second apart. *)
Lemma timestamp_never_runs_backwards_witness :
  decimal_value "1700000000125" <= decimal_value "1700000000250".
Proof.
  apply (timestamp_never_runs_backwards
           "c2VjcmV0LWtleS1ieXRlcw==" "post" "/v1/fs/orders" "{}"
           "c2VjcmV0LWtleS1ieXRlcw==" "post" "/v1/fs/orders" "{}"
           (13600000001 # 8) (13600000002 # 8)
           "1700000000125" "Z/SIO/84NGBLOMPRotE490WQCleSbFl0QGIGe6dTA1M="
           "1700000000250"
           (snd (match AutoTaker.sign_request "c2VjcmV0LWtleS1ieXRlcw==" "post"
                         "/v1/fs/orders" "{}" (13600000002 # 8) with
                 | Ok p => p | Raise _ => ("", "") end))).
  - vm_compute; discriminate.
  - vm_compute; reflexivity.
  - vm_compute; reflexivity.
Defined.

(** X3.  The signer reads the secret key only through its base64 characters and
    the method only through its upper-case form: two keys with the same
    alphabet and pad characters in the same order, and two methods that
    differ in the case of their letters, give the same timestamp and the
    same signature, or the same error. *)
Theorem signature_ignores_key_noise_and_method_case
      (key1 key2 method1 method2 path body : str) (now : Q) :
  keep_b64 key1 = keep_b64 key2 ->
  bytes_upper method1 = bytes_upper method2 ->
  AutoTaker.sign_request key1 method1 path body now
  = AutoTaker.sign_request key2 method2 path body now.
Proof.
  intros Hk Hm.
  unfold AutoTaker.sign_request, Base64.b64decode, Base64.a2b_base64, encode_utf8.
  rewrite (a2b_loop_keep key1), (a2b_loop_keep key2), Hk, Hm.
  reflexivity.
Qed.

(** The key written on two lines with a trailing blank, and the method in
    lower case. *)
Lemma signature_ignores_key_noise_and_method_case_witness :
  AutoTaker.sign_request
    (String.append "c2VjcmV0LWtl" (String "010" "eS1ieXRlcw== "))
    "post" "/v1/fs/orders" "{}" (13600000001 # 8)
  = AutoTaker.sign_request "c2VjcmV0LWtleS1ieXRlcw==" "POST" "/v1/fs/orders" "{}"
      (13600000001 # 8).
Proof.
  apply (signature_ignores_key_noise_and_method_case
           (String.append "c2VjcmV0LWtl" (String "010" "eS1ieXRlcw== "))
           "c2VjcmV0LWtleS1ieXRlcw==" "post" "POST"); vm_compute; reflexivity.
Defined.

Lemma a2b_loop_no_alphabet (s : bytes) : forall l p out,
  no_alphabet s = true -> Base64.a2b_loop s 0 l p out = Ok out.
Proof.
  induction s as [|c s IH]; intros l p out H; [reflexivity|].
  cbn [no_alphabet] in H. apply andb_true_iff in H. destruct H as [Hc Hs].
  destruct (Ascii.eqb c Base64.BASE64_PAD) eqn:Ep.
  - apply Ascii.eqb_eq in Ep. subst c.
    rewrite a2b_pad. cbn. now apply IH.
  - rewrite a2b_skip; [now apply IH|exact Ep|].
    unfold is_alphabet in Hc. rewrite Ep in Hc. cbn [negb andb] in Hc.
    apply negb_true_iff in Hc. apply Z.ltb_ge in Hc. now apply Z.leb_le.
Qed.

(** X4.  A secret key with no character of the base64 alphabet (the empty key,
    blanks, pad characters, punctuation) is not rejected: it decodes to no
    bytes, and the request is signed with the empty key. *)
Theorem key_without_base64_characters_signs_with_empty_key
      (key method path body : str) (now : Q) :
  no_alphabet key = true ->
  Base64.b64decode (encode_utf8 key) = Ok "" /\
  AutoTaker.sign_request key method path body now
  = Ok (timestamp_at now,
        Base64.b64encode
          (Hmac.digest_sha256 ""
             (bytes_join (String "010" "")
                [timestamp_at now; bytes_upper method; path; body]))).
Proof.
  intro H.
  assert (Hd : Base64.b64decode (encode_utf8 key) = Ok "")
    by (apply a2b_loop_no_alphabet; exact H).
  split; [exact Hd|].
  pose proof (sign_request_cases key method path body now) as Hc.
  now rewrite Hd in Hc.
Qed.

(** The empty key and the key "<=>". *)
Lemma key_without_base64_characters_signs_with_empty_key_witness :
  Base64.b64decode (encode_utf8 "<=>") = Ok "" /\
  is_ok (AutoTaker.sign_request "" "GET" "/v1/fs/strategies?page_size=100" ""
           (13600000001 # 8)) = true.
Proof.
  split.
  - apply (key_without_base64_characters_signs_with_empty_key "<=>" "GET" "" "" 0).
    reflexivity.
  - destruct (key_without_base64_characters_signs_with_empty_key ""
                "GET" "/v1/fs/strategies?page_size=100" "" (13600000001 # 8)) as [_ H];
      [reflexivity|].
    rewrite H. reflexivity.
Defined.

(* ------------------------------------------------------------------ *)
(** ** Further properties: the requests of the two venue calls *)

Lemma create_rest_headers_cases (self : AutoTaker.t) (method path body : str) (now : Q) :
  match Base64.b64decode (encode_utf8 (AutoTaker.paradigm_taker_secret_key self)) with
  | Ok sk =>
      AutoTaker.create_rest_headers self method path body now
      = Ok (signed_headers (AutoTaker.paradigm_taker_access_key self) sk
              (bytes_upper method) path body now)
  | Raise e => AutoTaker.create_rest_headers self method path body now = Raise e
  end.
Proof.
  unfold AutoTaker.create_rest_headers.
  pose proof (sign_request_cases (AutoTaker.paradigm_taker_secret_key self)
                method path body now) as Hc.
  destruct (Base64.b64decode (encode_utf8 (AutoTaker.paradigm_taker_secret_key self)))
    as [sk|e]; rewrite Hc; [|reflexivity].
  cbn [bind fst snd decode_utf8]. unfold signed_headers. cbv zeta.
  now rewrite bytes_join_four.
Qed.

Lemma post_order_events
      (json_dumps : dict -> str) (json_loads : bytes -> result pyval) (g : str)
      (self : AutoTaker.t) (payload : dict) (now : Q) (outcome : http_outcome)
      (hdrs : list (str * str)) :
  AutoTaker.create_rest_headers self "POST" "/v1/fs/orders" (json_dumps payload) now = Ok hdrs ->
  exists logs,
    fst (AutoTaker.post_order json_dumps json_loads g self payload now outcome)
    = Request "POST" (String.append g "/v1/fs/orders") hdrs (Some payload) :: logs /\
    forallb is_logged logs = true /\
    (forall e, snd (AutoTaker.post_order json_dumps json_loads g self payload now outcome)
               = Raise e -> logs = []) /\
    snd (AutoTaker.post_order json_dumps json_loads g self payload now outcome)
    = match unhandled json_loads outcome with Some e => Raise e | None => Ok tt end.
Proof.
  intro Hh. unfold AutoTaker.post_order, unhandled. rewrite Hh.
  destruct outcome as [r|e].
  - destruct (AutoTaker.response_json json_loads false r) as [v|e].
    + destruct (status r =? 201); eexists; cbn [fst snd];
        (split; [reflexivity|split; [reflexivity|split; [discriminate|reflexivity]]]).
    + destruct (isinstance_ClientConnectorError e); eexists; cbn [fst snd app];
        (split; [reflexivity|split; [reflexivity|split; [|reflexivity]]]);
        [discriminate|reflexivity].
  - destruct (isinstance_ClientConnectorError e); eexists; cbn [fst snd app];
      (split; [reflexivity|split; [reflexivity|split; [|reflexivity]]]);
      [discriminate|reflexivity].
Qed.

Lemma get_strategies_events
      (json_loads : bytes -> result pyval) (g : str)
      (self : AutoTaker.t) (now : Q) (outcome : http_outcome) (hdrs : list (str * str)) :
  AutoTaker.create_rest_headers self "GET" "/v1/fs/strategies?page_size=100" "" now = Ok hdrs ->
  exists logs,
    fst (AutoTaker.get_strategies json_loads g self now outcome)
    = Request "GET" (String.append g "/v1/fs/strategies?page_size=100") hdrs None :: logs /\
    forallb is_logged logs = true.
Proof.
  intro Hh. unfold AutoTaker.get_strategies. rewrite Hh.
  destruct outcome as [r|e]; [|eexists; split; reflexivity].
  destruct (status r =? 200); [|eexists; split; reflexivity].
  destruct (AutoTaker.response_json json_loads true r); eexists; split; reflexivity.
Qed.

(** X5.  Each of the two venue calls sends exactly one request, and its three
    headers are the timestamp of the call's own clock reading, the
    signature, and the bearer token.  [post_order] signs the text
    [json.dumps] gives for the very payload it sends as the request's JSON,
    under the method POST and the path /v1/fs/orders; [get_strategies]
    signs the empty body under GET and the path with its query string. *)
Theorem requests_are_signed_over_what_is_sent
      (json_dumps : dict -> str) (json_loads : bytes -> result pyval) (g : str)
      (self : AutoTaker.t) (sk : bytes) (payload : dict) (now : Q)
      (outcome : http_outcome) :
  Base64.b64decode (encode_utf8 (AutoTaker.paradigm_taker_secret_key self)) = Ok sk ->
  (exists logs,
      fst (AutoTaker.post_order json_dumps json_loads g self payload now outcome)
      = Request "POST" (String.append g "/v1/fs/orders")
          (signed_headers (AutoTaker.paradigm_taker_access_key self) sk
             "POST" "/v1/fs/orders" (json_dumps payload) now)
          (Some payload) :: logs /\
      forallb is_logged logs = true) /\
  (exists logs,
      fst (AutoTaker.get_strategies json_loads g self now outcome)
      = Request "GET" (String.append g "/v1/fs/strategies?page_size=100")
          (signed_headers (AutoTaker.paradigm_taker_access_key self) sk
             "GET" "/v1/fs/strategies?page_size=100" "" now)
          None :: logs /\
      forallb is_logged logs = true).
Proof.
  intro Hk. split.
  - pose proof (create_rest_headers_cases self "POST" "/v1/fs/orders"
                  (json_dumps payload) now) as Hc.
    rewrite Hk in Hc.
    destruct (post_order_events json_dumps json_loads g self payload now outcome _ Hc)
      as (logs & H1 & H2 & _).
    exists logs. split; assumption.
  - pose proof (create_rest_headers_cases self "GET" "/v1/fs/strategies?page_size=100"
                  "" now) as Hc.
    rewrite Hk in Hc.
    apply (get_strategies_events json_loads g self now outcome _ Hc).
Qed.

(** A rejected order: the request is followed by the four log records. *)
Lemma requests_are_signed_over_what_is_sent_witness :
  exists logs,
    fst (AutoTaker.post_order sample_json_dumps sample_json_loads sample_url sample_taker
           [] (1700000001 # 1) (Response (sample_response 400 "{}")))
    = Request "POST" "https://api.fs.test.paradigm.co/v1/fs/orders"
        (signed_headers "access-key" "secret-key-bytes" "POST" "/v1/fs/orders" "{}"
           (1700000001 # 1))
        (Some []) :: logs /\
    forallb is_logged logs = true.
Proof.
  apply (requests_are_signed_over_what_is_sent sample_json_dumps sample_json_loads
           sample_url sample_taker "secret-key-bytes" [] (1700000001 # 1)
           (Response (sample_response 400 "{}"))).
  vm_compute; reflexivity.
Defined.

Lemma manager_undecodable_key
      (json_dumps : dict -> str) (json_loads : bytes -> result pyval) (g : str)
      (self : AutoTaker.t) (w : AutoTaker.world) (n : nat) (e : exn) :
  Base64.b64decode (encode_utf8 (AutoTaker.paradigm_taker_secret_key self)) = Raise e ->
  AutoTaker.manager json_dumps json_loads g self w n = ([], Raise e).
Proof.
  intro Hk.
  pose proof (create_rest_headers_cases self "GET" "/v1/fs/strategies?page_size=100"
                "" (AutoTaker.listing_clock w)) as Hc.
  rewrite Hk in Hc.
  unfold AutoTaker.manager, AutoTaker.ingest_available_strategies, AutoTaker.get_strategies.
  now rewrite Hc.
Qed.

(** X6.  With a secret key that [b64decode] rejects nothing reaches the network:
    [manager] ends in its start-up with the decoder's [binascii.Error]
    before the listing is requested, and [post_order] raises the same error
    before it sends its order. *)
Theorem undecodable_key_sends_nothing
      (json_dumps : dict -> str) (json_loads : bytes -> result pyval) (g : str)
      (self : AutoTaker.t) (w : AutoTaker.world) (n : nat) (e : exn) :
  Base64.b64decode (encode_utf8 (AutoTaker.paradigm_taker_secret_key self)) = Raise e ->
  AutoTaker.manager json_dumps json_loads g self w n = ([], Raise e) /\
  (forall payload now outcome,
      AutoTaker.post_order json_dumps json_loads g self payload now outcome
      = ([], Raise e)) /\
  exists msg, e = BinasciiError msg.
Proof.
  intro Hk.
  split; [now apply manager_undecodable_key|split].
  - intros payload now outcome.
    pose proof (create_rest_headers_cases self "POST" "/v1/fs/orders"
                  (json_dumps payload) now) as Hc.
    rewrite Hk in Hc.
    unfold AutoTaker.post_order. now rewrite Hc.
  - apply (a2b_loop_raises _ _ _ _ _ _ Hk).
Qed.

(** A key of five base64 characters. *)
Lemma undecodable_key_sends_nothing_witness :
  fst (AutoTaker.manager sample_json_dumps sample_json_loads sample_url
         (AutoTaker.init sample_url "taker-account" "access-key" "YWJjZ" 1 1 1)
         (sample_world (Response (sample_response 200 one_strategy_body))
                       (fun _ _ => Response (sample_response 201 "{}"))) 3) = [].
Proof.
  destruct (undecodable_key_sends_nothing sample_json_dumps sample_json_loads sample_url
              (AutoTaker.init sample_url "taker-account" "access-key" "YWJjZ" 1 1 1)
              (sample_world (Response (sample_response 200 one_strategy_body))
                            (fun _ _ => Response (sample_response 201 "{}"))) 3
              (BinasciiError "Invalid base64-encoded string: number of data characters cannot be 1 more than a multiple of 4"))
    as [H _].
  - vm_compute; reflexivity.
  - rewrite H. reflexivity.
Defined.

(** X7.  The script as the file has it: its placeholders replace whatever the
    environment holds for the account and the keys, and the placeholder of
    the secret key has nine base64 characters, which [b64decode] rejects.
    So whatever the environment, the venue and the two built-ins do, the
    script sends no request and ends with an exception; it is the decoder's
    [binascii.Error] when [int] reads "1" as a number. *)
Theorem script_placeholders_stop_the_start_up
      (json_dumps : dict -> str) (json_loads : bytes -> result pyval)
      (int : str -> result Z) (lower : str -> str)
      (e : Script.environ) (w : AutoTaker.world) (passes : nat) :
  fst (Script.main json_dumps json_loads int lower e w passes) = [] /\
  (exists x, snd (Script.main json_dumps json_loads int lower e w passes) = Raise x) /\
  (forall n, int "1" = Ok n ->
     exists msg, snd (Script.main json_dumps json_loads int lower e w passes)
                 = Raise (BinasciiError msg)).
Proof.
  assert (Hk : Base64.b64decode (encode_utf8 "<secret-key>")
               = Raise (BinasciiError "Invalid base64-encoded string: number of data characters cannot be 1 more than a multiple of 4"))
    by (vm_compute; reflexivity).
  cbv [Script.main Script.environ_get Script.environ_set Script.after
       Script.new_AutoTaker String.eqb Ascii.eqb Bool.eqb].
  destruct (int "1") as [n|x].
  - rewrite (manager_undecodable_key json_dumps json_loads _
               (AutoTaker.init _ _ _ "<secret-key>" _ _ _) w passes _ Hk).
    split; [reflexivity|split; [eexists; reflexivity|]].
    intros _ _. eexists; reflexivity.
  - split; [reflexivity|split; [eexists; reflexivity|]].
    intros n H. discriminate.
Qed.

(** X8.  [post_order] returns or raises by the outcome alone: with a key that
    decodes it raises exactly the exceptions of the client and of
    [response.json] that are not a [ClientConnectorError], whatever the
    status, so a response of status 201 whose body is not JSON raises too;
    and a call that raises has written no log record. *)
Theorem post_order_raises_without_a_log_record
      (json_dumps : dict -> str) (json_loads : bytes -> result pyval) (g : str)
      (self : AutoTaker.t) (payload : dict) (now : Q) (outcome : http_outcome) :
  let call := AutoTaker.post_order json_dumps json_loads g self payload now outcome in
  (forall e, snd call = Raise e -> existsb is_logged (fst call) = false) /\
  (forall sk,
      Base64.b64decode (encode_utf8 (AutoTaker.paradigm_taker_secret_key self)) = Ok sk ->
      snd call = match unhandled json_loads outcome with
                 | Some e => Raise e
                 | None => Ok tt
                 end) /\
  (forall sk r e,
      Base64.b64decode (encode_utf8 (AutoTaker.paradigm_taker_secret_key self)) = Ok sk ->
      outcome = Response r ->
      status r = 201 ->
      AutoTaker.response_json json_loads false r = Raise e ->
      isinstance_ClientConnectorError e = false ->
      snd call = Raise e).
Proof.
  intro call. subst call.
  pose proof (create_rest_headers_cases self "POST" "/v1/fs/orders"
                (json_dumps payload) now) as Hc.
  destruct (Base64.b64decode (encode_utf8 (AutoTaker.paradigm_taker_secret_key self)))
    as [sk|e0].
  - destruct (post_order_events json_dumps json_loads g self payload now outcome _ Hc)
      as (logs & H1 & H2 & H3 & H4).
    split; [|split].
    + intros e He. rewrite H1, (H3 e He). reflexivity.
    + intros _ _. exact H4.
    + intros _ r e _ -> _ Hj Hi. rewrite H4. unfold unhandled. now rewrite Hj, Hi.
  - unfold AutoTaker.post_order. rewrite Hc. cbn [fst snd].
    split; [reflexivity|split]; intros; discriminate.
Qed.




(* ------------------------------------------------------------------ *)
(** ** Further properties: reading the listing *)

Lemma ingest_loop_ok (entries : list pyval) : forall acc out,
  AutoTaker.ingest_loop entries acc = Ok out <->
  exists ss, out = acc ++ ss /\ Forall2 entry_gives entries ss.
Proof.
  induction entries as [|x entries IH]; intros acc out; cbn [AutoTaker.ingest_loop].
  - split.
    + intro H. injection H as <-. exists []. rewrite app_nil_r. split; constructor.
    + intros (ss & -> & HF). inversion HF. now rewrite app_nil_r.
  - split.
    + intro H.
      destruct (subscript x "id") as [i|e] eqn:Ei; [|discriminate].
      destruct (subscript x "min_block_size") as [m|e] eqn:Em; [|discriminate].
      cbn [bind] in H. apply IH in H. destruct H as (ss & -> & HF).
      exists (Strategy.Build i m :: ss). split.
      * now rewrite <- app_assoc.
      * constructor; [split; assumption|exact HF].
    + intros (ss & -> & HF). inversion HF as [|x' s entries' ss' [Hi Hm] HF' E1 E2]. subst.
      rewrite Hi, Hm. cbn [bind]. apply IH.
      exists ss'. split; [|exact HF'].
      rewrite <- app_assoc. destruct s; reflexivity.
Qed.

Lemma ingest_loop_stops (good : list pyval) : forall gs bad rest acc,
  Forall2 entry_gives good gs ->
  AutoTaker.ingest_loop (good ++ bad :: rest) acc
  = (id <- subscript bad "id" ;;
     min_block_size <- subscript bad "min_block_size" ;;
     AutoTaker.ingest_loop rest (acc ++ gs ++ [Strategy.Build id min_block_size])).
Proof.
  induction good as [|x good IH]; intros gs bad rest acc HF.
  - inversion HF. reflexivity.
  - inversion HF as [|x' s good' gs' [Hi Hm] HF' E1 E2]. subst.
    cbn [app AutoTaker.ingest_loop]. rewrite Hi, Hm. cbn [bind].
    rewrite (IH gs' bad rest _ HF').
    destruct (subscript bad "id") as [i|e]; [|reflexivity].
    destruct (subscript bad "min_block_size") as [m|e]; [|reflexivity].
    cbn [bind]. rewrite <- !app_assoc. destruct s; reflexivity.
Qed.

Lemma get_strategies_200
      (json_loads : bytes -> result pyval) (g : str)
      (self : AutoTaker.t) (sk : bytes) (now : Q) (r : ClientResponse) :
  Base64.b64decode (encode_utf8 (AutoTaker.paradigm_taker_secret_key self)) = Ok sk ->
  status r = 200 ->
  AutoTaker.get_strategies json_loads g self now (Response r)
  = ([Request "GET" (String.append g "/v1/fs/strategies?page_size=100")
        (signed_headers (AutoTaker.paradigm_taker_access_key self) sk
           "GET" "/v1/fs/strategies?page_size=100" "" now) None],
     match AutoTaker.response_json json_loads true r with
     | Ok v => Ok (AutoTaker.Parsed v)
     | Raise e => Raise e
     end).
Proof.
  intros Hk Hs.
  pose proof (create_rest_headers_cases self "GET" "/v1/fs/strategies?page_size=100"
                "" now) as Hh.
  rewrite Hk in Hh.
  unfold AutoTaker.get_strategies. rewrite Hh, Hs. cbn [Z.eqb Pos.eqb].
  destruct (AutoTaker.response_json json_loads true r); reflexivity.
Qed.

Lemma ingest_200
      (json_loads : bytes -> result pyval) (g : str)
      (self : AutoTaker.t) (sk : bytes) (now : Q) (r : ClientResponse) (v : pyval) :
  Base64.b64decode (encode_utf8 (AutoTaker.paradigm_taker_secret_key self)) = Ok sk ->
  status r = 200 ->
  AutoTaker.response_json json_loads true r = Ok v ->
  AutoTaker.ingest_available_strategies json_loads g self now (Response r)
  = ([Request "GET" (String.append g "/v1/fs/strategies?page_size=100")
        (signed_headers (AutoTaker.paradigm_taker_access_key self) sk
           "GET" "/v1/fs/strategies?page_size=100" "" now) None],
     results <- subscript v "results" ;;
     entries <- iterate results ;;
     AutoTaker.ingest_loop entries []).
Proof.
  intros Hk Hs Hj.
  unfold AutoTaker.ingest_available_strategies.
  rewrite (get_strategies_200 json_loads g self sk now r Hk Hs), Hj.
  reflexivity.
Qed.

(** X10.  On a 200 whose body parses to an object with the member results,
    [ingest_available_strategies] sends the one GET request, logs nothing,
    and returns one [Strategy] for each element of results, in the order of
    the elements, made of the element's members id and min_block_size; it
    returns a list exactly when every element has both members. *)
Theorem ingest_reads_each_entry_in_order
      (json_loads : bytes -> result pyval) (g : str)
      (self : AutoTaker.t) (sk : bytes) (now : Q) (r : ClientResponse)
      (v results : pyval) (entries : list pyval) :
  Base64.b64decode (encode_utf8 (AutoTaker.paradigm_taker_secret_key self)) = Ok sk ->
  status r = 200 ->
  AutoTaker.response_json json_loads true r = Ok v ->
  subscript v "results" = Ok results ->
  iterate results = Ok entries ->
  let call := AutoTaker.ingest_available_strategies json_loads g self now (Response r) in
  (forall strategies,
      snd call = Ok strategies <-> Forall2 entry_gives entries strategies) /\
  (forall strategies,
      snd call = Ok strategies -> List.length strategies = List.length entries) /\
  fst call
  = [Request "GET" (String.append g "/v1/fs/strategies?page_size=100")
       (signed_headers (AutoTaker.paradigm_taker_access_key self) sk
          "GET" "/v1/fs/strategies?page_size=100" "" now) None].
Proof.
  intros Hk Hs Hj Hr Hi call. subst call.
  rewrite (ingest_200 json_loads g self sk now r v Hk Hs Hj), Hr.
  cbn [fst snd bind]. rewrite Hi. cbn [bind].
  assert (E : forall strategies,
             AutoTaker.ingest_loop entries [] = Ok strategies
             <-> Forall2 entry_gives entries strategies).
  { intro strategies. rewrite ingest_loop_ok. cbn [app].
    split; [intros (ss & -> & H); exact H|intro H; exists strategies; auto]. }
  split; [exact E|split; [|reflexivity]].
  intros strategies H. apply E in H. symmetry. apply (Forall2_length H).
Qed.

(** The listing of the one strategy "strat-1" with minimum block size 5. *)
Lemma ingest_reads_each_entry_in_order_witness :
  snd (AutoTaker.ingest_available_strategies sample_json_loads sample_url sample_taker
         (13600000001 # 8) (Response (sample_response 200 one_strategy_body)))
  = Ok [Strategy.Build (PStr "strat-1") (PInt 5)].
Proof.
  apply (ingest_reads_each_entry_in_order sample_json_loads sample_url sample_taker
           "secret-key-bytes" (13600000001 # 8) (sample_response 200 one_strategy_body)
           (PDict [("results",
                    PList [PDict [("id", PStr "strat-1"); ("min_block_size", PInt 5)]])])
           (PList [PDict [("id", PStr "strat-1"); ("min_block_size", PInt 5)]])
           [PDict [("id", PStr "strat-1"); ("min_block_size", PInt 5)]]);
    try (vm_compute; reflexivity).
  constructor; [split; reflexivity|constructor].
Defined.

(** X11.  What a malformed listing does to the start-up, on a 200 whose body
    [response.json()] accepts: a blank body (parsed as None) raises
    TypeError; an object without the member results raises
    KeyError('results'); and the first element of results that lacks id, or
    has id and lacks min_block_size, raises the KeyError of that member,
    the strategies read before it being dropped. *)
Theorem malformed_listing_raises
      (json_loads : bytes -> result pyval) (g : str)
      (self : AutoTaker.t) (sk : bytes) (now : Q) (r : ClientResponse) (v : pyval) :
  Base64.b64decode (encode_utf8 (AutoTaker.paradigm_taker_secret_key self)) = Ok sk ->
  status r = 200 ->
  AutoTaker.response_json json_loads true r = Ok v ->
  let call := AutoTaker.ingest_available_strategies json_loads g self now (Response r) in
  (v = PNone -> exists msg, snd call = Raise (TypeError msg)) /\
  (forall d, v = PDict d -> dict_get d "results" = None ->
             snd call = Raise (KeyError "results")) /\
  (forall results good gs b rest,
      subscript v "results" = Ok results ->
      iterate results = Ok (good ++ PDict b :: rest) ->
      Forall2 entry_gives good gs ->
      (dict_get b "id" = None -> snd call = Raise (KeyError "id")) /\
      (dict_has b "id" = true -> dict_get b "min_block_size" = None ->
       snd call = Raise (KeyError "min_block_size"))).
Proof.
  intros Hk Hs Hj call. subst call.
  rewrite (ingest_200 json_loads g self sk now r v Hk Hs Hj). cbn [snd].
  split; [|split].
  - intros ->. eexists. reflexivity.
  - intros d -> Hd. cbn [subscript]. rewrite Hd. reflexivity.
  - intros results good gs b rest Hr Hi HF.
    rewrite Hr. cbn [bind]. rewrite Hi. cbn [bind]. rewrite (ingest_loop_stops good gs _ rest [] HF).
    cbn [subscript]. unfold dict_has.
    split.
    + intros ->. reflexivity.
    + destruct (dict_get b "id"); [|discriminate].
      intros _ ->. reflexivity.
Qed.

(** A listing whose second element has no min_block_size. *)
Lemma malformed_listing_raises_witness :
  snd (AutoTaker.ingest_available_strategies
         (fun _ => Ok (PDict [("results",
                               PList [PDict [("id", PStr "a"); ("min_block_size", PInt 1)];
                                      PDict [("id", PStr "b")]])]))
         sample_url sample_taker (13600000001 # 8)
         (Response (sample_response 200 "{}")))
  = Raise (KeyError "min_block_size").
Proof.
  destruct (malformed_listing_raises
              (fun _ => Ok (PDict [("results",
                                    PList [PDict [("id", PStr "a"); ("min_block_size", PInt 1)];
                                           PDict [("id", PStr "b")]])]))
              sample_url sample_taker "secret-key-bytes" (13600000001 # 8)
              (sample_response 200 "{}")
              (PDict [("results",
                       PList [PDict [("id", PStr "a"); ("min_block_size", PInt 1)];
                              PDict [("id", PStr "b")]])]))
    as (_ & _ & H);
    [vm_compute; reflexivity|vm_compute; reflexivity|vm_compute; reflexivity|].
  destruct (H (PList [PDict [("id", PStr "a"); ("min_block_size", PInt 1)];
                      PDict [("id", PStr "b")]])
              [PDict [("id", PStr "a"); ("min_block_size", PInt 1)]]
              [Strategy.Build (PStr "a") (PInt 1)]
              [("id", PStr "b")] []) as [_ H2];
    [reflexivity|reflexivity|constructor; [split; reflexivity|constructor]|].
  apply H2; reflexivity.
Defined.

(* ------------------------------------------------------------------ *)
(** ** Further properties: the payloads and the passes of the loop *)

Lemma order_payloads_market (self : AutoTaker.t) :
  map Order.order_payload (AutoTaker.construct_order_payloads self)
  = flat_map (fun s =>
                [market_payload (AutoTaker.paradigm_taker_account_name self) TradeAction.BUY s;
                 market_payload (AutoTaker.paradigm_taker_account_name self) TradeAction.SELL s])
             (AutoTaker.availabile_strateies self).
Proof.
  rewrite construct_order_payloads_flat.
  induction (AutoTaker.availabile_strateies self) as [|s l IH]; [reflexivity|].
  cbn [flat_map app map]. rewrite IH. reflexivity.
Qed.

(** X12.  What goes on the wire for the orders the builder makes: the payload of
    each is a dict of exactly five members, in the order account_name,
    strategy_id, type, amount, side, with the type MARKET and no price;
    first the BUY and then the SELL payload of each strategy. *)
Theorem built_orders_are_market_payloads (self : AutoTaker.t) :
  let payloads := map Order.order_payload (AutoTaker.construct_order_payloads self) in
  payloads
  = flat_map (fun s =>
                [market_payload (AutoTaker.paradigm_taker_account_name self) TradeAction.BUY s;
                 market_payload (AutoTaker.paradigm_taker_account_name self) TradeAction.SELL s])
             (AutoTaker.availabile_strateies self) /\
  Forall (fun d => map fst d = ["account_name"; "strategy_id"; "type"; "amount"; "side"] /\
                   dict_get d "type" = Some (PStr "MARKET") /\
                   dict_has d "price" = false) payloads.
Proof.
  cbv zeta. rewrite order_payloads_market.
  split; [reflexivity|].
  induction (AutoTaker.availabile_strateies self) as [|s l IH]; [constructor|].
  cbn [flat_map app].
  constructor; [repeat split|constructor; [repeat split|exact IH]].
Qed.

Lemma manager_cases
      (json_dumps : dict -> str) (json_loads : bytes -> result pyval) (g : str)
      (self : AutoTaker.t) (w : AutoTaker.world) (n : nat) :
  AutoTaker.manager json_dumps json_loads g self w n
  = (fst (AutoTaker.ingest_available_strategies json_loads g self
            (AutoTaker.listing_clock w) (AutoTaker.listing_outcome w)),
     match snd (AutoTaker.ingest_available_strategies json_loads g self
                  (AutoTaker.listing_clock w) (AutoTaker.listing_outcome w)) with
     | Raise e => Raise e
     | Ok strategies =>
         Ok (AutoTaker.loop json_dumps json_loads g
               (AutoTaker.set_order_payloads
                  (AutoTaker.construct_order_payloads
                     (AutoTaker.set_availabile_strateies strategies self))
                  (AutoTaker.set_availabile_strateies strategies self))
               w 0 n)
     end).
Proof.
  unfold AutoTaker.manager.
  destruct (AutoTaker.ingest_available_strategies json_loads g self
              (AutoTaker.listing_clock w) (AutoTaker.listing_outcome w)) as [evs [ss|e]];
    reflexivity.
Qed.

Lemma logs_hold_no_request (logs : list event) :
  forallb is_logged logs = true ->
  existsb is_get logs = false /\ existsb is_post logs = false /\ request_bodies logs = [].
Proof.
  induction logs as [|[m u h j|l msg] logs IH]; intro H; [repeat split| |].
  - discriminate.
  - cbn [forallb is_logged andb] in H. destruct (IH H) as (H1 & H2 & H3).
    cbn [existsb is_get is_post orb request_bodies flat_map app].
    repeat split; assumption.
Qed.

Section Passes.

Variable json_dumps : dict -> str.
Variable json_loads : bytes -> result pyval.
Variable g : str.

Lemma post_order_sends_no_get (self : AutoTaker.t) (payload : dict) (now : Q)
      (outcome : http_outcome) :
  existsb is_get (fst (AutoTaker.post_order json_dumps json_loads g self payload now outcome))
  = false.
Proof.
  pose proof (create_rest_headers_cases self "POST" "/v1/fs/orders"
                (json_dumps payload) now) as Hc.
  destruct (Base64.b64decode (encode_utf8 (AutoTaker.paradigm_taker_secret_key self)))
    as [sk|e].
  - destruct (post_order_events json_dumps json_loads g self payload now outcome _ Hc)
      as (logs & H1 & H2 & _).
    rewrite H1. cbn [existsb is_get String.eqb Ascii.eqb Bool.eqb orb].
    apply (logs_hold_no_request logs H2).
  - unfold AutoTaker.post_order. now rewrite Hc.
Qed.

Lemma create_tasks_send_no_get (self : AutoTaker.t) (w : AutoTaker.world) (k : nat)
      (orders : list Order.t) : forall i,
  existsb is_get
    (flat_map fst (AutoTaker.create_tasks json_dumps json_loads g self w k i orders)) = false.
Proof.
  induction orders as [|o orders IH]; intro i; [reflexivity|].
  cbn [AutoTaker.create_tasks flat_map].
  now rewrite existsb_app, post_order_sends_no_get, IH.
Qed.

Lemma loop_round_tasks (self : AutoTaker.t) (w : AutoTaker.world) (n : nat) :
  forall k r,
    In r (AutoTaker.loop json_dumps json_loads g self w k n) ->
    exists k', round_tasks r
               = AutoTaker.create_tasks json_dumps json_loads g self w k' 0
                   (AutoTaker.order_payloads self).
Proof.
  induction n as [|n IH]; intros k r H; [destruct H|].
  cbn [AutoTaker.loop] in H. unfold AutoTaker.one_round in H.
  destruct (AutoTaker.gather _) as [u|e].
  - destruct (AutoTaker.random_uniform _ _ _) as [d|e].
    + destruct H as [<-|H]; [exists k; reflexivity|apply (IH _ _ H)].
    + destruct H as [<-|[]]. exists k; reflexivity.
  - destruct H as [<-|[]]. exists k; reflexivity.
Qed.

Lemma loop_sends_no_get (self : AutoTaker.t) (w : AutoTaker.world) (n k : nat) :
  existsb is_get
    (flat_map (fun r => flat_map fst (round_tasks r))
       (AutoTaker.loop json_dumps json_loads g self w k n)) = false.
Proof.
  assert (H : forall rs,
             (forall r, In r rs ->
                exists k', round_tasks r
                           = AutoTaker.create_tasks json_dumps json_loads g self w k' 0
                               (AutoTaker.order_payloads self)) ->
             existsb is_get (flat_map (fun r => flat_map fst (round_tasks r)) rs) = false).
  { induction rs as [|r rs IH]; intro Hr; [reflexivity|].
    cbn [flat_map]. rewrite existsb_app.
    destruct (Hr r (or_introl eq_refl)) as [k' ->].
    rewrite create_tasks_send_no_get. apply IH.
    intros r' Hin. apply Hr. now right. }
  apply H. intros r Hin. apply (loop_round_tasks self w n k r Hin).
Qed.

Lemma create_tasks_bodies (self : AutoTaker.t) (sk : bytes) (w : AutoTaker.world) (k : nat)
      (orders : list Order.t) : forall i,
  Base64.b64decode (encode_utf8 (AutoTaker.paradigm_taker_secret_key self)) = Ok sk ->
  map (fun t => request_bodies (fst t))
      (AutoTaker.create_tasks json_dumps json_loads g self w k i orders)
  = map (fun o => [Some (Order.order_payload o)]) orders.
Proof.
  intros i Hk. revert i.
  induction orders as [|o orders IH]; intro i; [reflexivity|].
  cbn [AutoTaker.create_tasks map]. rewrite IH. f_equal.
  pose proof (create_rest_headers_cases self "POST" "/v1/fs/orders"
                (json_dumps (Order.order_payload o)) (AutoTaker.order_clock w k i)) as Hc.
  rewrite Hk in Hc.
  destruct (post_order_events json_dumps json_loads g self (Order.order_payload o)
              (AutoTaker.order_clock w k i) (AutoTaker.order_outcome w k i) _ Hc)
    as (logs & H1 & H2 & _).
  rewrite H1. cbn [request_bodies flat_map app].
  destruct (logs_hold_no_request logs H2) as (_ & _ & H3).
  unfold request_bodies in H3. now rewrite H3.
Qed.

Lemma gather_handled (self : AutoTaker.t) (sk : bytes) (w : AutoTaker.world) (k : nat)
      (orders : list Order.t) : forall i0,
  Base64.b64decode (encode_utf8 (AutoTaker.paradigm_taker_secret_key self)) = Ok sk ->
  (forall j, unhandled json_loads (AutoTaker.order_outcome w k j) = None) ->
  AutoTaker.gather (AutoTaker.create_tasks json_dumps json_loads g self w k i0 orders)
  = Ok tt.
Proof.
  intros i0 Hk Hu. revert i0.
  induction orders as [|o orders IH]; intro i0; [reflexivity|].
  cbn [AutoTaker.create_tasks].
  pose proof (create_rest_headers_cases self "POST" "/v1/fs/orders"
                (json_dumps (Order.order_payload o)) (AutoTaker.order_clock w k i0)) as Hc.
  rewrite Hk in Hc.
  destruct (post_order_events json_dumps json_loads g self (Order.order_payload o)
              (AutoTaker.order_clock w k i0) (AutoTaker.order_outcome w k i0) _ Hc)
    as (logs & _ & _ & _ & H4).
  rewrite Hu in H4.
  destruct (AutoTaker.post_order json_dumps json_loads g self (Order.order_payload o)
              (AutoTaker.order_clock w k i0) (AutoTaker.order_outcome w k i0)) as [evs res].
  cbn [snd] in H4. subst res. cbn [AutoTaker.gather]. apply IH.
Qed.

Lemma gather_first_unhandled (self : AutoTaker.t) (sk : bytes) (w : AutoTaker.world)
      (k : nat) (e : exn) (orders : list Order.t) : forall i i0,
  Base64.b64decode (encode_utf8 (AutoTaker.paradigm_taker_secret_key self)) = Ok sk ->
  (forall j, (j < i)%nat ->
             unhandled json_loads (AutoTaker.order_outcome w k (i0 + j)) = None) ->
  (i < List.length orders)%nat ->
  unhandled json_loads (AutoTaker.order_outcome w k (i0 + i)) = Some e ->
  AutoTaker.gather (AutoTaker.create_tasks json_dumps json_loads g self w k i0 orders)
  = Raise e.
Proof.
  intros i i0 Hk. revert i i0.
  induction orders as [|o orders IH]; intros i i0 Hb Hl He; [cbn in Hl; lia|].
  cbn [AutoTaker.create_tasks].
  pose proof (create_rest_headers_cases self "POST" "/v1/fs/orders"
                (json_dumps (Order.order_payload o)) (AutoTaker.order_clock w k i0)) as Hc.
  rewrite Hk in Hc.
  destruct (post_order_events json_dumps json_loads g self (Order.order_payload o)
              (AutoTaker.order_clock w k i0) (AutoTaker.order_outcome w k i0) _ Hc)
    as (logs & _ & _ & _ & H4).
  destruct (AutoTaker.post_order json_dumps json_loads g self (Order.order_payload o)
              (AutoTaker.order_clock w k i0) (AutoTaker.order_outcome w k i0)) as [evs res].
  cbn [snd] in H4. subst res.
  destruct i as [|i].
  - rewrite Nat.add_0_r in He. rewrite He. reflexivity.
  - specialize (Hb 0%nat) as H0. rewrite Nat.add_0_r in H0. rewrite H0 by lia.
    cbn [AutoTaker.gather].
    apply (IH i (S i0)).
    + intros j Hj. replace (S i0 + j)%nat with (i0 + S j)%nat by lia. apply Hb. lia.
    + cbn in Hl. lia.
    + replace (S i0 + i)%nat with (i0 + S i)%nat by lia. exact He.
Qed.

Lemma loop_first_unhandled (self : AutoTaker.t) (sk : bytes) (w : AutoTaker.world)
      (e : exn) (i : nat) : forall k k0 n,
  Base64.b64decode (encode_utf8 (AutoTaker.paradigm_taker_secret_key self)) = Ok sk ->
  boundaries_in_float_range self ->
  (forall k' j, (k' < k)%nat ->
                unhandled json_loads (AutoTaker.order_outcome w (k0 + k') j) = None) ->
  (forall j, (j < i)%nat ->
             unhandled json_loads (AutoTaker.order_outcome w (k0 + k) j) = None) ->
  (i < List.length (AutoTaker.order_payloads self))%nat ->
  unhandled json_loads (AutoTaker.order_outcome w (k0 + k) i) = Some e ->
  (k < n)%nat ->
  AutoTaker.loop json_dumps json_loads g self w k0 n
  = map (fun k' =>
           AutoTaker.Slept
             (AutoTaker.create_tasks json_dumps json_loads g self w k' 0
                (AutoTaker.order_payloads self))
             (AutoTaker.uniform (AutoTaker.order_submission_lower_boundary self)
                                (AutoTaker.order_submission_higher_boundary self)
                                (AutoTaker.random w k')))
        (seq k0 k)
    ++ [AutoTaker.Aborted
          (AutoTaker.create_tasks json_dumps json_loads g self w (k0 + k) 0
             (AutoTaker.order_payloads self)) e].
Proof.
  induction k as [|k IH]; intros k0 n Hk Hr Hp Hb Hl He Hn;
    (destruct n as [|n]; [lia|]); cbn [AutoTaker.loop]; unfold AutoTaker.one_round at 1.
  - rewrite Nat.add_0_r in *.
    rewrite (gather_first_unhandled self sk w k0 e _ i 0 Hk Hb Hl He).
    reflexivity.
  - rewrite (gather_handled self sk w k0 _ 0 Hk).
    + rewrite (random_uniform_in_range self _ Hr).
      cbn [seq map app]. f_equal.
      replace (k0 + S k)%nat with (S k0 + k)%nat by lia.
      apply IH; try assumption; try lia.
      * intros k' j Hlt. replace (S k0 + k')%nat with (k0 + S k')%nat by lia.
        apply Hp. lia.
      * intros j Hj. replace (S k0 + k)%nat with (k0 + S k)%nat by lia. now apply Hb.
      * replace (S k0 + k)%nat with (k0 + S k)%nat by lia. exact He.
    + intro j. specialize (Hp 0%nat j). rewrite Nat.add_0_r in Hp. apply Hp. lia.
Qed.

End Passes.

(** X13.  In every run of [manager] the listing is requested at most once, and
    first: no event after the first one is a GET request, the start-up
    sends no order, and a run whose start-up raises has sent no order at
    all.  With a key that decodes the first event is the GET of the
    listing. *)
Theorem listing_is_requested_once_and_first
      (json_dumps : dict -> str) (json_loads : bytes -> result pyval) (g : str)
      (self : AutoTaker.t) (w : AutoTaker.world) (n : nat) :
  let run := AutoTaker.manager json_dumps json_loads g self w n in
  existsb is_get (tl (trace run)) = false /\
  existsb is_post (fst run) = false /\
  (forall e, snd run = Raise e -> existsb is_post (trace run) = false) /\
  (forall sk,
      Base64.b64decode (encode_utf8 (AutoTaker.paradigm_taker_secret_key self)) = Ok sk ->
      exists rest,
        trace run
        = Request "GET" (String.append g "/v1/fs/strategies?page_size=100")
            (signed_headers (AutoTaker.paradigm_taker_access_key self) sk
               "GET" "/v1/fs/strategies?page_size=100" "" (AutoTaker.listing_clock w))
            None :: rest).
Proof.
  intro run. subst run.
  destruct (Base64.b64decode (encode_utf8 (AutoTaker.paradigm_taker_secret_key self)))
    as [sk|e0] eqn:Hk.
  - pose proof (create_rest_headers_cases self "GET" "/v1/fs/strategies?page_size=100"
                  "" (AutoTaker.listing_clock w)) as Hc.
    rewrite Hk in Hc.
    destruct (get_strategies_events json_loads g self (AutoTaker.listing_clock w)
                (AutoTaker.listing_outcome w) _ Hc) as (logs & H1 & H2).
    destruct (logs_hold_no_request logs H2) as (Hg & Hp & _).
    rewrite manager_cases. unfold trace. cbn [fst snd].
    rewrite ingest_events, H1.
    destruct (snd (AutoTaker.ingest_available_strategies json_loads g self
                     (AutoTaker.listing_clock w) (AutoTaker.listing_outcome w)))
      as [strategies|e].
    + cbn [app tl]. rewrite existsb_app, Hg, loop_sends_no_get.
      split; [reflexivity|split; [exact Hp|split; [discriminate|]]].
      intros sk' E. injection E as <-. eexists. reflexivity.
    + cbn [app tl]. rewrite app_nil_r.
      split; [exact Hg|split; [exact Hp|split; [intros _ _; exact Hp|]]].
      intros sk' E. injection E as <-. eexists. reflexivity.
  - rewrite (manager_undecodable_key json_dumps json_loads g self w n e0 Hk).
    split; [reflexivity|split; [reflexivity|split; [reflexivity|discriminate]]].
Qed.

Lemma ingest_ok_key_decodes
      (json_loads : bytes -> result pyval) (g : str)
      (self : AutoTaker.t) (now : Q) (o : http_outcome) (evs : list event)
      (strategies : list Strategy.t) :
  AutoTaker.ingest_available_strategies json_loads g self now o = (evs, Ok strategies) ->
  exists sk,
    Base64.b64decode (encode_utf8 (AutoTaker.paradigm_taker_secret_key self)) = Ok sk.
Proof.
  intro H.
  pose proof (create_rest_headers_cases self "GET" "/v1/fs/strategies?page_size=100"
                "" now) as Hc.
  destruct (Base64.b64decode (encode_utf8 (AutoTaker.paradigm_taker_secret_key self)))
    as [sk|e]; [exists sk; reflexivity|].
  unfold AutoTaker.ingest_available_strategies, AutoTaker.get_strategies in H.
  rewrite Hc in H. discriminate.
Qed.

(** X14.  The list of orders is built once, from the strategies the start-up
    read, and every pass of the loop works on that same list: it creates
    two tasks for each strategy, and in a pass that completes each task has
    sent one request, whose JSON is the market payload of its order, BUY
    before SELL, strategy after strategy. *)
Theorem every_pass_submits_the_same_payloads
      (json_dumps : dict -> str) (json_loads : bytes -> result pyval) (g : str)
      (self : AutoTaker.t) (w : AutoTaker.world) (n : nat)
      (evs : list event) (strategies : list Strategy.t) :
  AutoTaker.ingest_available_strategies json_loads g self
    (AutoTaker.listing_clock w) (AutoTaker.listing_outcome w) = (evs, Ok strategies) ->
  exists rounds,
    AutoTaker.manager json_dumps json_loads g self w n = (evs, Ok rounds) /\
    forall r, In r rounds ->
      List.length (round_tasks r) = (2 * List.length strategies)%nat /\
      (is_slept r = true ->
       map (fun t => request_bodies (fst t)) (round_tasks r)
       = map (fun p => [Some p])
           (flat_map
              (fun s =>
                 [market_payload (AutoTaker.paradigm_taker_account_name self)
                    TradeAction.BUY s;
                  market_payload (AutoTaker.paradigm_taker_account_name self)
                    TradeAction.SELL s])
              strategies)).
Proof.
  intro Hi.
  destruct (ingest_ok_key_decodes json_loads g self _ _ evs strategies Hi) as [sk Hk].
  rewrite manager_cases, Hi. cbn [fst snd].
  eexists. split; [reflexivity|].
  intros r Hin.
  destruct (loop_round_tasks json_dumps json_loads g _ w n 0 r Hin) as [k' ->].
  set (self1 := AutoTaker.set_availabile_strateies strategies self).
  set (self2 := AutoTaker.set_order_payloads (AutoTaker.construct_order_payloads self1) self1).
  change (AutoTaker.order_payloads self2) with (AutoTaker.construct_order_payloads self1).
  split.
  - rewrite create_tasks_length, construct_order_payloads_flat. apply pairs_length.
  - intros _.
    rewrite (create_tasks_bodies json_dumps json_loads g self2 sk w k' _ 0 Hk).
    pose proof (order_payloads_market self1) as Hm.
    change (AutoTaker.paradigm_taker_account_name self1)
      with (AutoTaker.paradigm_taker_account_name self) in Hm.
    change (AutoTaker.availabile_strateies self1) with strategies in Hm.
    rewrite <- Hm, map_map. reflexivity.
Qed.

(** One strategy, every order rejected with status 400: in each of three
    passes the two tasks send the BUY and the SELL payload. *)
Lemma every_pass_submits_the_same_payloads_witness :
  exists rounds,
    AutoTaker.manager sample_json_dumps sample_json_loads sample_url sample_taker
      (sample_world (Response (sample_response 200 one_strategy_body))
                    (fun _ _ => Response (sample_response 400 "{}"))) 3
    = (fst (AutoTaker.ingest_available_strategies sample_json_loads sample_url sample_taker
              (13600000001 # 8) (Response (sample_response 200 one_strategy_body))),
       Ok rounds) /\
    List.length rounds = 3%nat.
Proof.
  destruct (every_pass_submits_the_same_payloads sample_json_dumps sample_json_loads
              sample_url sample_taker
              (sample_world (Response (sample_response 200 one_strategy_body))
                            (fun _ _ => Response (sample_response 400 "{}"))) 3
              (fst (AutoTaker.ingest_available_strategies sample_json_loads sample_url
                      sample_taker (13600000001 # 8)
                      (Response (sample_response 200 one_strategy_body))))
              [Strategy.Build (PStr "strat-1") (PInt 5)])
    as (rounds & H & _).
  - vm_compute; reflexivity.
  - exists rounds. split; [exact H|].
    assert (E : snd (AutoTaker.manager sample_json_dumps sample_json_loads sample_url
                       sample_taker
                       (sample_world (Response (sample_response 200 one_strategy_body))
                                     (fun _ _ => Response (sample_response 400 "{}"))) 3)
                = Ok rounds) by (rewrite H; reflexivity).
    vm_compute in E. injection E as <-. reflexivity.
Defined.

(** X15.  The first submission that raises ends the loop.  With sleep
    boundaries in the range of the floats (of magnitude at most 2^1022),
    when pass k is the first with a submission that [post_order] does not
    handle, and that submission is the only such one of its pass, the
    passes before k each complete and sleep, pass k ends with the
    submission's exception instead of sleeping, and no later pass begins,
    however long the run lasts. *)
Theorem first_unhandled_failure_ends_the_loop
      (json_dumps : dict -> str) (json_loads : bytes -> result pyval) (g : str)
      (self : AutoTaker.t) (sk : bytes) (w : AutoTaker.world)
      (k i : nat) (e : exn) (n : nat) :
  Base64.b64decode (encode_utf8 (AutoTaker.paradigm_taker_secret_key self)) = Ok sk ->
  boundaries_in_float_range self ->
  (forall k' j, (k' < k)%nat ->
                unhandled json_loads (AutoTaker.order_outcome w k' j) = None) ->
  (forall j, j <> i -> unhandled json_loads (AutoTaker.order_outcome w k j) = None) ->
  (i < List.length (AutoTaker.order_payloads self))%nat ->
  unhandled json_loads (AutoTaker.order_outcome w k i) = Some e ->
  (k < n)%nat ->
  AutoTaker.loop json_dumps json_loads g self w 0 n
  = map (fun k' =>
           AutoTaker.Slept
             (AutoTaker.create_tasks json_dumps json_loads g self w k' 0
                (AutoTaker.order_payloads self))
             (AutoTaker.uniform (AutoTaker.order_submission_lower_boundary self)
                                (AutoTaker.order_submission_higher_boundary self)
                                (AutoTaker.random w k')))
        (seq 0 k)
    ++ [AutoTaker.Aborted
          (AutoTaker.create_tasks json_dumps json_loads g self w k 0
             (AutoTaker.order_payloads self)) e] /\
  List.length (AutoTaker.loop json_dumps json_loads g self w 0 n) = S k.
Proof.
  intros Hk Hr Hp Hb Hl He Hn.
  assert (E := loop_first_unhandled json_dumps json_loads g self sk w e i k 0 n Hk Hr).
  cbn [Nat.add] in E.
  rewrite E; try assumption.
  - split; [reflexivity|].
    rewrite length_app, length_map, length_seq. cbn [List.length]. lia.
  - intros j Hj. apply Hb. lia.
Qed.

(** One strategy; every order is accepted, except that in the second pass
    the connection of the SELL order is reset: of five passes two are
    made. *)
Lemma first_unhandled_failure_ends_the_loop_witness :
  List.length
    (AutoTaker.loop sample_json_dumps sample_json_loads sample_url
       (AutoTaker.set_order_payloads
          [Order.init (PStr "strat-1") (PStr "BUY") (PInt 5) (PStr "taker-account");
           Order.init (PStr "strat-1") (PStr "SELL") (PInt 5) (PStr "taker-account")]
          sample_taker)
       (sample_world (Response (sample_response 200 one_strategy_body))
          (fun k j => match k, j with
                      | 1%nat, 1%nat => Failure (ClientOSError "Connection reset by peer")
                      | _, _ => Response (sample_response 201 "{}")
                      end)) 0 5) = 2%nat.
Proof.
  apply (first_unhandled_failure_ends_the_loop sample_json_dumps sample_json_loads
           sample_url
           (AutoTaker.set_order_payloads
              [Order.init (PStr "strat-1") (PStr "BUY") (PInt 5) (PStr "taker-account");
               Order.init (PStr "strat-1") (PStr "SELL") (PInt 5) (PStr "taker-account")]
              sample_taker)
           "secret-key-bytes"
           (sample_world (Response (sample_response 200 one_strategy_body))
              (fun k j => match k, j with
                          | 1%nat, 1%nat => Failure (ClientOSError "Connection reset by peer")
                          | _, _ => Response (sample_response 201 "{}")
                          end))
           1%nat 1%nat (ClientOSError "Connection reset by peer") 5%nat).
  - vm_compute; reflexivity.
  - split; vm_compute; discriminate.
  - intros k' j H. destruct k' as [|k']; [|lia]. vm_compute; reflexivity.
  - intros j H. destruct j as [|[|j]]; [vm_compute; reflexivity|congruence|vm_compute; reflexivity].
  - cbn; lia.
  - vm_compute; reflexivity.
  - lia.
Defined.

(** X16.  [get_strategies] has no handler of its own.  Whatever the client raises
    for the listing request, a [ClientConnectorError] included, ends
    [manager] in its start-up with that exception, after the one GET request
    and with no log record and no order; the same exception from the
    request of an order is only logged by [post_order]: its call sends the
    request, writes the one record [[POST] /orders ClientConnectorError]
    with the exception, and returns. *)
Theorem listing_failure_is_fatal
      (json_dumps : dict -> str) (json_loads : bytes -> result pyval) (g : str)
      (self : AutoTaker.t) (sk : bytes) (w : AutoTaker.world) (n : nat) (e : exn) :
  Base64.b64decode (encode_utf8 (AutoTaker.paradigm_taker_secret_key self)) = Ok sk ->
  AutoTaker.listing_outcome w = Failure e ->
  AutoTaker.manager json_dumps json_loads g self w n
  = ([Request "GET" (String.append g "/v1/fs/strategies?page_size=100")
        (signed_headers (AutoTaker.paradigm_taker_access_key self) sk
           "GET" "/v1/fs/strategies?page_size=100" "" (AutoTaker.listing_clock w))
        None],
     Raise e) /\
  (isinstance_ClientConnectorError e = true ->
   forall payload now,
     AutoTaker.post_order json_dumps json_loads g self payload now (Failure e)
     = ([Request "POST" (String.append g "/v1/fs/orders")
           (signed_headers (AutoTaker.paradigm_taker_access_key self) sk
              "POST" "/v1/fs/orders" (json_dumps payload) now)
           (Some payload);
         Logged INFO [Lit "[POST] /orders ClientConnectorError: "; FExn e]],
        Ok tt)).
Proof.
  intros Hk Ho. split.
  - pose proof (create_rest_headers_cases self "GET" "/v1/fs/strategies?page_size=100"
                  "" (AutoTaker.listing_clock w)) as Hc.
    rewrite Hk in Hc.
    unfold AutoTaker.manager, AutoTaker.ingest_available_strategies,
      AutoTaker.get_strategies.
    rewrite Ho, Hc. reflexivity.
  - intros Hi payload now.
    pose proof (create_rest_headers_cases self "POST" "/v1/fs/orders"
                  (json_dumps payload) now) as Hc.
    rewrite Hk in Hc.
    rewrite (post_order_failure json_dumps json_loads g self payload now e _ Hc), Hi.
    reflexivity.
Qed.

(** The connection cannot be opened: for the listing the start-up ends, for
    an order the failure is logged. *)
Lemma listing_failure_is_fatal_witness :
  snd (AutoTaker.manager sample_json_dumps sample_json_loads sample_url sample_taker
         (sample_world (Failure (ClientConnectorError "Cannot connect to host"))
                       (fun _ _ => Response (sample_response 201 "{}"))) 3)
  = Raise (ClientConnectorError "Cannot connect to host") /\
  AutoTaker.post_order sample_json_dumps sample_json_loads sample_url sample_taker []
    (1700000001 # 1) (Failure (ClientConnectorError "Cannot connect to host"))
  = ([Request "POST" "https://api.fs.test.paradigm.co/v1/fs/orders"
        (signed_headers "access-key" "secret-key-bytes" "POST" "/v1/fs/orders" "{}"
           (1700000001 # 1))
        (Some []);
      Logged INFO [Lit "[POST] /orders ClientConnectorError: ";
                   FExn (ClientConnectorError "Cannot connect to host")]],
     Ok tt).
Proof.
  destruct (listing_failure_is_fatal sample_json_dumps sample_json_loads sample_url
              sample_taker "secret-key-bytes"
              (sample_world (Failure (ClientConnectorError "Cannot connect to host"))
                            (fun _ _ => Response (sample_response 201 "{}"))) 3
              (ClientConnectorError "Cannot connect to host")) as [H1 H2].
  - vm_compute; reflexivity.
  - reflexivity.
  - split; [rewrite H1; reflexivity|].
    apply (H2 eq_refl [] (1700000001 # 1)).
Defined.
